(** * lms-react-ui: response normalizer, validation rules and session/page state

    A shallow embedding of the parts of the front-end that carry logic:

    - [src/services/apiService.js]   (module [ApiService])
    - [src/utils/validation.js]      (module [Validation])
    - [src/App.jsx] and the page components' submit handlers (module [App])

    JavaScript values are modelled by the type [Json] of parsed JSON trees,
    extended with [undefined] as [None] ([JsVal := option Json]).  Code that
    can raise an exception returns a [Result]; handlers that write React
    state thread an explicit [AppState]. *)

From Stdlib Require Import String Ascii List ZArith Bool Lia DecimalString.
Import ListNotations.
Open Scope string_scope.
Open Scope Z_scope.

Set Warnings "-register-all".

(* ================================================================== *)
(** * JavaScript values *)
(* ================================================================== *)

(** The result of [JSON.parse]: it never contains [undefined].  Numbers are
    the integers (every number that occurs in the payloads of this program is
    one); an object is the list of its own properties, keys pairwise
    distinct. *)
Inductive Json : Type :=
| JNull
| JBool (b : bool)
| JNum (n : Z)
| JStr (s : string)
| JArr (items : list Json)
| JObj (fields : list (string * Json)).

(** A run-time value: [None] is [undefined]. *)
Definition JsVal : Type := option Json.

Definition undefined : JsVal := None.
Definition null : JsVal := Some JNull.
Definition str (s : string) : JsVal := Some (JStr s).

(** Exceptions the modelled code can meet. *)
Inductive Exn : Type :=
| TypeError      (* property read on null or undefined *)
| FetchFailed    (* the promise returned by fetch() rejects *)
| SyntaxError.   (* response.json() rejects: the body is not JSON *)

Inductive Result (A : Type) : Type :=
| Ok (a : A)
| Throw (e : Exn).
Arguments Ok {A} a.
Arguments Throw {A} e.

Definition rbind {A B} (m : Result A) (k : A -> Result B) : Result B :=
  match m with
  | Ok a => k a
  | Throw e => Throw e
  end.

(** [try { m } catch (error) { h error }] *)
Definition try_catch {A} (m : Result A) (h : Exn -> Result A) : Result A :=
  match m with
  | Ok a => Ok a
  | Throw e => h e
  end.

Declare Scope result_scope.
Delimit Scope result_scope with result.
Notation "x <- m ;; k" := (rbind m (fun x => k))
  (at level 61, m at next level, right associativity) : result_scope.

(** ToBoolean: [undefined], [null], [false], [0] and [''] are falsy. *)
Definition truthy (v : JsVal) : bool :=
  match v with
  | None => false
  | Some JNull => false
  | Some (JBool b) => b
  | Some (JNum n) => negb (n =? 0)
  | Some (JStr s) => negb (s =? "")%string
  | Some (JArr _) => true
  | Some (JObj _) => true
  end.

(** [v == null]: true of [null] and [undefined] only. *)
Definition nullish (v : JsVal) : bool :=
  match v with
  | None => true
  | Some JNull => true
  | Some _ => false
  end.

(** [a || b] *)
Definition js_or (a b : JsVal) : JsVal := if truthy a then a else b.

Fixpoint lookup (key : string) (fields : list (string * Json)) : JsVal :=
  match fields with
  | [] => None
  | (k, v) :: rest => if (k =? key)%string then Some v else lookup key rest
  end.

(** An object literal [{ k1: v1, ... }]; a property whose value is
    [undefined] is left out of the tree (it reads as [undefined] either
    way). *)
Fixpoint object (props : list (string * JsVal)) : list (string * Json) :=
  match props with
  | [] => []
  | (k, Some v) :: rest => (k, v) :: object rest
  | (_, None) :: rest => object rest
  end.

(** [obj.key = v] *)
Fixpoint assign (key : string) (v : Json) (fields : list (string * Json))
  : list (string * Json) :=
  match fields with
  | [] => [(key, v)]
  | (k, x) :: rest =>
      if (k =? key)%string then (k, v) :: rest
      else (k, x) :: assign key v rest
  end.

(** [v.key] for the property names this program reads ([success], [data],
    [error], [errors], [message], [details], [role], [user], [access_token],
    [email], [otp]).  Reading a property of [null] or [undefined] throws; on an
    object it yields the own property or [undefined]; strings, numbers,
    booleans and arrays have none of these names, own or inherited. *)
Definition get (v : JsVal) (key : string) : Result JsVal :=
  match v with
  | None => Throw TypeError
  | Some JNull => Throw TypeError
  | Some (JObj fields) => Ok (lookup key fields)
  | Some _ => Ok undefined
  end.

(** [v?.key] *)
Definition get_opt (v : JsVal) (key : string) : JsVal :=
  match v with
  | Some (JObj fields) => lookup key fields
  | _ => undefined
  end.

(** [typeof v === 'object'] *)
Definition typeof_object (v : JsVal) : bool :=
  match v with
  | Some JNull => true
  | Some (JArr _) => true
  | Some (JObj _) => true
  | _ => false
  end.

(** [v !== undefined] *)
Definition is_defined (v : JsVal) : bool :=
  match v with
  | None => false
  | Some _ => true
  end.

(** [v !== null] *)
Definition is_not_null (v : JsVal) : bool :=
  match v with
  | Some JNull => false
  | _ => true
  end.

(** The decimal digits of an integer: what [String(n)] gives for
    [|n| < 10^21]; from there on JavaScript prints an exponent. *)
Definition string_of_Z (n : Z) : string := NilZero.string_of_int (Z.to_int n).

Fixpoint join (sep : string) (parts : list string) : string :=
  match parts with
  | [] => ""
  | [p] => p
  | p :: rest => p ++ sep ++ join sep rest
  end.

(** The result of [String(v)] on a JSON tree, when the conversion returns
    ([to_String] below says when it does); in an array, [null] elements
    print as the empty string. *)
Fixpoint string_of_json (j : Json) : string :=
  match j with
  | JNull => "null"
  | JBool true => "true"
  | JBool false => "false"
  | JNum n => string_of_Z n
  | JStr s => s
  | JArr items =>
      join "," (map (fun x => match x with
                              | JNull => ""
                              | _ => string_of_json x
                              end) items)
  | JObj _ => "[object Object]"
  end.

(** The result of [String(v)], when the conversion returns. *)
Definition js_String (v : JsVal) : string :=
  match v with
  | None => "undefined"
  | Some j => string_of_json j
  end.

(** ToString throws a TypeError on an object whose own property
    [toString] is not callable (no value of a JSON tree is, and the
    inherited [valueOf] returns the object itself), and on an array with
    such an element, which [Array.prototype.join] converts in turn. *)
Fixpoint String_throws (j : Json) : bool :=
  match j with
  | JArr items => existsb String_throws items
  | JObj fields => is_defined (lookup "toString" fields)
  | _ => false
  end.

(** [String(v)], [`${v}`] and every other conversion by ToString. *)
Definition to_String (v : JsVal) : Result string :=
  match v with
  | None => Ok "undefined"
  | Some j => if String_throws j then Throw TypeError else Ok (string_of_json j)
  end.

(** The values ToString converts. *)
Definition printable (v : JsVal) : bool :=
  match v with
  | None => true
  | Some j => negb (String_throws j)
  end.

(** [a === b] on primitives.  Two arrays or two objects are equal only when
    they are the same reference, which a tree does not record: the model
    answers [false] for them. *)
Definition strict_eq (a b : JsVal) : bool :=
  match a, b with
  | None, None => true
  | Some JNull, Some JNull => true
  | Some (JBool x), Some (JBool y) => Bool.eqb x y
  | Some (JNum x), Some (JNum y) => x =? y
  | Some (JStr x), Some (JStr y) => (x =? y)%string
  | _, _ => false
  end.

(* ================================================================== *)
(** * src/services/apiService.js *)
(* ================================================================== *)

Module ApiService.

(** The standardized response: [{ success: true, data }] or
    [{ success: false, error }].  Every [return] of [request] writes the
    [success] field as a literal, so the two object shapes are the two
    constructors; [data] and [error] hold whatever expression the source
    puts there, [undefined] included. *)
Inductive ApiResult : Type :=
| Success (data : JsVal)
| Failure (error : JsVal).

(** [response.success] *)
Definition success (r : ApiResult) : bool :=
  match r with
  | Success _ => true
  | Failure _ => false
  end.

(** [response.data] and [response.error]: a field the literal does not have
    reads as [undefined]. *)
Definition data (r : ApiResult) : JsVal :=
  match r with
  | Success d => d
  | Failure _ => undefined
  end.

Definition error (r : ApiResult) : JsVal :=
  match r with
  | Success _ => undefined
  | Failure e => e
  end.

(** The [config] object handed to [fetch].  [body] is the value given to
    [JSON.stringify] ([None]: the body is [null]); the tree stands for its
    text. *)
Record Config : Type := mkConfig {
  method : string;
  headers : list (string * string);
  body : option Json
}.

(** What the host does with one call: [fetch] may reject, [response.json()]
    may reject, or a JSON value is parsed from the body (whatever the HTTP
    status). *)
Inductive FetchOutcome : Type :=
| FetchRejected
| JsonRejected
| JsonParsed (rawJsonResponse : Json).

Definition Fetch : Type := string -> Config -> FetchOutcome.

(** [await fetch(url, config)] followed by [await response.json()] *)
Definition await_json (o : FetchOutcome) : Result JsVal :=
  match o with
  | FetchRejected => Throw FetchFailed
  | JsonRejected => Throw SyntaxError
  | JsonParsed raw => Ok (Some raw)
  end.

Definition network_error : ApiResult :=
  Failure (Some (JObj (object
    [("message", str "Network error or server unreachable.");
     ("code", str "NETWORK_ERROR")]))).

(** [{ message: m, code: c, details: d }] *)
Definition error_object (message : JsVal) (code : string) (details : JsVal)
  : JsVal :=
  Some (JObj (object [("message", message); ("code", str code);
                      ("details", details)])).

(** [a && b] with [b] evaluated only when [a] holds. *)
Definition lazy_and (a b : Result bool) : Result bool :=
  rbind a (fun x => if x then b else Ok false).

(** The classification of the parsed body: lines 46-77 of the source, the
    part of the [try] block after [response.json()]. *)
Definition classify (rawJsonResponse : JsVal) : Result ApiResult :=
  (success_ <- get rawJsonResponse "success" ;;
   if is_defined success_ then
     if truthy success_ then
       data_ <- get rawJsonResponse "data" ;;
       Ok (Success data_)
     else
       errors_ <- get rawJsonResponse "errors" ;;
       if truthy errors_ then
         message_ <- get rawJsonResponse "message" ;;
         Ok (Failure (error_object (js_or message_ (str "Validation failed"))
                                   "VALIDATION_ERROR" errors_))
       else
         error_ <- get rawJsonResponse "error" ;;
         Ok (Failure error_)
   else
     plain <- lazy_and (Ok (typeof_object rawJsonResponse))
               (lazy_and (Ok (is_not_null rawJsonResponse))
                 (lazy_and
                    (error_ <- get rawJsonResponse "error" ;;
                     Ok (negb (truthy error_)))
                    (errors_ <- get rawJsonResponse "errors" ;;
                     Ok (negb (truthy errors_))))) ;;
     if plain then Ok (Success rawJsonResponse)
     else
       message_ <- get rawJsonResponse "message" ;;
       Ok (Failure (error_object
                      (js_or message_
                         (str "An unexpected API response format was received."))
                      "UNEXPECTED_RESPONSE" rawJsonResponse)))%result.

Section Request.

(** [import.meta.env.VITE_API_BASE_URL], supplied at build time. *)
Variable BASE_URL : string.

(** The headers, for a token that ToString converts ([build_headers]
    below is the code as it is written, conversion and all). *)
Definition make_headers (token : JsVal) : list (string * string) :=
  [("Content-Type", "application/json"); ("Accept", "application/json")]
  ++ (if truthy token
      then [("Authorization", ("Bearer " ++ js_String token)%string)]
      else []).

Definition make_config (method_ : string) (data_ token : JsVal) : Config :=
  {| method := method_;
     headers := make_headers token;
     body := if truthy data_ then data_ else None |}.

(** The body of the [try] block. *)
Definition request_try (net : Fetch) (endpoint : string) (config : Config)
  : Result ApiResult :=
  (rawJsonResponse <- await_json (net (BASE_URL ++ endpoint)%string config) ;;
   classify rawJsonResponse)%result.

(** [apiService.request(endpoint, method, data = null, token = null)] *)
Definition request (net : Fetch) (endpoint method_ : string)
  (data_ token : JsVal) : Result ApiResult :=
  let config := make_config method_ data_ token in
  try_catch (request_try net endpoint config)
            (fun _ => Ok network_error).

(** The statements before the [try] block, as they are written: the
    template literal [`Bearer ${token}`] converts a truthy token by
    ToString, outside any handler.  [make_headers] is their result when
    the conversion returns. *)
Definition build_headers (token : JsVal)
  : Result (list (string * string)) :=
  let headers :=
    [("Content-Type", "application/json"); ("Accept", "application/json")] in
  if truthy token then
    (bearer <- to_String token ;;
     Ok (headers
           ++ [("Authorization", ("Bearer " ++ bearer)%string)])%list)%result
  else Ok headers.

(** A whole call: [Ok r] when the promise is fulfilled with [r], [Throw]
    when it is rejected.  [request] is the call once the headers are
    built. *)
Definition request_call (net : Fetch) (endpoint method_ : string)
  (data_ token : JsVal) : Result ApiResult :=
  (_ <- build_headers token ;;
   request net endpoint method_ data_ token)%result.

End Request.

End ApiService.

(* ================================================================== *)
(** * Regular expressions and string helpers *)
(* ================================================================== *)

(** A JavaScript string is modelled by a [string] whose characters are its
    code units, restricted to the range 0-255. *)
Module RegExp.

Local Open Scope char_scope.

Definition in_range (lo hi c : ascii) : bool :=
  (Ascii.leb lo c && Ascii.leb c hi)%bool.

(** [\d] *)
Definition digit (c : ascii) : bool := in_range "0" "9" c.

(** [\s]: tab, LF, VT, FF, CR, space and the no-break space. *)
Definition space (c : ascii) : bool :=
  (in_range "009" "013" c || Ascii.eqb c " " || Ascii.eqb c "160")%bool.

(** [\S] *)
Definition nonspace (c : ascii) : bool := negb (space c).

(** [.]: anything but a line terminator. *)
Definition dot (c : ascii) : bool :=
  negb (Ascii.eqb c "010" || Ascii.eqb c "013")%bool.

Definition upper (c : ascii) : bool := in_range "A" "Z" c.
Definition lower (c : ascii) : bool := in_range "a" "z" c.
Definition any (_ : ascii) : bool := true.

Inductive re : Type :=
| Void
| Eps
| Cls (p : ascii -> bool)
| Cat (a b : re)
| Alt (a b : re)
| Star (a : re).

(** [a+] and [a{n}] *)
Definition Plus (a : re) : re := Cat a (Star a).

Fixpoint Times (n : nat) (a : re) : re :=
  match n with
  | O => Eps
  | S k => Cat a (Times k a)
  end.

Definition Chr (c : ascii) : re := Cls (Ascii.eqb c).

Fixpoint nullable (r : re) : bool :=
  match r with
  | Void => false
  | Eps => true
  | Cls _ => false
  | Cat a b => nullable a && nullable b
  | Alt a b => nullable a || nullable b
  | Star _ => true
  end.

(** Brzozowski derivative. *)
Fixpoint deriv (c : ascii) (r : re) : re :=
  match r with
  | Void => Void
  | Eps => Void
  | Cls p => if p c then Eps else Void
  | Cat a b =>
      if nullable a then Alt (Cat (deriv c a) b) (deriv c b)
      else Cat (deriv c a) b
  | Alt a b => Alt (deriv c a) (deriv c b)
  | Star a => Cat (deriv c a) (Star a)
  end.

(** The whole input is in the language of [r]. *)
Fixpoint matches (r : re) (s : list ascii) : bool :=
  match s with
  | [] => nullable r
  | c :: rest => matches (deriv c r) rest
  end.

(** A pattern literal: [/^body$/] when [anchored], [/body/] otherwise. *)
Record pattern : Type := mkPattern {
  anchored : bool;
  body : re
}.

(** [pattern.test(s)]: without anchors a match may start and end anywhere. *)
Definition test (p : pattern) (s : string) : bool :=
  let r := if anchored p then body p
           else Cat (Star (Cls any)) (Cat (body p) (Star (Cls any))) in
  matches r (list_ascii_of_string s).

End RegExp.

(** [s.trim()] *)
Fixpoint trim_start (s : list ascii) : list ascii :=
  match s with
  | c :: rest => if RegExp.space c then trim_start rest else s
  | [] => []
  end.

Definition trim (s : string) : string :=
  string_of_list_ascii
    (rev (trim_start (rev (trim_start (list_ascii_of_string s))))).

(** [s.length] *)
Definition js_length (s : string) : Z := Z.of_nat (String.length s).

(* ================================================================== *)
(** * src/utils/validation.js *)
(* ================================================================== *)

Module Validation.

Import RegExp.

(** A default parameter: the default applies when the argument is
    [undefined]. *)
Definition default_arg (arg : option string) (dflt : string) : string :=
  match arg with
  | Some m => m
  | None => dflt
  end.

(** A rule returns a message or [undefined].  Where a rule converts its
    value by ToString ([String(value)], [regex.test(value)]) the model
    uses [js_String]: the rules are modelled on the values ToString
    converts, and on the others ([printable v = false]) the source
    throws. *)
Definition Rule : Type := JsVal -> option string.

Definition isRequired (value : JsVal) (message : option string)
  : option string :=
  let message := default_arg message "This field is required." in
  if (negb (is_not_null value) || negb (is_defined value)
      || (trim (js_String value) =? "")%string)%bool
  then Some message
  else None.

(** [/\S+@\S+\.\S+/] *)
Definition email_pattern : pattern :=
  mkPattern false
    (Cat (Plus (Cls nonspace))
       (Cat (Chr "@"%char)
          (Cat (Plus (Cls nonspace))
             (Cat (Chr "."%char) (Plus (Cls nonspace)))))).

Definition isValidEmail (value : JsVal) (message : option string)
  : option string :=
  let message := default_arg message "Invalid email format." in
  if (truthy value && negb (test email_pattern (js_String value)))%bool
  then Some message
  else None.

Definition hasMinLength (value : JsVal) (minLength : Z)
  (message : option string) : option string :=
  let message :=
    default_arg message
      ("Must be at least " ++ string_of_Z minLength ++ " characters.")%string in
  if (truthy value && (js_length (js_String value) <? minLength))%bool
  then Some message
  else None.

Definition isMatching (value otherValue : JsVal) (message : option string)
  : option string :=
  let message := default_arg message "Values do not match." in
  if negb (strict_eq value otherValue) then Some message else None.

(** [/^\d+$/] *)
Definition digits_pattern : pattern := mkPattern true (Plus (Cls digit)).

Definition isNumericAndLength (value : JsVal) (length : Z)
  (message : option string) : option string :=
  let message :=
    default_arg message
      ("Must be a " ++ string_of_Z length ++ "-digit number.")%string in
  if (truthy value
      && (negb (test digits_pattern (js_String value))
          || negb (js_length (js_String value) =? length)))%bool
  then Some message
  else None.

Definition isNotSameAs (value otherValue : JsVal) (message : option string)
  : option string :=
  let message := default_arg message "Cannot be the same as the current value." in
  if strict_eq value otherValue then Some message else None.

(** [if (error)] on a rule's result: a message is truthy unless empty. *)
Definition is_error (error : option string) : bool :=
  truthy (option_map JStr error).

Fixpoint validate (value : JsVal) (rules : list Rule) : option string :=
  match rules with
  | [] => None
  | rule :: rest =>
      let error := rule value in
      if is_error error then error else validate value rest
  end.

(** [/[A-Z]/], [/[a-z]/], [/\d/], [/[^a-zA-Z0-9\s]/] *)
Definition uppercase_pattern : pattern := mkPattern false (Cls upper).
Definition lowercase_pattern : pattern := mkPattern false (Cls lower).
Definition number_pattern : pattern := mkPattern false (Cls digit).
Definition symbol_pattern : pattern :=
  mkPattern false
    (Cls (fun c => negb (lower c || upper c || digit c || space c)%bool)).

Definition hasUppercase (value : JsVal) (message : option string)
  : option string :=
  let message :=
    default_arg message "Must contain at least one uppercase letter." in
  if (truthy value && negb (test uppercase_pattern (js_String value)))%bool
  then Some message
  else None.

Definition hasLowercase (value : JsVal) (message : option string)
  : option string :=
  let message :=
    default_arg message "Must contain at least one lowercase letter." in
  if (truthy value && negb (test lowercase_pattern (js_String value)))%bool
  then Some message
  else None.

Definition hasNumber (value : JsVal) (message : option string)
  : option string :=
  let message := default_arg message "Must contain at least one number." in
  if (truthy value && negb (test number_pattern (js_String value)))%bool
  then Some message
  else None.

Definition hasSymbol (value : JsVal) (message : option string)
  : option string :=
  let message := default_arg message "Must contain at least one symbol." in
  if (truthy value && negb (test symbol_pattern (js_String value)))%bool
  then Some message
  else None.

End Validation.

(* ================================================================== *)
(** * src/App.jsx and the submit handlers of the pages *)
(* ================================================================== *)

Module App.

Import ApiService.

(** [currentPage]: [{ name, data }] *)
Record Page : Type := mkPage {
  page_name : string;
  page_data : JsVal
}.

(** The state owned by [App] (its [useState] cells and its [useRef]), the
    [authToken] slot of [localStorage], and what the run has done so far:
    the calls made to [apiService.request], the [setTimeout] callbacks not
    yet fired, and whether [checkAuth] is suspended at its [await].

    State local to a page component (field values, the [errors] object, the
    form's own [loading] flag) is not part of it: field values are arguments
    of the handlers, and writes to the other two are left out. *)
Record AppState : Type := mkState {
  user : JsVal;
  token : JsVal;
  loading : bool;
  flashMessage : JsVal;
  flashType : JsVal;
  currentPage : Page;
  isInitialMount : bool;
  authToken : option string;
  tokenAtMount : JsVal;
  awaitingUser : bool;
  timers : nat;
  requests : list (string * Config)
}.

(** A handler: it may throw, and what it wrote before throwing stays. *)
Definition M (A : Type) : Type := AppState -> Result A * AppState.

Definition ret {A} (a : A) : M A := fun s => (Ok a, s).

Definition bind {A B} (m : M A) (k : A -> M B) : M B :=
  fun s =>
    match m s with
    | (Ok a, s') => k a s'
    | (Throw e, s') => (Throw e, s')
    end.

Definition lift {A} (r : Result A) : M A := fun s => (r, s).

Definition modify (f : AppState -> AppState) : M unit :=
  fun s => (Ok tt, f s).

Declare Scope handler_scope.
Delimit Scope handler_scope with handler.
Notation "x <- m ;; k" := (bind m (fun x => k))
  (at level 61, m at next level, right associativity) : handler_scope.
Notation "m ;; k" := (bind m (fun _ => k))
  (at level 61, right associativity) : handler_scope.

(** ** The setters *)

Definition setUser (v : JsVal) : M unit :=
  modify (fun s =>
    mkState v (token s) (loading s) (flashMessage s) (flashType s)
      (currentPage s) (isInitialMount s) (authToken s) (tokenAtMount s)
      (awaitingUser s) (timers s) (requests s)).

Definition setToken (v : JsVal) : M unit :=
  modify (fun s =>
    mkState (user s) v (loading s) (flashMessage s) (flashType s)
      (currentPage s) (isInitialMount s) (authToken s) (tokenAtMount s)
      (awaitingUser s) (timers s) (requests s)).

Definition setLoading (b : bool) : M unit :=
  modify (fun s =>
    mkState (user s) (token s) b (flashMessage s) (flashType s)
      (currentPage s) (isInitialMount s) (authToken s) (tokenAtMount s)
      (awaitingUser s) (timers s) (requests s)).

Definition setFlashMessage (v : JsVal) : M unit :=
  modify (fun s =>
    mkState (user s) (token s) (loading s) v (flashType s)
      (currentPage s) (isInitialMount s) (authToken s) (tokenAtMount s)
      (awaitingUser s) (timers s) (requests s)).

Definition setFlashType (v : JsVal) : M unit :=
  modify (fun s =>
    mkState (user s) (token s) (loading s) (flashMessage s) v
      (currentPage s) (isInitialMount s) (authToken s) (tokenAtMount s)
      (awaitingUser s) (timers s) (requests s)).

Definition setCurrentPage (p : Page) : M unit :=
  modify (fun s =>
    mkState (user s) (token s) (loading s) (flashMessage s) (flashType s)
      p (isInitialMount s) (authToken s) (tokenAtMount s)
      (awaitingUser s) (timers s) (requests s)).

(** [isInitialMount.current = b] *)
Definition set_isInitialMount (b : bool) : M unit :=
  modify (fun s =>
    mkState (user s) (token s) (loading s) (flashMessage s) (flashType s)
      (currentPage s) b (authToken s) (tokenAtMount s)
      (awaitingUser s) (timers s) (requests s)).

(** [localStorage.setItem('authToken', v)] converts [v] by ToString,
    throws when that throws and stores the string otherwise (the storage
    itself is taken to accept every write);
    [localStorage.removeItem('authToken')]. *)
Definition localStorage_write (slot : option string) : M unit :=
  modify (fun s =>
    mkState (user s) (token s) (loading s) (flashMessage s) (flashType s)
      (currentPage s) (isInitialMount s) slot (tokenAtMount s)
      (awaitingUser s) (timers s) (requests s)).

Definition localStorage_setItem (v : JsVal) : M unit :=
  (item <- lift (to_String v) ;;
   localStorage_write (Some item))%handler.

Definition localStorage_removeItem : M unit := localStorage_write None.

Definition set_awaitingUser (b : bool) : M unit :=
  modify (fun s =>
    mkState (user s) (token s) (loading s) (flashMessage s) (flashType s)
      (currentPage s) (isInitialMount s) (authToken s) (tokenAtMount s)
      b (timers s) (requests s)).

(** [setTimeout(callback, 5000)] *)
Definition setTimeout : M unit :=
  modify (fun s =>
    mkState (user s) (token s) (loading s) (flashMessage s) (flashType s)
      (currentPage s) (isInitialMount s) (authToken s) (tokenAtMount s)
      (awaitingUser s) (S (timers s)) (requests s)).

Definition timer_fired : M unit :=
  modify (fun s =>
    mkState (user s) (token s) (loading s) (flashMessage s) (flashType s)
      (currentPage s) (isInitialMount s) (authToken s) (tokenAtMount s)
      (awaitingUser s) (pred (timers s)) (requests s)).

Definition log_request (endpoint : string) (config : Config) : M unit :=
  modify (fun s =>
    mkState (user s) (token s) (loading s) (flashMessage s) (flashType s)
      (currentPage s) (isInitialMount s) (authToken s) (tokenAtMount s)
      (awaitingUser s) (timers s) (requests s ++ [(endpoint, config)])).

Definition read {A} (f : AppState -> A) : M A := fun s => (Ok (f s), s).

Section WithBaseUrl.

Variable BASE_URL : string.

(** [await apiService.request(endpoint, method, data, token)]: the call is
    recorded, and the host's answer [net] decides the response.  The
    tokens the application passes are [null], the token found in
    [localStorage] and the token in state, which ToString converts in
    every reachable state; the headers are then built without an
    exception and the call is [request]. *)
Definition api_request (net : Fetch) (endpoint method_ : string)
  (data_ token_ : JsVal) : M ApiResult :=
  (log_request endpoint (make_config method_ data_ token_) ;;
   lift (request BASE_URL net endpoint method_ data_ token_))%handler.

(** ** App *)

Definition showFlashMessage (message type : JsVal) : M unit :=
  (setFlashMessage message ;;
   setFlashType type ;;
   setTimeout)%handler.

(** The callback given to [setTimeout] by [showFlashMessage]. *)
Definition flash_timeout : M unit :=
  (timer_fired ;;
   setFlashMessage null ;;
   setFlashType null)%handler.

(** [onClose] of [FlashMessage]. *)
Definition flash_close : M unit := setFlashMessage null.

Definition redirectToDashboard (role : JsVal) : M unit :=
  if strict_eq role (str "super_admin") then
    setCurrentPage (mkPage "dashboard" null)
  else if strict_eq role (str "school_admin") then
    setCurrentPage (mkPage "dashboard" null)
  else if strict_eq role (str "hod") then
    setCurrentPage (mkPage "dashboard" null)
  else if strict_eq role (str "teacher") then
    setCurrentPage (mkPage "dashboard" null)
  else if strict_eq role (str "student") then
    setCurrentPage (mkPage "dashboard" null)
  else
    setCurrentPage (mkPage "login" null).

(** The state at the first render: [useState(localStorage.getItem(...))],
    [useState(true)], [useRef(true)]; the mount effect closes over this
    render's [token]. *)
Definition mount (stored : option string) : AppState :=
  let token0 := match stored with
                | Some t => str t
                | None => null
                end in
  {| user := null;
     token := token0;
     loading := true;
     flashMessage := null;
     flashType := null;
     currentPage := mkPage "login" null;
     isInitialMount := true;
     authToken := stored;
     tokenAtMount := token0;
     awaitingUser := false;
     timers := 0%nat;
     requests := [] |}.

(** [checkAuth] up to its [await]: the guard on the ref, and the call to
    [apiService.request('/user', 'GET', null, token)] when there is a
    token. *)
Definition checkAuth_start : M unit :=
  (initial <- read isInitialMount ;;
   if initial : bool then
     set_isInitialMount false ;;
     token_ <- read tokenAtMount ;;
     if truthy token_ then
       log_request "/user" (make_config "GET" null token_) ;;
       set_awaitingUser true
     else
       setCurrentPage (mkPage "login" null) ;;
       setLoading false
   else ret tt)%handler.

(** [checkAuth] from its [await] on, once the host has answered. *)
Definition checkAuth_resume (net : Fetch) : M unit :=
  (set_awaitingUser false ;;
   token_ <- read tokenAtMount ;;
   response <- lift (request BASE_URL net "/user" "GET" null token_) ;;
   (if success response then
      setUser (data response) ;;
      role <- lift (get (data response) "role") ;;
      redirectToDashboard role
    else
      setToken null ;;
      localStorage_removeItem ;;
      showFlashMessage (str "Your session has expired. Please log in again.")
                       (str "danger") ;;
      setCurrentPage (mkPage "login" null)) ;;
   setLoading false)%handler.

(** ** LoginForm *)

(** [/.+@.+\..+/] *)
Definition LoginForm_email_pattern : RegExp.pattern :=
  RegExp.mkPattern false
    (RegExp.Cat (RegExp.Plus (RegExp.Cls RegExp.dot))
       (RegExp.Cat (RegExp.Chr "@"%char)
          (RegExp.Cat (RegExp.Plus (RegExp.Cls RegExp.dot))
             (RegExp.Cat (RegExp.Chr "."%char)
                (RegExp.Plus (RegExp.Cls RegExp.dot)))))).

(** [validateForm] returns [newErrors]; the form is valid when
    [Object.keys(newErrors).length === 0]. *)
Definition no_keys (newErrors : list (string * Json)) : bool :=
  match newErrors with
  | [] => true
  | _ :: _ => false
  end.

Definition LoginForm_validateForm (email password : string)
  : list (string * Json) :=
  let newErrors := [] in
  let newErrors :=
    if negb (truthy (str email)) then
      assign "email" (JStr "Email is required.") newErrors
    else if negb (RegExp.test LoginForm_email_pattern email) then
      assign "email" (JStr "Email format is invalid.") newErrors
    else newErrors in
  let newErrors :=
    if negb (truthy (str password)) then
      assign "password" (JStr "Password is required.") newErrors
    else if js_length password <? 6 then
      assign "password" (JStr "Password must be at least 6 characters.")
        newErrors
    else newErrors in
  newErrors.

(** The [else] branch shared by the submit handlers:
    [setErrors(response.error.details || {})] then
    [showFlashMessage(response.error.message || fallback, 'danger')]. *)
Definition report_failure (response : ApiResult) (fallback : string) : M unit :=
  (_ <- lift (get (error response) "details") ;;
   message <- lift (get (error response) "message") ;;
   showFlashMessage (js_or message (str fallback)) (str "danger"))%handler.

Definition LoginForm_handleSubmit (net : Fetch) (email password : string)
  : M unit :=
  if negb (no_keys (LoginForm_validateForm email password)) then ret tt
  else
    (response <- api_request net "/login" "POST"
                   (Some (JObj (object [("email", str email);
                                        ("password", str password)])))
                   null ;;
     if success response then
       access_token <- lift (get (data response) "access_token") ;;
       localStorage_setItem access_token ;;
       setToken access_token ;;
       user_ <- lift (get (data response) "user") ;;
       setUser user_ ;;
       showFlashMessage (str "Login successful!") (str "success") ;;
       role <- lift (get user_ "role") ;;
       redirectToDashboard role
     else
       report_failure response "Login failed. Please try again.")%handler.

(** ** ForgotPasswordForm *)

Definition ForgotPasswordForm_validateEmail (email : string)
  : list (string * Json) :=
  let newErrors := [] in
  if negb (truthy (str email)) then
    assign "email" (JStr "Email is required.") newErrors
  else if (email =? "debug-invalid-email")%string then
    assign "email" (JStr "Email format is invalid.") newErrors
  else if negb (RegExp.test Validation.email_pattern email) then
    assign "email" (JStr "Email format is invalid.") newErrors
  else newErrors.

Definition ForgotPasswordForm_handleRequestOtp (net : Fetch) (email : string)
  : M unit :=
  if negb (no_keys (ForgotPasswordForm_validateEmail email)) then ret tt
  else
    (response <- api_request net "/forgot-password" "POST"
                   (Some (JObj (object [("email", str email)]))) null ;;
     if success response then
       message <- lift (get (data response) "message") ;;
       showFlashMessage (js_or message (str "OTP sent successfully!"))
                        (str "success") ;;
       setCurrentPage
         (mkPage "verify-otp" (Some (JObj (object [("email", str email)]))))
     else
       report_failure response "Failed to send OTP. Please try again.")%handler.

(** ** OTPVerificationForm *)

(** [/^\d{6}$/] *)
Definition otp_pattern : RegExp.pattern :=
  RegExp.mkPattern true (RegExp.Times 6 (RegExp.Cls RegExp.digit)).

Definition OTPVerificationForm_validateForm (otp : string)
  : list (string * Json) :=
  let newErrors := [] in
  if negb (truthy (str otp)) then
    assign "otp" (JStr "OTP is required.") newErrors
  else if negb (RegExp.test otp_pattern otp) then
    assign "otp" (JStr "OTP must be a 6-digit number.") newErrors
  else newErrors.

(** [initialData] is [currentPage.data]; the component's [email] is
    [initialData?.email || '']. *)
Definition OTPVerificationForm_handleVerifyOtp (net : Fetch)
  (initialData : JsVal) (otp : string) : M unit :=
  let email := js_or (get_opt initialData "email") (str "") in
  if negb (no_keys (OTPVerificationForm_validateForm otp)) then ret tt
  else
    (response <- api_request net "/verify-otp" "POST"
                   (Some (JObj (object [("email", email); ("otp", str otp)])))
                   null ;;
     if success response then
       message <- lift (get (data response) "message") ;;
       showFlashMessage (js_or message (str "OTP verified successfully!"))
                        (str "success") ;;
       setCurrentPage
         (mkPage "reset-password"
            (Some (JObj (object [("email", email); ("otp", str otp)]))))
     else
       report_failure response
         "OTP verification failed. Please try again.")%handler.

(** ** ResetPasswordForm *)

(** [email] and [otp] after the component's effect has run: the effect
    overwrites the initial [initialData?.x || ''] with [initialData.x]
    whenever [initialData] is truthy. *)
Definition ResetPasswordForm_field (initialData : JsVal) (key : string)
  : JsVal :=
  if truthy initialData then get_opt initialData key
  else js_or (get_opt initialData key) (str "").

Definition ResetPasswordForm_validateForm (email otp : JsVal)
  (password passwordConfirmation : string) : list (string * Json) :=
  let newErrors := [] in
  let newErrors :=
    if negb (truthy email) then
      assign "email" (JStr "Email is required.") newErrors
    else newErrors in
  let newErrors :=
    if negb (truthy otp) then
      assign "otp" (JStr "OTP is required.") newErrors
    else newErrors in
  let newErrors :=
    if negb (truthy (str password)) then
      assign "password" (JStr "New password is required.") newErrors
    else if js_length password <? 6 then
      assign "password" (JStr "Password must be at least 6 characters.")
        newErrors
    else newErrors in
  let newErrors :=
    if negb (password =? passwordConfirmation)%string then
      assign "passwordConfirmation" (JStr "Passwords do not match.") newErrors
    else newErrors in
  newErrors.

Definition ResetPasswordForm_handleResetPassword (net : Fetch)
  (initialData : JsVal) (password passwordConfirmation : string) : M unit :=
  let email := ResetPasswordForm_field initialData "email" in
  let otp := ResetPasswordForm_field initialData "otp" in
  if negb (no_keys (ResetPasswordForm_validateForm
                      email otp password passwordConfirmation))
  then ret tt
  else
    (response <- api_request net "/reset-password" "POST"
                   (Some (JObj (object
                      [("email", email); ("otp", otp);
                       ("password", str password);
                       ("password_confirmation", str passwordConfirmation)])))
                   null ;;
     if success response then
       message <- lift (get (data response) "message") ;;
       showFlashMessage (js_or message (str "Password updated successfully!"))
                        (str "success") ;;
       setCurrentPage (mkPage "login" null)
     else
       report_failure response
         "Password reset failed. Please try again.")%handler.

(** ** ProfileSettings *)

Definition ProfileSettings_validateForm
  (currentPassword newPassword confirmNewPassword : string)
  : list (string * Json) :=
  let newErrors := [] in
  let newErrors :=
    if negb (truthy (str currentPassword)) then
      assign "currentPassword" (JStr "Current password is required.") newErrors
    else newErrors in
  let newErrors :=
    if negb (truthy (str newPassword)) then
      assign "newPassword" (JStr "New password is required.") newErrors
    else if js_length newPassword <? 6 then
      assign "newPassword"
        (JStr "New password must be at least 6 characters.") newErrors
    else newErrors in
  let newErrors :=
    if (truthy (str newPassword) && truthy (str currentPassword)
        && (newPassword =? currentPassword)%string)%bool then
      assign "newPassword"
        (JStr "New password cannot be the same as the current password.")
        newErrors
    else newErrors in
  let newErrors :=
    if negb (newPassword =? confirmNewPassword)%string then
      assign "confirmNewPassword" (JStr "Passwords do not match.") newErrors
    else newErrors in
  newErrors.

Definition ProfileSettings_handleChangePassword (net : Fetch)
  (currentPassword newPassword confirmNewPassword : string) : M unit :=
  if negb (no_keys (ProfileSettings_validateForm
                      currentPassword newPassword confirmNewPassword))
  then ret tt
  else
    (token_ <- read token ;;
     response <- api_request net "/profile/reset-password" "POST"
                   (Some (JObj (object
                      [("current_password", str currentPassword);
                       ("new_password", str newPassword);
                       ("new_password_confirmation", str confirmNewPassword)])))
                   token_ ;;
     if success response then
       message <- lift (get (data response) "message") ;;
       showFlashMessage
         (js_or message
            (str "Password updated successfully! Please log in again."))
         (str "success") ;;
       localStorage_removeItem ;;
       setToken null ;;
       setUser null ;;
       setCurrentPage (mkPage "login" null)
     else
       report_failure response
         "Failed to update password. Please try again.")%handler.

(** ** Dashboard *)

Definition Dashboard_handleLogout : M unit :=
  (localStorage_removeItem ;;
   setToken null ;;
   setUser null ;;
   showFlashMessage (str "Logged out successfully.") (str "success") ;;
   setCurrentPage (mkPage "login" null))%handler.

(** ** The event loop *)

(** The [onClick] links that call [setCurrentPage({ name, data: null })]:
    the page that shows the link and the page it names. *)
Definition links : list (string * string) :=
  [("login", "forgot-password");
   ("forgot-password", "login");
   ("verify-otp", "forgot-password");
   ("reset-password", "login");
   ("profile-settings", "dashboard");
   ("dashboard", "profile-settings")].

(** What can happen to a mounted [App].  A submit event stands for the
    whole handler, run when the host answers with [net]. *)
Inductive Event : Type :=
| MountEffect
| Rerender
| UserResponse (net : Fetch)
| LoginSubmit (net : Fetch) (email password : string)
| RequestOtpSubmit (net : Fetch) (email : string)
| VerifyOtpSubmit (net : Fetch) (otp : string)
| NewPasswordSubmit (net : Fetch) (password passwordConfirmation : string)
| ChangePasswordSubmit (net : Fetch)
    (currentPassword newPassword confirmNewPassword : string)
| LogoutClick
| LinkClick (target : string)
| FlashTimeout
| FlashClose.

Definition handler (ev : Event) : M unit :=
  match ev with
  | MountEffect => checkAuth_start
  | Rerender => ret tt
  | UserResponse net => checkAuth_resume net
  | LoginSubmit net email password => LoginForm_handleSubmit net email password
  | RequestOtpSubmit net email => ForgotPasswordForm_handleRequestOtp net email
  | VerifyOtpSubmit net otp =>
      (page <- read currentPage ;;
       OTPVerificationForm_handleVerifyOtp net (page_data page) otp)%handler
  | NewPasswordSubmit net password passwordConfirmation =>
      (page <- read currentPage ;;
       ResetPasswordForm_handleResetPassword net (page_data page)
         password passwordConfirmation)%handler
  | ChangePasswordSubmit net currentPassword newPassword confirmNewPassword =>
      ProfileSettings_handleChangePassword net
        currentPassword newPassword confirmNewPassword
  | LogoutClick => Dashboard_handleLogout
  | LinkClick target => setCurrentPage (mkPage target null)
  | FlashTimeout => flash_timeout
  | FlashClose => flash_close
  end.

(** When an event can happen.  [App] renders the pages, and with them every
    form, button and link, only once [loading] is false; the continuation
    of [checkAuth] runs only while its request is outstanding.  A submit
    handler may finish after the page has changed, so the forms are not
    tied to the page on show. *)
Definition enabled (s : AppState) (ev : Event) : bool :=
  match ev with
  | MountEffect => true
  | Rerender => true
  | UserResponse _ => awaitingUser s
  | LinkClick target =>
      negb (loading s)
      && existsb (fun l => (fst l =? page_name (currentPage s))%string
                           && (snd l =? target)%string) links
  | FlashTimeout => negb (Nat.eqb (timers s) 0)
  | _ => negb (loading s)
  end.

(** An exception thrown by a handler is an unhandled rejection: the
    application goes on from the state the handler left. *)
Definition step (s : AppState) (ev : Event) : AppState :=
  if enabled s ev then snd (handler ev s) else s.

Definition run (s : AppState) (evs : list Event) : AppState :=
  fold_left step evs s.

(** How many times the session-check endpoint has been called. *)
Definition sessionChecks (s : AppState) : nat :=
  List.length (filter (fun r => (fst r =? "/user")%string) (requests s)).

End WithBaseUrl.

End App.

(* ================================================================== *)
(** * Facts about JavaScript values *)
(* ================================================================== *)

Module JsFacts.

Lemma get_Ok (v : JsVal) (key : string) (a : JsVal) :
  get v key = Ok a -> a = get_opt v key /\ nullish v = false.
Proof.
  destruct v as [[ | b | n | st | items | fields]|]; cbn;
    intros H; inversion H; split; reflexivity.
Qed.

Lemma get_Throw (v : JsVal) (key : string) (e : Exn) :
  get v key = Throw e -> nullish v = true.
Proof.
  destruct v as [[ | b | n | st | items | fields]|]; cbn;
    intros H; inversion H; reflexivity.
Qed.

Lemma get_defined (v : JsVal) (key : string) :
  nullish v = false -> get v key = Ok (get_opt v key).
Proof.
  destruct v as [[ | b | n | st | items | fields]|]; cbn;
    intros H; try discriminate H; reflexivity.
Qed.

Lemma to_String_cases (v : JsVal) :
  (printable v = true /\ to_String v = Ok (js_String v))
  \/ (printable v = false /\ to_String v = Throw TypeError).
Proof.
  destruct v as [j|]; [|left; split; reflexivity].
  unfold printable, to_String, js_String.
  destruct (String_throws j); [right | left]; split; reflexivity.
Qed.

Lemma to_String_printable (v : JsVal) :
  printable v = true -> to_String v = Ok (js_String v).
Proof.
  intros H. destruct (to_String_cases v) as [[_ E]|[E _]]; [exact E|].
  congruence.
Qed.

Lemma to_String_unprintable (v : JsVal) :
  printable v = false -> to_String v = Throw TypeError.
Proof.
  intros H. destruct (to_String_cases v) as [[E _]|[_ E]]; [|exact E].
  congruence.
Qed.



Lemma truthy_not_nullish (v : JsVal) : truthy v = true -> nullish v = false.
Proof.
  destruct v as [[ | b | n | st | items | fields]|]; cbn;
    intros H; try discriminate H; reflexivity.
Qed.

Lemma strict_eq_str (role : JsVal) (r : string) :
  strict_eq role (str r) = true <-> role = str r.
Proof.
  unfold str.
  destruct role as [[ | b | n | st | items | fields]|]; cbn;
    try (split; [discriminate | intros H; inversion H]).
  destruct (String.eqb_spec st r); split; intros H; congruence.
Qed.

End JsFacts.

(* ================================================================== *)
(** * Properties of the response normalizer *)
(* ================================================================== *)

Module ApiServiceFacts.

Import ApiService.

(** Once a body has been parsed, [request] is [classify] under the
    [catch]. *)
Lemma request_parsed (BASE_URL : string) (net : Fetch)
  (endpoint method_ : string) (data_ token : JsVal) (raw : Json) :
  net (BASE_URL ++ endpoint)%string (make_config method_ data_ token)
    = JsonParsed raw ->
  request BASE_URL net endpoint method_ data_ token
    = try_catch (classify (Some raw)) (fun _ => Ok network_error).
Proof.
  intros Hnet. unfold request, request_try. rewrite Hnet. reflexivity.
Qed.

(** [request] always returns: the [catch] turns every exception of the
    [try] block into the NETWORK_ERROR envelope. *)
Lemma request_total (BASE_URL : string) (net : Fetch)
  (endpoint method_ : string) (data_ token : JsVal) :
  { r | request BASE_URL net endpoint method_ data_ token = Ok r }.
Proof.
  unfold request.
  destruct (request_try BASE_URL net endpoint (make_config method_ data_ token))
    as [r|e]; cbn; eexists; reflexivity.
Qed.

(** The three tiers of [classify] on an object, by its own properties. *)
Ltac classify_object Hs :=
  unfold classify; cbn [get rbind lazy_and typeof_object is_not_null];
  rewrite Hs; cbn [is_defined].

Lemma classify_object_success (fields : list (string * Json)) (s : Json) :
  lookup "success" fields = Some s ->
  truthy (Some s) = true ->
  classify (Some (JObj fields)) = Ok (Success (lookup "data" fields)).
Proof.
  intros Hs Ht. classify_object Hs. rewrite Ht. reflexivity.
Qed.

Lemma classify_object_validation (fields : list (string * Json)) (s e : Json) :
  lookup "success" fields = Some s ->
  truthy (Some s) = false ->
  lookup "errors" fields = Some e ->
  truthy (Some e) = true ->
  classify (Some (JObj fields))
    = Ok (Failure (error_object
                     (js_or (lookup "message" fields) (str "Validation failed"))
                     "VALIDATION_ERROR" (Some e))).
Proof.
  intros Hs Hf He Ht. classify_object Hs. rewrite Hf, He, Ht. reflexivity.
Qed.

Lemma classify_object_error (fields : list (string * Json)) (s : Json) :
  lookup "success" fields = Some s ->
  truthy (Some s) = false ->
  truthy (lookup "errors" fields) = false ->
  classify (Some (JObj fields)) = Ok (Failure (lookup "error" fields)).
Proof.
  intros Hs Hf He. classify_object Hs. rewrite Hf, He. reflexivity.
Qed.

Lemma classify_object_plain (fields : list (string * Json)) :
  lookup "success" fields = None ->
  truthy (lookup "error" fields) = false ->
  truthy (lookup "errors" fields) = false ->
  classify (Some (JObj fields)) = Ok (Success (Some (JObj fields))).
Proof.
  intros Hs He Hes. classify_object Hs. rewrite He, Hes. reflexivity.
Qed.

Lemma classify_object_unexpected (fields : list (string * Json)) :
  lookup "success" fields = None ->
  truthy (lookup "error" fields) || truthy (lookup "errors" fields) = true ->
  classify (Some (JObj fields))
    = Ok (Failure (error_object
                     (js_or (lookup "message" fields)
                        (str "An unexpected API response format was received."))
                     "UNEXPECTED_RESPONSE" (Some (JObj fields)))).
Proof.
  intros Hs He. classify_object Hs.
  destruct (truthy (lookup "error" fields)); cbn [negb].
  - reflexivity.
  - cbn [orb] in He. rewrite He. reflexivity.
Qed.

(** [classify] throws on [null] only: [null.success] is a TypeError. *)
Lemma classify_throws_only_on_null (raw : Json) :
  (exists r, classify (Some raw) = Ok r) <-> raw <> JNull.
Proof.
  split.
  - intros [r Hr] ->. discriminate Hr.
  - intros Hne.
    destruct raw as [ | b | n | s | items | fields ];
      try (eexists; reflexivity).
    + contradiction.
    + unfold classify; cbn [get rbind lazy_and typeof_object is_not_null].
      destruct (lookup "success" fields) as [s|]; cbn [is_defined].
      * destruct (truthy (Some s)); [eexists; reflexivity|].
        destruct (truthy (lookup "errors" fields)); eexists; reflexivity.
      * destruct (truthy (lookup "error" fields)); cbn [negb];
          [eexists; reflexivity|].
        destruct (truthy (lookup "errors" fields)); eexists; reflexivity.
Qed.

(** The normalizer on the bodies the specification lists. *)
Example classify_success_envelope :
  classify (Some (JObj [("success", JBool true);
                        ("data", JObj [("x", JNum 1)])]))
  = Ok (Success (Some (JObj [("x", JNum 1)]))).
Proof. reflexivity. Qed.

Example classify_plain_object :
  classify (Some (JObj [("id", JNum 5); ("name", JStr "A")]))
  = Ok (Success (Some (JObj [("id", JNum 5); ("name", JStr "A")]))).
Proof. reflexivity. Qed.

Example classify_error_pass_through :
  classify (Some (JObj [("success", JBool false);
                        ("error", JObj [("message", JStr "Invalid credentials.");
                                        ("code", JStr "AUTH_FAILED")])]))
  = Ok (Failure (Some (JObj [("message", JStr "Invalid credentials.");
                             ("code", JStr "AUTH_FAILED")]))).
Proof. reflexivity. Qed.

Example classify_errors_without_success :
  classify (Some (JObj [("message", JStr "The given data was invalid.");
                        ("errors", JObj [("email", JArr [JStr "taken"])])]))
  = Ok (Failure (error_object (str "The given data was invalid.")
                   "UNEXPECTED_RESPONSE"
                   (Some (JObj [("message", JStr "The given data was invalid.");
                                ("errors",
                                 JObj [("email", JArr [JStr "taken"])])])))).
Proof. reflexivity. Qed.

(** The body [{ foo: "bar", error: null }]. *)
Definition foo_bar_error_null : Json :=
  JObj [("foo", JStr "bar"); ("error", JNull)].

(** The envelope C1 expects for a body [raw] that carries no message. *)
Definition unexpected_response (raw : Json) : ApiResult :=
  Failure (error_object
             (str "An unexpected API response format was received.")
             "UNEXPECTED_RESPONSE" (Some raw)).

(** C1, as stated, fails: for the body [{ foo: "bar", error: null }] the
    normalizer does not return the UNEXPECTED_RESPONSE envelope; [request]
    returns [{ success: true, data: rawBody }]. *)
Lemma C1_counterexample :
  classify (Some foo_bar_error_null)
    <> Ok (unexpected_response foo_bar_error_null)
  /\ request "https://lms.example/api"
       (fun _ _ => JsonParsed foo_bar_error_null)
       "/user" "GET" null (str "t0k3n")
     = Ok (Success (Some foo_bar_error_null)).
Proof.
  split.
  - vm_compute. discriminate.
  - reflexivity.
Qed.

(** C1 (amended): for the body [{ foo: "bar", error: null }] the
    classification step returns the success envelope
    [{ success: true, data: rawBody }].  Step 2 asks for falsy values of
    [error] and [errors], not for absent keys: every object without a
    [success] key whose [error] and [errors] are both falsy (absent, [null],
    [false], [0] or ['']) is returned as the success payload. *)
Theorem C1_falsy_error_is_success_payload :
  classify (Some foo_bar_error_null) = Ok (Success (Some foo_bar_error_null))
  /\ forall (BASE_URL : string) (net : Fetch) (endpoint method_ : string)
       (data_ token : JsVal) (fields : list (string * Json)),
     net (BASE_URL ++ endpoint)%string (make_config method_ data_ token)
       = JsonParsed (JObj fields) ->
     lookup "success" fields = None ->
     truthy (lookup "error" fields) = false ->
     truthy (lookup "errors" fields) = false ->
     request BASE_URL net endpoint method_ data_ token
       = Ok (Success (Some (JObj fields))).
Proof.
  split; [reflexivity|].
  intros B net endpoint m d t fields Hnet Hs He Hes.
  rewrite (request_parsed _ _ _ _ _ _ _ Hnet).
  rewrite (classify_object_plain _ Hs He Hes). reflexivity.
Qed.

Lemma C1_falsy_error_is_success_payload_witness :
  request "https://lms.example/api" (fun _ _ => JsonParsed foo_bar_error_null)
    "/user" "GET" null (str "t0k3n")
  = Ok (Success (Some foo_bar_error_null)).
Proof.
  apply (proj2 C1_falsy_error_is_success_payload
           "https://lms.example/api" (fun _ _ => JsonParsed foo_bar_error_null)
           "/user" "GET" null (str "t0k3n")
           [("foo", JStr "bar"); ("error", JNull)]); reflexivity.
Defined.

(** The message of the validation envelope as C3 words it:
    [rawBody.message] if the key is present, ['Validation failed']
    otherwise. *)
Definition message_if_present (fields : list (string * Json)) : JsVal :=
  match lookup "message" fields with
  | Some m => Some m
  | None => str "Validation failed"
  end.

(** The body [{ success: false, errors: { email: ["bad"] }, message: "" }]. *)
Definition validation_body_empty_message : list (string * Json) :=
  [("success", JBool false);
   ("errors", JObj [("email", JArr [JStr "bad"])]);
   ("message", JStr "")].

(** C3, as stated, fails: with a [message] key that is present and holds
    the empty string, the envelope does not carry [rawBody.message]; it
    carries ['Validation failed']. *)
Lemma C3_counterexample :
  lookup "message" validation_body_empty_message = Some (JStr "")
  /\ classify (Some (JObj validation_body_empty_message))
     <> Ok (Failure (error_object
                       (message_if_present validation_body_empty_message)
                       "VALIDATION_ERROR"
                       (lookup "errors" validation_body_empty_message)))
  /\ classify (Some (JObj validation_body_empty_message))
     = Ok (Failure (error_object (str "Validation failed") "VALIDATION_ERROR"
                      (lookup "errors" validation_body_empty_message))).
Proof.
  split; [reflexivity|]. split.
  - vm_compute. discriminate.
  - reflexivity.
Qed.

(** C3 (amended): for every body whose [success] key is present and falsy
    and whose [errors] is truthy, [request] returns
    [{ success: false, error: { message, code: 'VALIDATION_ERROR',
    details: rawBody.errors } }] where [message] is [rawBody.message] when
    that is truthy and ['Validation failed'] otherwise; the body
    [{ success: false, errors: { email: ["bad"] } }] yields the code
    VALIDATION_ERROR with [details.email = ["bad"]]. *)
Theorem C3_validation_error_envelope :
  (forall (BASE_URL : string) (net : Fetch) (endpoint method_ : string)
      (data_ token : JsVal) (fields : list (string * Json)) (s e : Json),
    net (BASE_URL ++ endpoint)%string (make_config method_ data_ token)
      = JsonParsed (JObj fields) ->
    lookup "success" fields = Some s ->
    truthy (Some s) = false ->
    lookup "errors" fields = Some e ->
    truthy (Some e) = true ->
    request BASE_URL net endpoint method_ data_ token
      = Ok (Failure (error_object
                       (js_or (lookup "message" fields)
                          (str "Validation failed"))
                       "VALIDATION_ERROR" (Some e))))
  /\ (forall (BASE_URL : string) (endpoint method_ : string)
        (data_ token : JsVal),
      exists err,
        request BASE_URL
          (fun _ _ => JsonParsed
             (JObj [("success", JBool false);
                    ("errors", JObj [("email", JArr [JStr "bad"])])]))
          endpoint method_ data_ token = Ok (Failure err)
        /\ get err "code" = Ok (str "VALIDATION_ERROR")
        /\ rbind (get err "details") (fun d => get d "email")
           = Ok (Some (JArr [JStr "bad"]))).
Proof.
  split.
  - intros B net endpoint m d t fields s e Hnet Hs Hf He Ht.
    rewrite (request_parsed _ _ _ _ _ _ _ Hnet).
    rewrite (classify_object_validation _ _ _ Hs Hf He Ht). reflexivity.
  - intros B endpoint m d t. eexists. split; [|split].
    + unfold request, request_try. simpl. reflexivity.
    + reflexivity.
    + reflexivity.
Qed.

Lemma C3_validation_error_envelope_witness :
  request "https://lms.example/api"
    (fun _ _ => JsonParsed
       (JObj [("success", JNull); ("message", JStr "The given data was invalid.");
              ("errors", JObj [("email", JArr [JStr "bad"])])]))
    "/login" "POST" (Some (JObj [("email", JStr "a@b.c")])) null
  = Ok (Failure (error_object (str "The given data was invalid.")
                   "VALIDATION_ERROR"
                   (Some (JObj [("email", JArr [JStr "bad"])])))).
Proof.
  apply (proj1 C3_validation_error_envelope
           "https://lms.example/api" _ "/login" "POST"
           (Some (JObj [("email", JStr "a@b.c")])) null
           [("success", JNull); ("message", JStr "The given data was invalid.");
            ("errors", JObj [("email", JArr [JStr "bad"])])]
           JNull (JObj [("email", JArr [JStr "bad"])]));
    reflexivity.
Defined.

(** The headers are built exactly for the tokens ToString converts, and
    are then those of [make_headers]. *)
Lemma build_headers_printable (token : JsVal) :
  printable token = true -> build_headers token = Ok (make_headers token).
Proof.
  intros Hp. unfold build_headers, make_headers.
  destruct (truthy token); [|reflexivity].
  rewrite (JsFacts.to_String_printable token Hp). reflexivity.
Qed.


(** On the tokens ToString converts, the whole call is [request]. *)
Lemma request_call_printable (BASE_URL : string) (net : Fetch)
  (endpoint method_ : string) (data_ token : JsVal) :
  printable token = true ->
  request_call BASE_URL net endpoint method_ data_ token
  = request BASE_URL net endpoint method_ data_ token.
Proof.
  intros Hp. unfold request_call.
  rewrite (build_headers_printable token Hp). reflexivity.
Qed.





End ApiServiceFacts.

(* ================================================================== *)
(** * Properties of the validation rules *)
(* ================================================================== *)

Module RegExpFacts.

Import RegExp.

Lemma matches_Void (l : list ascii) : matches Void l = false.
Proof. induction l as [|c l IH]; [reflexivity | exact IH]. Qed.

Lemma matches_Alt (l : list ascii) :
  forall a b, matches (Alt a b) l = matches a l || matches b l.
Proof.
  induction l as [|c l IH]; intros a b; [reflexivity|].
  cbn [matches deriv]. apply IH.
Qed.

Lemma matches_Cat_Void (l : list ascii) (r : re) :
  matches (Cat Void r) l = false.
Proof. induction l as [|c l IH]; [reflexivity | exact IH]. Qed.

Lemma matches_Cat_Eps (l : list ascii) (r : re) :
  matches (Cat Eps r) l = matches r l.
Proof.
  destruct l as [|c l]; [reflexivity|].
  cbn [matches deriv nullable]. rewrite matches_Alt, matches_Cat_Void.
  reflexivity.
Qed.

Lemma matches_Star_Cls (p : ascii -> bool) (l : list ascii) :
  matches (Star (Cls p)) l = forallb p l.
Proof.
  induction l as [|c l IH]; [reflexivity|].
  cbn [matches deriv forallb]. destruct (p c); cbn [andb].
  - rewrite matches_Cat_Eps. exact IH.
  - apply matches_Cat_Void.
Qed.

(** [/^c+$/] accepts the non-empty strings made of [c] only. *)
Lemma matches_Plus_Cls (p : ascii -> bool) (l : list ascii) :
  matches (Plus (Cls p)) l = negb (Nat.eqb (List.length l) 0) && forallb p l.
Proof.
  destruct l as [|c l]; [reflexivity|].
  unfold Plus. cbn [matches deriv nullable forallb List.length Nat.eqb negb andb].
  destruct (p c).
  - rewrite matches_Cat_Eps. apply matches_Star_Cls.
  - apply matches_Cat_Void.
Qed.

(** [\d] is one of the ten decimal digits. *)
Lemma digit_spec (c : ascii) :
  digit c = true <-> In c (list_ascii_of_string "0123456789").
Proof.
  destruct c as [[] [] [] [] [] [] [] []]; vm_compute; split;
    try discriminate; intuition discriminate.
Qed.

End RegExpFacts.

Module ValidationFacts.

Import RegExp Validation.

(** A string of exactly [n] decimal digits. *)
Definition decimal_digits (v : string) (n : Z) : Prop :=
  Forall (fun c => In c (list_ascii_of_string "0123456789"))
         (list_ascii_of_string v)
  /\ Z.of_nat (String.length v) = n.

Lemma length_list_ascii (v : string) :
  List.length (list_ascii_of_string v) = String.length v.
Proof. induction v as [|c v IH]; [reflexivity | simpl; now rewrite IH]. Qed.

Lemma string_nonempty_length (v : string) :
  v <> "" -> Nat.eqb (String.length v) 0 = false.
Proof. destruct v; [congruence | reflexivity]. Qed.

Lemma forallb_digit (v : string) :
  forallb digit (list_ascii_of_string v) = true
  <-> Forall (fun c => In c (list_ascii_of_string "0123456789"))
             (list_ascii_of_string v).
Proof.
  rewrite forallb_forall, Forall_forall.
  split; intros H c Hc; apply RegExpFacts.digit_spec, H, Hc.
Qed.

(** What [isNumericAndLength] computes on a truthy value: the test reads
    [String(value)]. *)
Lemma isNumericAndLength_value (value : JsVal) (n : Z)
  (message : option string) :
  truthy value = true ->
  isNumericAndLength value n message
  = if forallb digit (list_ascii_of_string (js_String value))
       && negb (Nat.eqb (String.length (js_String value)) 0)
       && (js_length (js_String value) =? n)
    then None
    else Some (default_arg message
                 ("Must be a " ++ string_of_Z n ++ "-digit number.")%string).
Proof.
  intros Ht. unfold isNumericAndLength, test, digits_pattern.
  cbn [anchored body]. rewrite Ht.
  rewrite RegExpFacts.matches_Plus_Cls, length_list_ascii.
  cbn [andb].
  destruct (forallb digit (list_ascii_of_string (js_String value)));
    destruct (Nat.eqb (String.length (js_String value)) 0);
    destruct (js_length (js_String value) =? n); reflexivity.
Qed.

(** On a non-empty string. *)
Lemma isNumericAndLength_string (v : string) (n : Z) (message : option string) :
  v <> "" ->
  isNumericAndLength (str v) n message
  = if forallb digit (list_ascii_of_string v) && (js_length v =? n)
    then None
    else Some (default_arg message
                 ("Must be a " ++ string_of_Z n ++ "-digit number.")%string).
Proof.
  intros Hne. rewrite isNumericAndLength_value.
  - cbn [js_String str string_of_json].
    rewrite (string_nonempty_length v Hne). cbn [negb].
    rewrite andb_true_r. reflexivity.
  - cbn. destruct (String.eqb_spec v ""); [contradiction | reflexivity].
Qed.

Lemma isNumericAndLength_passes (v : string) (n : Z) (message : option string) :
  v <> "" ->
  isNumericAndLength (str v) n message = None <-> decimal_digits v n.
Proof.
  intros Hne. rewrite (isNumericAndLength_string v n message Hne).
  unfold decimal_digits. rewrite <- forallb_digit.
  destruct (forallb digit (list_ascii_of_string v)); cbn [andb].
  - destruct (Z.eqb_spec (js_length v) n) as [Hl|Hl]; split.
    + intros _. split; [reflexivity | exact Hl].
    + reflexivity.
    + discriminate.
    + intros [_ Hl']. contradiction.
  - split; [discriminate | intros [Hd _]; discriminate Hd].
Qed.

Lemma isNumericAndLength_result (v : string) (n : Z) (message : option string) :
  v <> "" ->
  isNumericAndLength (str v) n message = None
  \/ isNumericAndLength (str v) n message
     = Some (default_arg message
               ("Must be a " ++ string_of_Z n ++ "-digit number.")%string).
Proof.
  intros Hne. rewrite (isNumericAndLength_string v n message Hne).
  destruct (forallb digit (list_ascii_of_string v) && (js_length v =? n));
    [left | right]; reflexivity.
Qed.

(** C9: [isNumericAndLength("12345", 6)] and
    [isNumericAndLength("abcdef", 6)] return the error message,
    [isNumericAndLength("123456", 6)] returns [undefined]; and for every
    non-empty string [v], [isNumericAndLength(v, n)] returns its message
    exactly when [v] is not a string of exactly [n] decimal digits (and
    [undefined] exactly when it is). *)
Theorem C9_isNumericAndLength :
  isNumericAndLength (str "12345") 6 None = Some "Must be a 6-digit number."
  /\ isNumericAndLength (str "abcdef") 6 None = Some "Must be a 6-digit number."
  /\ isNumericAndLength (str "123456") 6 None = None
  /\ forall (v : string) (n : Z) (message : option string),
       v <> "" ->
       (isNumericAndLength (str v) n message
          = Some (default_arg message
                    ("Must be a " ++ string_of_Z n ++ "-digit number.")%string)
        <-> ~ decimal_digits v n)
       /\ (isNumericAndLength (str v) n message = None
           <-> decimal_digits v n).
Proof.
  split; [reflexivity|]. split; [reflexivity|]. split; [reflexivity|].
  intros v n message Hne.
  pose proof (isNumericAndLength_passes v n message Hne) as Hpass.
  split; [|exact Hpass]. split.
  - intros Hres Hd. apply Hpass in Hd. rewrite Hd in Hres. discriminate Hres.
  - intros Hnot.
    destruct (isNumericAndLength_result v n message Hne) as [Hn|Hs];
      [|exact Hs].
    exfalso. apply Hnot, Hpass, Hn.
Qed.

Lemma C9_isNumericAndLength_witness :
  isNumericAndLength (str "000042") 6 None = None
  <-> decimal_digits "000042" 6.
Proof.
  apply (proj2 (proj2 (proj2 C9_isNumericAndLength)) "000042" 6 None).
  discriminate.
Defined.

Example isRequired_blank :
  isRequired (str " ") None = Some "This field is required."
  /\ isRequired (str "a") None = None
  /\ isRequired null None = Some "This field is required."
  /\ isRequired undefined None = Some "This field is required.".
Proof. repeat split. Qed.

Example isValidEmail_examples :
  isValidEmail (str "user@example.com") None = None
  /\ isValidEmail (str "user@example") None = Some "Invalid email format."
  /\ isValidEmail (str "") None = None.
Proof. repeat split. Qed.

(** The rule chain as the specification words it: the result of the first
    rule, in list order, whose result is not [undefined]. *)
Fixpoint first_defined (value : JsVal) (rules : list Rule) : option string :=
  match rules with
  | [] => None
  | rule :: rest =>
      match rule value with
      | Some m => Some m
      | None => first_defined value rest
      end
  end.

(** A chain of two library rules, the first with an empty custom message. *)
Definition silent_required_then_matching : list Rule :=
  [fun v => isRequired v (Some "");
   fun v => isMatching v (str "secret") None].

(** C2, as stated, fails: on the empty string the first rule of the chain
    returns a result that is not [undefined] (the empty message), yet
    [validate] returns the message of the later rule; and [validate]
    returns [undefined] on a chain whose only rule does not return
    [undefined]. *)
Lemma C2_counterexample :
  first_defined (str "") silent_required_then_matching = Some ""
  /\ validate (str "") silent_required_then_matching
     = Some "Values do not match."
  /\ validate (str "") silent_required_then_matching
     <> first_defined (str "") silent_required_then_matching
  /\ validate (str "") [fun v => isRequired v (Some "")] = None
  /\ isRequired (str "") (Some "") <> None.
Proof.
  repeat split; try reflexivity; vm_compute; discriminate.
Qed.

Lemma validate_app (value : JsVal) (pre post : list Rule) :
  Forall (fun rule => is_error (rule value) = false) pre ->
  validate value (pre ++ post)%list = validate value post.
Proof.
  induction 1 as [|rule pre Hr _ IH]; [reflexivity|].
  cbn [app validate]. rewrite Hr. exact IH.
Qed.

Lemma is_error_message (m : string) : is_error (Some m) = true <-> m <> "".
Proof.
  unfold is_error. cbn [option_map truthy].
  destruct (String.eqb_spec m ""); cbn [negb]; split; congruence.
Qed.

Lemma validate_none (value : JsVal) (rules : list Rule) :
  validate value rules = None
  <-> Forall (fun rule => is_error (rule value) = false) rules.
Proof.
  induction rules as [|rule rest IH]; cbn [validate].
  - split; [constructor | reflexivity].
  - destruct (is_error (rule value)) eqn:He.
    + split.
      * intros Hn. rewrite Hn in He. discriminate He.
      * intros Hall. inversion Hall; congruence.
    + rewrite IH. split.
      * intros Hall. constructor; assumption.
      * intros Hall. inversion Hall; assumption.
Qed.

Lemma validate_some (value : JsVal) (rules : list Rule) (m : string) :
  validate value rules = Some m
  <-> exists pre rule post,
        rules = (pre ++ rule :: post)%list
        /\ Forall (fun r => is_error (r value) = false) pre
        /\ rule value = Some m
        /\ m <> "".
Proof.
  split.
  - induction rules as [|rule rest IH]; cbn [validate]; [discriminate|].
    destruct (is_error (rule value)) eqn:He.
    + intros Hm. exists [], rule, rest. repeat split; auto.
      apply is_error_message. rewrite <- Hm. exact He.
    + intros Hm. destruct (IH Hm) as (pre & r & post & -> & Hpre & Hr & Hne).
      exists (rule :: pre), r, post. repeat split; auto.
  - intros (pre & rule & post & -> & Hpre & Hr & Hne).
    rewrite (validate_app value pre (rule :: post) Hpre). cbn [validate].
    rewrite Hr. apply is_error_message in Hne. rewrite Hne. reflexivity.
Qed.

(** C2 (amended): [validate(v, rules)] returns the result of the first
    rule, in list order, whose result on [v] is truthy (a non-empty
    message); it returns [undefined] if and only if every rule's result on
    [v] is falsy ([undefined] or the empty string); it never returns the
    message of a later rule when an earlier rule already returned a truthy
    one. *)
Theorem C2_validate_first_truthy :
  forall (value : JsVal) (rules : list Rule),
    (forall m,
       validate value rules = Some m
       <-> exists pre rule post,
             rules = (pre ++ rule :: post)%list
             /\ Forall (fun r => is_error (r value) = false) pre
             /\ rule value = Some m
             /\ m <> "")
    /\ (validate value rules = None
        <-> Forall (fun rule => is_error (rule value) = false) rules).
Proof.
  intros value rules. split.
  - intros m. apply validate_some.
  - apply validate_none.
Qed.

Lemma C2_validate_first_truthy_witness :
  validate (str "ab")
    [fun v => isRequired v None; fun v => hasMinLength v 6 None;
     fun v => isMatching v (str "secret") None]
  = Some "Must be at least 6 characters.".
Proof.
  apply (proj1 (C2_validate_first_truthy (str "ab")
                  [fun v => isRequired v None; fun v => hasMinLength v 6 None;
                   fun v => isMatching v (str "secret") None])
               "Must be at least 6 characters.").
  exists [fun v => isRequired v None], (fun v => hasMinLength v 6 None),
    [fun v => isMatching v (str "secret") None].
  repeat split.
  - constructor; [reflexivity | constructor].
  - discriminate.
Defined.

(** When no rule of the chain ever returns the empty message, the
    specification's wording and the code agree. *)
Lemma validate_first_defined (value : JsVal) (rules : list Rule) :
  Forall (fun rule => rule value <> Some "") rules ->
  validate value rules = first_defined value rules.
Proof.
  induction 1 as [|rule rest Hr _ IH]; [reflexivity|].
  cbn [validate first_defined].
  destruct (rule value) as [m|] eqn:Hm.
  - assert (Hne : m <> "") by congruence.
    apply is_error_message in Hne. rewrite Hne. reflexivity.
  - exact IH.
Qed.

End ValidationFacts.

(* ================================================================== *)
(** * Properties of the session and page state *)
(* ================================================================== *)

Module AppFacts.

Import ApiService App.

(** ** Frame reasoning: what a handler leaves alone *)

(** [m] does not change the observation [f] of the state, whether it
    returns or throws. *)
Definition preserves {A X : Type} (f : AppState -> X) (m : M A) : Prop :=
  forall s, f (snd (m s)) = f s.

Lemma preserves_ret {A X} (f : AppState -> X) (a : A) : preserves f (ret a).
Proof. intros s. reflexivity. Qed.

Lemma preserves_lift {A X} (f : AppState -> X) (r : Result A) :
  preserves f (lift r).
Proof. intros s. reflexivity. Qed.

Lemma preserves_read {A X} (f : AppState -> X) (g : AppState -> A) :
  preserves f (read g).
Proof. intros s. reflexivity. Qed.

Lemma preserves_bind {A B X} (f : AppState -> X) (m : M A) (k : A -> M B) :
  preserves f m -> (forall a, preserves f (k a)) -> preserves f (bind m k).
Proof.
  intros Hm Hk s. unfold bind. specialize (Hm s).
  destruct (m s) as [[a|e] s']; cbn [snd] in *.
  - rewrite Hk. exact Hm.
  - exact Hm.
Qed.

Lemma sessionChecks_log (endpoint : string) (config : Config) :
  (endpoint =? "/user")%string = false ->
  preserves sessionChecks (log_request endpoint config).
Proof.
  intros Hne s. unfold sessionChecks, log_request, modify.
  cbn [snd requests]. rewrite filter_app. cbn [filter fst].
  rewrite Hne, app_nil_r. reflexivity.
Qed.

Ltac frame_step :=
  first
    [ apply preserves_ret
    | apply preserves_lift
    | apply preserves_read
    | apply preserves_bind; [| intro]
    | apply sessionChecks_log; reflexivity
    | match goal with
      | |- preserves _ (if ?c then _ else _) => destruct c
      | |- preserves _ (match ?x with _ => _ end) => destruct x
      end
    | (intro; reflexivity) ].

Ltac frame := repeat frame_step.

Import JsFacts ApiServiceFacts.

Ltac unfold_handlers :=
  unfold handler, checkAuth_resume, LoginForm_handleSubmit,
    ForgotPasswordForm_handleRequestOtp, OTPVerificationForm_handleVerifyOtp,
    ResetPasswordForm_handleResetPassword, ProfileSettings_handleChangePassword,
    Dashboard_handleLogout, flash_timeout, flash_close, report_failure,
    api_request, showFlashMessage, redirectToDashboard.

Ltac destruct_request :=
  match goal with
  | |- context [request ?b ?n ?p ?m ?x ?t] =>
      destruct (request b n p m x t) as [[d|e]|ex] eqn:Hreq
  end.

Section WithBaseUrl.

Variable BASE_URL : string.

(** ** checkAuth, step by step *)

Lemma checkAuth_start_again s :
  isInitialMount s = false -> checkAuth_start s = (Ok tt, s).
Proof.
  intros H. unfold checkAuth_start, bind, read. rewrite H. reflexivity.
Qed.

Lemma checkAuth_start_token s :
  isInitialMount s = true -> truthy (tokenAtMount s) = true ->
  let s' := snd (checkAuth_start s) in
  isInitialMount s' = false /\ awaitingUser s' = true
  /\ loading s' = loading s /\ currentPage s' = currentPage s
  /\ sessionChecks s' = S (sessionChecks s).
Proof.
  intros H Ht. unfold checkAuth_start, bind, read. rewrite H.
  cbn. rewrite Ht. cbn. repeat split.
  unfold sessionChecks. cbn. rewrite filter_app, length_app. cbn. lia.
Qed.

Lemma checkAuth_start_no_token s :
  isInitialMount s = true -> truthy (tokenAtMount s) = false ->
  let s' := snd (checkAuth_start s) in
  isInitialMount s' = false /\ awaitingUser s' = awaitingUser s
  /\ loading s' = false /\ currentPage s' = mkPage "login" null
  /\ sessionChecks s' = sessionChecks s.
Proof.
  intros H Ht. unfold checkAuth_start, bind, read. rewrite H.
  cbn. rewrite Ht. cbn. repeat split.
Qed.

Lemma checkAuth_resume_failure net s e :
  request BASE_URL net "/user" "GET" null (tokenAtMount s) = Ok (Failure e) ->
  let s' := snd (checkAuth_resume BASE_URL net s) in
  fst (checkAuth_resume BASE_URL net s) = Ok tt
  /\ token s' = null /\ authToken s' = None /\ user s' = user s
  /\ currentPage s' = mkPage "login" null /\ loading s' = false
  /\ awaitingUser s' = false
  /\ flashMessage s' = str "Your session has expired. Please log in again.".
Proof.
  intros H. unfold checkAuth_resume, bind, read, lift, set_awaitingUser, modify.
  cbn. rewrite H. cbn. repeat split.
Qed.

Lemma checkAuth_resume_success net s d :
  request BASE_URL net "/user" "GET" null (tokenAtMount s) = Ok (Success d) ->
  let s' := snd (checkAuth_resume BASE_URL net s) in
  user s' = d /\ token s' = token s /\ authToken s' = authToken s
  /\ awaitingUser s' = false
  /\ (nullish d = false -> loading s' = false)
  /\ (nullish d = true -> loading s' = loading s).
Proof.
  intros H. unfold checkAuth_resume, bind, read, lift, set_awaitingUser, modify.
  cbn. rewrite H. cbn.
  destruct d as [[ | b | n | st | items | fields]|]; cbn;
  repeat split; try discriminate; try reflexivity.
  all: unfold redirectToDashboard;
    repeat match goal with
    | |- context [if ?c then _ else _] => destruct c
    end; reflexivity.
Qed.

Definition login_body (email password : string) : JsVal :=
  Some (JObj (object [("email", str email); ("password", str password)])).

Lemma redirect_frame {X} (f : AppState -> X) role :
  (forall p, preserves f (setCurrentPage p)) ->
  preserves f (redirectToDashboard role).
Proof.
  intros H. unfold redirectToDashboard.
  repeat match goal with
         | |- context [if ?c then _ else _] => destruct c
         end; apply H.
Qed.

Lemma LoginForm_handleSubmit_session net email password s :
  let s' := snd (LoginForm_handleSubmit BASE_URL net email password s) in
  (user s' = user s /\ token s' = token s /\ authToken s' = authToken s)
  \/ (exists d,
        request BASE_URL net "/login" "POST" (login_body email password) null
          = Ok (Success d)
        /\ nullish d = false
        /\ token s' = get_opt d "access_token"
        /\ user s' = get_opt d "user"
        /\ authToken s' = Some (js_String (get_opt d "access_token"))).
Proof.
  unfold LoginForm_handleSubmit, login_body.
  destruct (negb (no_keys (LoginForm_validateForm email password)));
    [left; cbn; auto|].
  unfold api_request.
  remember (request BASE_URL net "/login" "POST" _ null) as resp eqn:Hresp.
  unfold bind, lift, log_request, modify.
  destruct resp as [[d0|e0]|ex]; cbn.
  - destruct (get d0 "access_token") as [at_|ex] eqn:Hat; cbn;
      [|left; auto].
    apply get_Ok in Hat. destruct Hat as [-> Hd].
    destruct (to_String_cases (get_opt d0 "access_token")) as [[_ Hs]|[_ Hs]];
      rewrite Hs; cbn; [|left; auto].
    right. exists d0. split; [reflexivity|]. split; [exact Hd|].
    destruct (get d0 "user") as [u|ex] eqn:Hu; cbn.
    + apply get_Ok in Hu. destruct Hu as [-> _].
      destruct (get (get_opt d0 "user") "role") as [role|ex]; cbn.
      * split; [|split].
        -- apply (redirect_frame token); intros p s0; reflexivity.
        -- apply (redirect_frame user); intros p s0; reflexivity.
        -- apply (redirect_frame authToken); intros p s0; reflexivity.
      * auto.
    + apply get_Throw in Hu. congruence.
  - left. unfold report_failure, bind, lift. cbn.
    destruct (get e0 "details"); cbn; [|auto].
    destruct (get e0 "message"); cbn; auto.
  - left. auto.
Qed.

(** Logging out, and a completed password change, clear the token and
    the user together. *)
Definition cleared_or_same (s s' : AppState) : Prop :=
  (user s' = user s /\ token s' = token s)
  \/ (user s' = null /\ token s' = null /\ authToken s' = None).

Lemma Dashboard_handleLogout_session s :
  let s' := snd (Dashboard_handleLogout s) in
  user s' = null /\ token s' = null /\ authToken s' = None
  /\ currentPage s' = mkPage "login" null.
Proof. repeat split. Qed.

Lemma ProfileSettings_handleChangePassword_session net cur new conf s :
  cleared_or_same s
    (snd (ProfileSettings_handleChangePassword BASE_URL net cur new conf s)).
Proof.
  unfold ProfileSettings_handleChangePassword.
  destruct (negb (no_keys (ProfileSettings_validateForm cur new conf)));
    [left; cbn; auto|].
  unfold api_request, cleared_or_same. cbn -[request].
  destruct_request; cbn.
  - destruct (get d "message"); cbn; [right|left]; auto.
  - left. unfold report_failure, bind, lift. cbn.
    destruct (get e "details"); cbn; [|auto].
    destruct (get e "message"); cbn; auto.
  - left. auto.
Qed.


(** ** Frames of the handlers *)

Lemma handler_sessionChecks ev :
  ev <> MountEffect -> preserves sessionChecks (handler BASE_URL ev).
Proof.
  intros Hne. destruct ev; try congruence; unfold_handlers; frame.
Qed.

Lemma handler_isInitialMount ev :
  ev <> MountEffect -> preserves isInitialMount (handler BASE_URL ev).
Proof.
  intros Hne. destruct ev; try congruence; unfold_handlers; frame.
Qed.

Lemma handler_tokenAtMount ev : preserves tokenAtMount (handler BASE_URL ev).
Proof.
  destruct ev; unfold_handlers; unfold checkAuth_start; frame.
Qed.

(** The events of [checkAuth]. *)
Definition is_checkAuth (ev : Event) : bool :=
  match ev with
  | MountEffect | UserResponse _ => true
  | _ => false
  end.

Lemma handler_loading ev :
  is_checkAuth ev = false -> preserves loading (handler BASE_URL ev).
Proof.
  intros Hne. destruct ev; try discriminate; unfold_handlers; frame.
Qed.

Lemma handler_awaitingUser ev :
  is_checkAuth ev = false -> preserves awaitingUser (handler BASE_URL ev).
Proof.
  intros Hne. destruct ev; try discriminate; unfold_handlers; frame.
Qed.

(** The events whose handlers write [user], [token] or the stored token. *)
Definition writes_session (ev : Event) : bool :=
  match ev with
  | UserResponse _ | LoginSubmit _ _ _ | ChangePasswordSubmit _ _ _ _
  | LogoutClick => true
  | _ => false
  end.

Lemma handler_user ev :
  writes_session ev = false -> preserves user (handler BASE_URL ev).
Proof.
  intros Hne. destruct ev; try discriminate; unfold_handlers;
    unfold checkAuth_start; frame.
Qed.

Lemma handler_token ev :
  writes_session ev = false -> preserves token (handler BASE_URL ev).
Proof.
  intros Hne. destruct ev; try discriminate; unfold_handlers;
    unfold checkAuth_start; frame.
Qed.

Lemma handler_authToken ev :
  writes_session ev = false -> preserves authToken (handler BASE_URL ev).
Proof.
  intros Hne. destruct ev; try discriminate; unfold_handlers;
    unfold checkAuth_start; frame.
Qed.

Lemma checkAuth_resume_awaitingUser net s :
  awaitingUser (snd (checkAuth_resume BASE_URL net s)) = false.
Proof.
  destruct (request_total BASE_URL net "/user" "GET" null (tokenAtMount s))
    as [[d|e] Hr].
  - apply (checkAuth_resume_success net s d Hr).
  - apply (checkAuth_resume_failure net s e Hr).
Qed.

Lemma step_unfold s ev :
  step BASE_URL s ev = if enabled s ev then snd (handler BASE_URL ev s) else s.
Proof. reflexivity. Qed.

Lemma run_cons s ev evs :
  run BASE_URL s (ev :: evs) = run BASE_URL (step BASE_URL s ev) evs.
Proof. reflexivity. Qed.

Lemma run_app s evs evs' :
  run BASE_URL s (evs ++ evs') = run BASE_URL (run BASE_URL s evs) evs'.
Proof. unfold run. apply fold_left_app. Qed.

(** A property kept by every step is kept by every run. *)
Lemma run_invariant (P : AppState -> Prop) :
  (forall s ev, P s -> P (step BASE_URL s ev)) ->
  forall evs s, P s -> P (run BASE_URL s evs).
Proof.
  intros Hstep evs. induction evs as [|ev evs IH]; intros s Hs; [exact Hs|].
  rewrite run_cons. apply IH, Hstep, Hs.
Qed.

(** ** The session check *)

Definition check_invariant (s : AppState) : Prop :=
  (isInitialMount s = true -> sessionChecks s = 0%nat /\ awaitingUser s = false)
  /\ (awaitingUser s = true -> sessionChecks s = 1%nat)
  /\ (sessionChecks s <= 1)%nat.

Lemma check_invariant_mount stored : check_invariant (mount stored).
Proof.
  unfold check_invariant, sessionChecks. cbn.
  repeat split; try discriminate; lia.
Qed.

Lemma check_invariant_step s ev :
  check_invariant s -> check_invariant (step BASE_URL s ev).
Proof.
  intros Hinv. pose proof Hinv as (H1 & H2 & H3). rewrite step_unfold.
  destruct (enabled s ev) eqn:Hen; [|exact Hinv].
  destruct ev.
  1: { cbn [handler].
       destruct (isInitialMount s) eqn:Hi.
       - destruct (H1 eq_refl) as [H0 Ha].
         destruct (truthy (tokenAtMount s)) eqn:Ht.
         + destruct (checkAuth_start_token s Hi Ht) as (Ei & Ea & _ & _ & Ec).
           unfold check_invariant. rewrite Ei, Ea, Ec, H0.
           split; [discriminate|]. split; [reflexivity | lia].
         + destruct (checkAuth_start_no_token s Hi Ht) as (Ei & Ea & _ & _ & Ec).
           unfold check_invariant. rewrite Ei, Ea, Ec, H0, Ha.
           split; [discriminate|]. split; [discriminate | lia].
       - rewrite (checkAuth_start_again s Hi). exact Hinv. }
  2: { cbn [enabled] in Hen. unfold check_invariant.
       rewrite (handler_sessionChecks (UserResponse net)) by discriminate.
       rewrite (handler_isInitialMount (UserResponse net)) by discriminate.
       cbn [handler]. rewrite checkAuth_resume_awaitingUser.
       split; [intros Hi; split; [apply H1, Hi | reflexivity]|].
       split; [discriminate | exact H3]. }
  all: unfold check_invariant;
    rewrite handler_sessionChecks by discriminate;
    rewrite handler_isInitialMount by discriminate;
    rewrite handler_awaitingUser by reflexivity;
    exact Hinv.
Qed.

Lemma settled_step s ev :
  isInitialMount s = false ->
  isInitialMount (step BASE_URL s ev) = false
  /\ sessionChecks (step BASE_URL s ev) = sessionChecks s.
Proof.
  intros Hi. rewrite step_unfold.
  destruct (enabled s ev); [|split; [assumption | reflexivity]].
  destruct ev;
    try (rewrite handler_sessionChecks by discriminate;
         rewrite handler_isInitialMount by discriminate;
         split; [assumption | reflexivity]).
  cbn [handler]. rewrite (checkAuth_start_again s Hi).
  split; [assumption | reflexivity].
Qed.

Lemma settled_run evs : forall s,
  isInitialMount s = false ->
  sessionChecks (run BASE_URL s evs) = sessionChecks s.
Proof.
  induction evs as [|ev evs IH]; intros s Hi; [reflexivity|].
  rewrite run_cons. destruct (settled_step s ev Hi) as [Hi' Hc].
  rewrite (IH _ Hi'). exact Hc.
Qed.

Lemma run_tokenAtMount evs : forall s,
  tokenAtMount (run BASE_URL s evs) = tokenAtMount s.
Proof.
  induction evs as [|ev evs IH]; intros s; [reflexivity|].
  rewrite run_cons, IH, step_unfold.
  destruct (enabled s ev); [apply handler_tokenAtMount | reflexivity].
Qed.

(** C5: the session check of the mount effect is issued at most once in
    the life of a mounted [App]: whatever events follow the first render
    (re-renders, replays of the effect, writes to the session state by the
    handlers), the [/user] endpoint is called at most once.  When a stored
    token is present and the outstanding check fails, exactly one check
    call has been made, the stored token is cleared, the page is [login],
    and no later event issues another check; a stored token that is not
    the empty string does make the mount effect issue the check. *)
Theorem C5_session_check_at_most_once :
  forall (stored : option string) (evs : list Event),
    (sessionChecks (run BASE_URL (mount stored) evs) <= 1)%nat
    /\ (forall (t : string) (net : Fetch) (e : JsVal),
         stored = Some t ->
         awaitingUser (run BASE_URL (mount stored) evs) = true ->
         request BASE_URL net "/user" "GET" null (str t) = Ok (Failure e) ->
         let s2 := step BASE_URL (run BASE_URL (mount stored) evs)
                     (UserResponse net) in
         sessionChecks s2 = 1%nat
         /\ authToken s2 = None
         /\ token s2 = null
         /\ currentPage s2 = mkPage "login" null
         /\ forall evs', sessionChecks (run BASE_URL s2 evs') = 1%nat)
    /\ forall (t : string),
         stored = Some t ->
         t <> "" ->
         awaitingUser (run BASE_URL (mount stored) [MountEffect]) = true
         /\ sessionChecks (run BASE_URL (mount stored) [MountEffect]) = 1%nat.
Proof.
  intros stored evs.
  pose proof (run_invariant check_invariant check_invariant_step evs
                (mount stored) (check_invariant_mount stored))
    as (H1 & H2 & H3).
  split; [exact H3|].
  split.
  2: { intros t -> Hne.
       assert (Htr : truthy (tokenAtMount (mount (Some t))) = true).
       { cbn. destruct (String.eqb_spec t ""); [contradiction | reflexivity]. }
       destruct (checkAuth_start_token (mount (Some t)) eq_refl Htr)
         as (_ & Ea & _ & _ & Ec).
       split; [exact Ea | exact Ec]. }
  intros t net e -> Haw Hreq s2.
  set (s1 := run BASE_URL (mount (Some t)) evs) in *.
  assert (Ht : tokenAtMount s1 = str t)
    by (unfold s1; rewrite run_tokenAtMount; reflexivity).
  rewrite <- Ht in Hreq.
  assert (Hi : isInitialMount s1 = false).
  { destruct (isInitialMount s1) eqn:Hi; [|reflexivity].
    destruct (H1 eq_refl) as [_ Ha]. congruence. }
  assert (Hs2 : s2 = snd (handler BASE_URL (UserResponse net) s1)).
  { unfold s2. rewrite step_unfold. cbn [enabled]. rewrite Haw.
    reflexivity. }
  destruct (checkAuth_resume_failure net s1 e Hreq)
    as (_ & Et & Ea & _ & Ep & _ & _ & _).
  assert (Hc : sessionChecks s2 = 1%nat).
  { rewrite Hs2.
    rewrite (handler_sessionChecks (UserResponse net)) by discriminate.
    apply H2, Haw. }
  assert (Hi2 : isInitialMount s2 = false).
  { rewrite Hs2.
    rewrite (handler_isInitialMount (UserResponse net)) by discriminate.
    exact Hi. }
  split; [exact Hc|].
  split; [rewrite Hs2; exact Ea|].
  split; [rewrite Hs2; exact Et|].
  split; [rewrite Hs2; exact Ep|].
  intros evs'. rewrite (settled_run evs' _ Hi2). exact Hc.
Qed.


(** ** The session invariant *)

(** [user != null] implies [token != null]. *)
Definition session_invariant (s : AppState) : Prop :=
  nullish (user s) = false -> nullish (token s) = false.

(** A successful [/login] response that names a user also carries a
    token. *)
Definition login_carries_token (ev : Event) : Prop :=
  match ev with
  | LoginSubmit net email password =>
      forall d,
        request BASE_URL net "/login" "POST" (login_body email password) null
          = Ok (Success d) ->
        nullish (get_opt d "user") = false ->
        nullish (get_opt d "access_token") = false
  | _ => True
  end.

(** What holds of every reachable state, the session invariant first. *)
Definition state_invariant (s : AppState) : Prop :=
  session_invariant s
  /\ (awaitingUser s = true -> loading s = true /\ nullish (token s) = false)
  /\ (isInitialMount s = true ->
      loading s = true /\ token s = tokenAtMount s /\ awaitingUser s = false)
  /\ (loading s = true -> nullish (user s) = true).

Lemma state_invariant_mount stored : state_invariant (mount stored).
Proof.
  unfold state_invariant, session_invariant. cbn.
  split; [discriminate|]. split; [discriminate|].
  split; [intros _; repeat split | reflexivity].
Qed.

(** The invariant only reads six fields. *)
Lemma state_invariant_same (s s' : AppState) :
  user s' = user s -> token s' = token s -> loading s' = loading s ->
  awaitingUser s' = awaitingUser s -> isInitialMount s' = isInitialMount s ->
  tokenAtMount s' = tokenAtMount s ->
  state_invariant s -> state_invariant s'.
Proof.
  unfold state_invariant, session_invariant.
  intros -> -> -> -> -> -> H. exact H.
Qed.

(** Once the pages are on show, the invariant is the session invariant. *)
Lemma state_invariant_loaded (s : AppState) :
  loading s = false -> awaitingUser s = false -> isInitialMount s = false ->
  session_invariant s -> state_invariant s.
Proof.
  unfold state_invariant. intros Hl Ha Hi H.
  split; [exact H|]. split; [congruence|]. split; congruence.
Qed.

Lemma loaded_of_invariant (s : AppState) :
  state_invariant s -> loading s = false ->
  awaitingUser s = false /\ isInitialMount s = false.
Proof.
  intros (_ & H2 & H3 & _) Hl. split.
  - destruct (awaitingUser s); [|reflexivity].
    destruct (H2 eq_refl) as [Hl' _]. congruence.
  - destruct (isInitialMount s); [|reflexivity].
    destruct (H3 eq_refl) as [Hl' _]. congruence.
Qed.

Lemma state_invariant_step s ev :
  login_carries_token ev -> state_invariant s ->
  state_invariant (step BASE_URL s ev).
Proof.
  intros Hlogin Hinv. rewrite step_unfold.
  destruct (enabled s ev) eqn:Hen; [|exact Hinv].
  pose proof Hinv as (I1 & I2 & I3 & I4).
  assert (Hquiet :
    writes_session ev = false -> is_checkAuth ev = false ->
    state_invariant (snd (handler BASE_URL ev s))).
  { intros Hw Hc. apply (state_invariant_same s); auto.
    - apply handler_user, Hw.
    - apply handler_token, Hw.
    - apply handler_loading, Hc.
    - apply handler_awaitingUser, Hc.
    - apply handler_isInitialMount. intros ->. discriminate Hc.
    - apply handler_tokenAtMount. }
  assert (Hform :
    is_checkAuth ev = false -> loading s = false ->
    session_invariant (snd (handler BASE_URL ev s)) ->
    state_invariant (snd (handler BASE_URL ev s))).
  { intros Hc Hl Hs. destruct (loaded_of_invariant s Hinv Hl) as [Ha Hi].
    apply state_invariant_loaded; auto.
    - rewrite handler_loading by exact Hc. exact Hl.
    - rewrite handler_awaitingUser by exact Hc. exact Ha.
    - rewrite handler_isInitialMount by (intros ->; discriminate Hc).
      exact Hi. }
  destruct ev; try (apply Hquiet; reflexivity).
  - (* MountEffect *)
    cbn [handler]. destruct (isInitialMount s) eqn:Hi.
    + destruct (I3 eq_refl) as (Hl & Ht & Ha).
      pose proof (handler_user MountEffect eq_refl s) as Eu.
      pose proof (handler_token MountEffect eq_refl s) as Et.
      cbn [handler] in Eu, Et.
      destruct (truthy (tokenAtMount s)) eqn:Htr.
      * destruct (checkAuth_start_token s Hi Htr) as (Ei & Ea & El & _ & _).
        unfold state_invariant, session_invariant.
        rewrite Eu, Et, Ei, Ea, El.
        split; [exact I1|]. split.
        { intros _. split; [exact Hl|]. rewrite Ht.
          apply truthy_not_nullish, Htr. }
        split; [discriminate|]. exact I4.
      * destruct (checkAuth_start_no_token s Hi Htr) as (Ei & Ea & El & _ & _).
        unfold state_invariant, session_invariant.
        rewrite Eu, Et, Ei, Ea, El, Ha.
        split; [exact I1|]. split; [discriminate|].
        split; discriminate.
    + rewrite (checkAuth_start_again s Hi). exact Hinv.
  - (* UserResponse *)
    cbn [enabled] in Hen. destruct (I2 Hen) as [Hl Htok].
    assert (Hi : isInitialMount s = false).
    { destruct (isInitialMount s); [|reflexivity].
      destruct (I3 eq_refl) as (_ & _ & Ha). congruence. }
    pose proof (handler_isInitialMount (UserResponse net)
                  ltac:(discriminate) s) as Ei.
    cbn [handler] in *. rewrite Hi in Ei.
    destruct (request_total BASE_URL net "/user" "GET" null (tokenAtMount s))
      as [[d|e] Hr].
    + destruct (checkAuth_resume_success net s d Hr)
        as (Eu & Et & _ & Ea & El1 & El2).
      unfold state_invariant, session_invariant. rewrite Eu, Et, Ea, Ei.
      split; [intros _; exact Htok|]. split; [discriminate|].
      split; [discriminate|].
      destruct (nullish d) eqn:Hd; [reflexivity|].
      rewrite (El1 eq_refl). discriminate.
    + destruct (checkAuth_resume_failure net s e Hr)
        as (_ & Et & _ & Eu & _ & El & Ea & _).
      unfold state_invariant, session_invariant. rewrite Eu, Et, Ea, Ei, El.
      split; [intros Hu; rewrite (I4 Hl) in Hu; discriminate Hu|].
      split; [discriminate|].
      split; discriminate.
  - (* LoginSubmit *)
    cbn [enabled] in Hen. apply negb_true_iff in Hen.
    apply Hform; [reflexivity | exact Hen |]. cbn [handler].
    unfold session_invariant.
    destruct (LoginForm_handleSubmit_session net email password s)
      as [(Eu & Et & _) | (d & Hr & _ & Et & Eu & _)].
    + rewrite Eu, Et. exact I1.
    + rewrite Eu, Et. apply (Hlogin d Hr).
  - (* ChangePasswordSubmit *)
    cbn [enabled] in Hen. apply negb_true_iff in Hen.
    apply Hform; [reflexivity | exact Hen |]. cbn [handler].
    unfold session_invariant.
    destruct (ProfileSettings_handleChangePassword_session
                net currentPassword newPassword confirmNewPassword s)
      as [(Eu & Et) | (Eu & Et & _)]; rewrite Eu, Et; [exact I1 | discriminate].
  - (* LogoutClick *)
    cbn [enabled] in Hen. apply negb_true_iff in Hen.
    apply Hform; [reflexivity | exact Hen |]. cbn [handler].
    unfold session_invariant. cbn. discriminate.
Qed.

Lemma state_invariant_run evs : forall s,
  Forall login_carries_token evs -> state_invariant s ->
  state_invariant (run BASE_URL s evs).
Proof.
  induction evs as [|ev evs IH]; intros s Hall Hs; [exact Hs|].
  inversion Hall as [|? ? Hev Hrest]; subst.
  rewrite run_cons. apply IH; [exact Hrest|].
  apply state_invariant_step; assumption.
Qed.

(** C8 (amended): [user != null] implies [token != null] in every
    reachable state, provided every successful [/login] response that
    names a non-null [user] also carries a non-null [access_token].  Login
    sets the token and the user in one step, the initial check sets the
    user only while the stored token is still in place, and logout, a
    failed check and a completed profile password change clear the token
    with the user null or cleared. *)
Theorem C8_session_invariant :
  forall (stored : option string) (evs : list Event),
    Forall login_carries_token evs ->
    session_invariant (run BASE_URL (mount stored) evs).
Proof.
  intros stored evs Hall.
  apply (state_invariant_run evs (mount stored) Hall
           (state_invariant_mount stored)).
Qed.


(** ** redirectToDashboard *)

Definition recognized_roles : list string :=
  ["super_admin"; "school_admin"; "hod"; "teacher"; "student"].

Definition recognized (role : JsVal) : Prop :=
  exists r, In r recognized_roles /\ role = str r.

(** C6: [redirectToDashboard] sends each of the five recognized roles
    (['super_admin'], ['school_admin'], ['hod'], ['teacher'], ['student'])
    to the page [{ name: 'dashboard', data: null }] and every other role
    value, [undefined] included, to [{ name: 'login', data: null }]. *)
Theorem C6_redirectToDashboard :
  forall (role : JsVal) (s : AppState),
    fst (redirectToDashboard role s) = Ok tt
    /\ (recognized role ->
        currentPage (snd (redirectToDashboard role s))
          = mkPage "dashboard" null)
    /\ (~ recognized role ->
        currentPage (snd (redirectToDashboard role s)) = mkPage "login" null).
Proof.
  intros role s. unfold redirectToDashboard.
  destruct (strict_eq role (str "super_admin")) eqn:E1;
    [|destruct (strict_eq role (str "school_admin")) eqn:E2;
      [|destruct (strict_eq role (str "hod")) eqn:E3;
        [|destruct (strict_eq role (str "teacher")) eqn:E4;
          [|destruct (strict_eq role (str "student")) eqn:E5]]]].
  1-5: split; [reflexivity|]; split; [reflexivity|];
         intros Hn; exfalso; apply Hn; eexists;
         (split; [|apply strict_eq_str; eassumption]); cbn; tauto.
  split; [reflexivity|]. split; [|reflexivity].
  intros (r & Hin & ->). exfalso.
  cbn in Hin.
  destruct Hin as [<-|[<-|[<-|[<-|[<-|[]]]]]]; cbn in *; discriminate.
Qed.

(** ** ResetPasswordForm *)

Definition reset_password_body (initialData : JsVal)
  (password passwordConfirmation : string) : JsVal :=
  Some (JObj (object
    [("email", ResetPasswordForm_field initialData "email");
     ("otp", ResetPasswordForm_field initialData "otp");
     ("password", str password);
     ("password_confirmation", str passwordConfirmation)])).

Lemma ResetPasswordForm_frame net initialData password passwordConfirmation :
  let m := ResetPasswordForm_handleResetPassword
             BASE_URL net initialData password passwordConfirmation in
  preserves token m /\ preserves user m /\ preserves authToken m.
Proof.
  cbv zeta. unfold ResetPasswordForm_handleResetPassword, api_request,
    showFlashMessage, report_failure.
  split; [|split]; frame.
Qed.

Lemma ResetPasswordForm_success net initialData password passwordConfirmation
  s d :
  no_keys (ResetPasswordForm_validateForm
             (ResetPasswordForm_field initialData "email")
             (ResetPasswordForm_field initialData "otp")
             password passwordConfirmation) = true ->
  request BASE_URL net "/reset-password" "POST"
    (reset_password_body initialData password passwordConfirmation) null
    = Ok (Success d) ->
  nullish d = false ->
  ResetPasswordForm_handleResetPassword
    BASE_URL net initialData password passwordConfirmation s
  = (Ok tt,
     snd ((showFlashMessage
             (js_or (get_opt d "message")
                (str "Password updated successfully!"))
             (str "success") ;;
           setCurrentPage (mkPage "login" null))%handler
          (snd (log_request "/reset-password"
                  (make_config "POST"
                     (reset_password_body initialData password
                        passwordConfirmation) null) s)))).
Proof.
  intros Hv Hreq Hd.
  unfold ResetPasswordForm_handleResetPassword. cbv zeta. rewrite Hv.
  cbn [negb]. unfold api_request.
  fold (reset_password_body initialData password passwordConfirmation).
  unfold bind at 1. unfold bind at 1. cbn [log_request modify fst snd].
  unfold lift at 1. rewrite Hreq. cbn [success data].
  unfold bind at 1. unfold lift at 1. rewrite (get_defined d "message" Hd).
  reflexivity.
Qed.

(** C7 (amended): when the reset-password submission succeeds with a
    response whose [data] is neither [null] nor [undefined], the handler
    returns and the page state becomes [{ name: 'login', data: null }];
    and whatever the response, the handler leaves the token, the user and
    the stored token as they were, so no session is established. *)
Theorem C7_reset_password_establishes_no_session :
  forall (net : Fetch) (initialData : JsVal)
    (password passwordConfirmation : string) (s : AppState),
    let out := ResetPasswordForm_handleResetPassword
                 BASE_URL net initialData password passwordConfirmation s in
    token (snd out) = token s
    /\ user (snd out) = user s
    /\ authToken (snd out) = authToken s
    /\ forall d,
         no_keys (ResetPasswordForm_validateForm
                    (ResetPasswordForm_field initialData "email")
                    (ResetPasswordForm_field initialData "otp")
                    password passwordConfirmation) = true ->
         request BASE_URL net "/reset-password" "POST"
           (reset_password_body initialData password passwordConfirmation)
           null = Ok (Success d) ->
         nullish d = false ->
         fst out = Ok tt /\ currentPage (snd out) = mkPage "login" null.
Proof.
  intros net initialData password passwordConfirmation s out.
  destruct (ResetPasswordForm_frame net initialData password
              passwordConfirmation) as (Ft & Fu & Fa).
  split; [apply Ft|]. split; [apply Fu|]. split; [apply Fa|].
  intros d Hv Hreq Hd. unfold out.
  rewrite (ResetPasswordForm_success net initialData password
             passwordConfirmation s d Hv Hreq Hd).
  split; reflexivity.
Qed.

(** C10: for every body whose [success] key is present and falsy, whose
    [errors] is absent or falsy and whose [error] key is absent (the body
    [{ success: false }] for one), [request] returns
    [{ success: false, error: undefined }]: the [error] field is no object,
    and a caller that reads [response.error.message] or
    [response.error.details], as the [else] branch of every submit handler
    does, throws a TypeError. *)
Theorem C10_failure_without_error_object :
  forall (net : Fetch) (endpoint method_ : string) (data_ token_ : JsVal)
    (fields : list (string * Json)) (s : Json),
    net (BASE_URL ++ endpoint)%string (make_config method_ data_ token_)
      = JsonParsed (JObj fields) ->
    lookup "success" fields = Some s ->
    truthy (Some s) = false ->
    truthy (lookup "errors" fields) = false ->
    lookup "error" fields = None ->
    request BASE_URL net endpoint method_ data_ token_ = Ok (Failure undefined)
    /\ get (error (Failure undefined)) "message" = Throw TypeError
    /\ forall (fallback : string) (st : AppState),
         report_failure (Failure undefined) fallback st = (Throw TypeError, st).
Proof.
  intros net endpoint method_ data_ token_ fields s Hnet Hs Hf Hes He.
  split; [|split; [reflexivity | intros; reflexivity]].
  rewrite (request_parsed _ _ _ _ _ _ _ Hnet).
  rewrite (classify_object_error _ _ Hs Hf Hes), He. reflexivity.
Qed.

End WithBaseUrl.

(** ** Concrete runs *)

Definition example_url : string := "https://lms.example/api".

(** A host that answers every call with the JSON [body]. *)
Definition answer (body : Json) : Fetch := fun _ _ => JsonParsed body.

Definition success_with_message (message : string) : Json :=
  JObj [("success", JBool true); ("data", JObj [("message", JStr message)])].

(** The password-recovery flow up to the reset-password page. *)
Definition reset_password_page : AppState :=
  run example_url (mount None)
    [MountEffect;
     LinkClick "forgot-password";
     RequestOtpSubmit (answer (success_with_message "OTP sent."))
       "user@example.com";
     VerifyOtpSubmit (answer (success_with_message "OTP verified."))
       "123456"].

(** C7, as stated, fails: the backend answers [{ success: true }], the
    normalizer returns success (with [data] undefined), and the handler
    throws at [response.data.message] before it reaches [setCurrentPage]:
    the page stays [reset-password]. *)
Lemma C7_counterexample :
  let net := answer (JObj [("success", JBool true)]) in
  let initialData := page_data (currentPage reset_password_page) in
  page_name (currentPage reset_password_page) = "reset-password"
  /\ request example_url net "/reset-password" "POST"
       (reset_password_body initialData "newsecurepass" "newsecurepass") null
     = Ok (Success undefined)
  /\ fst (ResetPasswordForm_handleResetPassword example_url net initialData
            "newsecurepass" "newsecurepass" reset_password_page)
     = Throw TypeError
  /\ currentPage (step example_url reset_password_page
                    (NewPasswordSubmit net "newsecurepass" "newsecurepass"))
     <> mkPage "login" null.
Proof.
  cbv zeta. split; [vm_compute; reflexivity|].
  split; [vm_compute; reflexivity|].
  split; [vm_compute; reflexivity|].
  vm_compute. discriminate.
Qed.

Lemma C7_reset_password_establishes_no_session_witness :
  let net := answer (success_with_message "Password updated successfully!") in
  let out := ResetPasswordForm_handleResetPassword example_url net
               (page_data (currentPage reset_password_page))
               "newsecurepass" "newsecurepass" reset_password_page in
  fst out = Ok tt /\ currentPage (snd out) = mkPage "login" null.
Proof.
  cbv zeta.
  apply (proj2 (proj2 (proj2
           (C7_reset_password_establishes_no_session example_url
              (answer (success_with_message "Password updated successfully!"))
              (page_data (currentPage reset_password_page))
              "newsecurepass" "newsecurepass" reset_password_page)))
           (Some (JObj [("message", JStr "Password updated successfully!")])));
    vm_compute; reflexivity.
Defined.

(** A [/login] answer that names a user and carries no [access_token]. *)
Definition login_without_token : Json :=
  JObj [("success", JBool true);
        ("data", JObj [("user", JObj [("id", JNum 7);
                                      ("role", JStr "teacher")])])].

(** C8, as stated, fails: after a login whose response names a user and
    carries no [access_token], the user is set and the token is
    [undefined]. *)
Lemma C8_counterexample :
  let s := run example_url (mount None)
             [MountEffect;
              LoginSubmit (answer login_without_token)
                "user@example.com" "secret1"] in
  nullish (user s) = false
  /\ token s = undefined
  /\ nullish (token s) = true
  /\ ~ session_invariant s.
Proof.
  cbv zeta. split; [vm_compute; reflexivity|].
  split; [vm_compute; reflexivity|].
  split; [vm_compute; reflexivity|].
  unfold session_invariant. intros H.
  assert (Hf : true = false) by (apply H; vm_compute; reflexivity).
  discriminate Hf.
Qed.

Definition login_teacher : Json :=
  JObj [("success", JBool true);
        ("data", JObj [("access_token", JStr "1|abcdef");
                       ("user", JObj [("id", JNum 7);
                                      ("role", JStr "teacher")])])].

Definition unauthenticated : Json :=
  JObj [("success", JBool false);
        ("error", JObj [("message", JStr "Unauthenticated.")])].

(** A stale stored token, then a login, then a password change. *)
Definition stale_token_then_login : list Event :=
  [MountEffect;
   Rerender;
   MountEffect;
   UserResponse (answer unauthenticated);
   LoginSubmit (answer login_teacher) "user@example.com" "secret1";
   LinkClick "profile-settings";
   ChangePasswordSubmit (answer (success_with_message "Password updated."))
     "secret1" "secret2" "secret2"].

Lemma C8_session_invariant_witness :
  session_invariant
    (run example_url (mount (Some "stale")) stale_token_then_login).
Proof.
  apply (C8_session_invariant example_url (Some "stale")
           stale_token_then_login).
  repeat constructor.
  intros d H. vm_compute in H. inversion H. subst d. intros _. reflexivity.
Defined.

Lemma C5_session_check_at_most_once_witness :
  let s2 := step example_url
              (run example_url (mount (Some "stale"))
                 [MountEffect; Rerender; MountEffect])
              (UserResponse (answer unauthenticated)) in
  sessionChecks s2 = 1%nat
  /\ authToken s2 = None
  /\ token s2 = null
  /\ currentPage s2 = mkPage "login" null
  /\ forall evs', sessionChecks (run example_url s2 evs') = 1%nat.
Proof.
  cbv zeta.
  apply (proj1 (proj2 (C5_session_check_at_most_once example_url
                         (Some "stale") [MountEffect; Rerender; MountEffect]))
               "stale" (answer unauthenticated)
               (Some (JObj [("message", JStr "Unauthenticated.")])));
    reflexivity.
Defined.

Lemma C6_redirectToDashboard_witness :
  currentPage (snd (redirectToDashboard (str "hod") (mount None)))
    = mkPage "dashboard" null
  /\ currentPage (snd (redirectToDashboard undefined (mount None)))
     = mkPage "login" null.
Proof.
  split.
  - apply (proj1 (proj2 (C6_redirectToDashboard (str "hod") (mount None)))).
    exists "hod". split; [cbn; tauto | reflexivity].
  - apply (proj2 (proj2 (C6_redirectToDashboard undefined (mount None)))).
    intros (r & _ & Hr). discriminate Hr.
Defined.

Lemma C10_failure_without_error_object_witness :
  request example_url (answer (JObj [("success", JBool false)]))
    "/login" "POST" (login_body "user@example.com" "secret1") null
  = Ok (Failure undefined).
Proof.
  apply (proj1 (C10_failure_without_error_object example_url
                  (answer (JObj [("success", JBool false)]))
                  "/login" "POST" (login_body "user@example.com" "secret1")
                  null [("success", JBool false)] (JBool false)
                  eq_refl eq_refl eq_refl eq_refl eq_refl)).
Defined.

End AppFacts.

(* ================================================================== *)
(** * What the patterns accept *)
(* ================================================================== *)

Module RegExpSemantics.

Import RegExp.

(** The language of a pattern body. *)
Inductive lang : re -> list ascii -> Prop :=
| lang_Eps : lang Eps []
| lang_Cls (p : ascii -> bool) (c : ascii) : p c = true -> lang (Cls p) [c]
| lang_Cat (a b : re) (s1 s2 : list ascii) :
    lang a s1 -> lang b s2 -> lang (Cat a b) (s1 ++ s2)
| lang_Alt_l (a b : re) (s : list ascii) : lang a s -> lang (Alt a b) s
| lang_Alt_r (a b : re) (s : list ascii) : lang b s -> lang (Alt a b) s
| lang_Star_nil (a : re) : lang (Star a) []
| lang_Star_app (a : re) (s1 s2 : list ascii) :
    lang a s1 -> lang (Star a) s2 -> lang (Star a) (s1 ++ s2).

Lemma lang_Cat_inv (a b : re) (s : list ascii) :
  lang (Cat a b) s ->
  exists s1 s2, s = (s1 ++ s2)%list /\ lang a s1 /\ lang b s2.
Proof.
  intros H. inversion H; subst. eexists _, _. repeat split; eassumption.
Qed.

Lemma lang_Alt_inv (a b : re) (s : list ascii) :
  lang (Alt a b) s -> lang a s \/ lang b s.
Proof. intros H. inversion H; subst; [left | right]; assumption. Qed.

Lemma nullable_lang (r : re) : nullable r = true <-> lang r [].
Proof.
  induction r as [ | | p | a IHa b IHb | a IHa b IHb | a IHa ]; cbn [nullable].
  - split; [discriminate | intros H; inversion H].
  - split; [constructor | reflexivity].
  - split; [discriminate | intros H; inversion H].
  - rewrite andb_true_iff, IHa, IHb. split.
    + intros [Ha Hb]. apply (lang_Cat a b [] [] Ha Hb).
    + intros H. apply lang_Cat_inv in H.
      destruct H as (s1 & s2 & Heq & Ha & Hb).
      symmetry in Heq. apply app_eq_nil in Heq. destruct Heq; subst.
      split; assumption.
  - rewrite orb_true_iff, IHa, IHb. split.
    + intros [H|H]; [apply lang_Alt_l | apply lang_Alt_r]; exact H.
    + apply lang_Alt_inv.
  - split; [constructor | reflexivity].
Qed.

(** A non-empty word of [a*] starts with a non-empty word of [a]. *)
Lemma lang_Star_cons (a : re) (c : ascii) (s : list ascii) :
  lang (Star a) (c :: s) ->
  exists s1 s2, s = (s1 ++ s2)%list /\ lang a (c :: s1) /\ lang (Star a) s2.
Proof.
  intros H. remember (Star a) as r eqn:Hr. remember (c :: s) as w eqn:Hw.
  revert Hr c s Hw.
  induction H as [ | | | | | | a' s1 s2 H1 _ H2 IH2 ];
    intros Hr c0 s0 Hw; try discriminate.
  inversion Hr; subst a'.
  destruct s1 as [|c1 s1].
  - cbn in Hw. apply (IH2 eq_refl c0 s0 Hw).
  - cbn in Hw. inversion Hw; subst. exists s1, s2. repeat split; assumption.
Qed.

Lemma deriv_lang (r : re) :
  forall (c : ascii) (s : list ascii), lang (deriv c r) s <-> lang r (c :: s).
Proof.
  induction r as [ | | p | a IHa b IHb | a IHa b IHb | a IHa ];
    intros c s; cbn [deriv].
  - split; intros H; inversion H.
  - split; intros H; inversion H.
  - destruct (p c) eqn:Hp; split; intros H; inversion H; subst.
    + constructor. exact Hp.
    + constructor.
    + congruence.
  - assert (Hcat : lang (Cat (deriv c a) b) s ->  lang (Cat a b) (c :: s)).
    { intros H. apply lang_Cat_inv in H.
      destruct H as (s1 & s2 & -> & Ha & Hb).
      apply IHa in Ha. apply (lang_Cat a b (c :: s1) s2 Ha Hb). }
    assert (Hinv : lang (Cat a b) (c :: s) ->
                   lang (Cat (deriv c a) b) s
                   \/ (lang a [] /\ lang b (c :: s))).
    { intros H. apply lang_Cat_inv in H.
      destruct H as (s1 & s2 & Heq & Ha & Hb).
      destruct s1 as [|c1 s1].
      - right. cbn in Heq. subst. split; assumption.
      - left. cbn in Heq. inversion Heq; subst.
        apply lang_Cat; [apply IHa; exact Ha | exact Hb]. }
    destruct (nullable a) eqn:Hn.
    + split.
      * intros H. apply lang_Alt_inv in H. destruct H as [H|H];
          [apply Hcat; assumption|].
        apply nullable_lang in Hn. apply IHb in H.
        apply (lang_Cat a b [] (c :: s) Hn H).
      * intros H. destruct (Hinv H) as [H1|[_ H2]];
          [apply lang_Alt_l; exact H1 | apply lang_Alt_r, IHb; exact H2].
    + split; [exact Hcat|].
      intros H. destruct (Hinv H) as [H1|[Ha _]]; [exact H1|].
      apply nullable_lang in Ha. congruence.
  - split; intros H; apply lang_Alt_inv in H; destruct H as [H|H].
    + apply lang_Alt_l, IHa. assumption.
    + apply lang_Alt_r, IHb. assumption.
    + apply lang_Alt_l, IHa. assumption.
    + apply lang_Alt_r, IHb. assumption.
  - split.
    + intros H. apply lang_Cat_inv in H.
      destruct H as (s1 & s2 & -> & Ha & Hs).
      apply IHa in Ha. apply (lang_Star_app a (c :: s1) s2 Ha Hs).
    + intros H. apply lang_Star_cons in H.
      destruct H as (s1 & s2 & -> & Ha & Hs).
      apply lang_Cat; [apply IHa; exact Ha | exact Hs].
Qed.

(** The derivative matcher decides the language. *)
Lemma matches_lang (s : list ascii) :
  forall r, matches r s = true <-> lang r s.
Proof.
  induction s as [|c s IH]; intros r; cbn [matches].
  - apply nullable_lang.
  - rewrite IH. apply deriv_lang.
Qed.

Lemma lang_any (s : list ascii) : lang (Star (Cls any)) s.
Proof.
  induction s as [|c s IH]; [constructor|].
  apply (lang_Star_app (Cls any) [c] s); [constructor; reflexivity | exact IH].
Qed.

(** [pattern.test(s)] on a pattern without anchors: some part of the
    input is in the language of the body. *)
Lemma test_unanchored (r : re) (s : string) :
  test (mkPattern false r) s = true
  <-> exists pre mid post,
        list_ascii_of_string s = (pre ++ mid ++ post)%list /\ lang r mid.
Proof.
  unfold test. cbn [anchored body]. rewrite matches_lang. split.
  - intros H. apply lang_Cat_inv in H.
    destruct H as (pre & rest & Heq & _ & Hrest).
    apply lang_Cat_inv in Hrest. destruct Hrest as (mid & post & -> & Hmid & _).
    exists pre, mid, post. split; [exact Heq | exact Hmid].
  - intros (pre & mid & post & -> & Hmid).
    apply lang_Cat; [apply lang_any|].
    apply lang_Cat; [exact Hmid | apply lang_any].
Qed.

Lemma test_anchored (r : re) (s : string) :
  test (mkPattern true r) s = true <-> lang r (list_ascii_of_string s).
Proof. unfold test. cbn [anchored body]. apply matches_lang. Qed.

Lemma lang_Cls_inv (p : ascii -> bool) (s : list ascii) :
  lang (Cls p) s <-> exists c, s = [c] /\ p c = true.
Proof.
  split.
  - intros H. inversion H; subst. eexists. split; [reflexivity | assumption].
  - intros (c & -> & Hc). constructor. exact Hc.
Qed.

Lemma lang_Star_Cls (p : ascii -> bool) (s : list ascii) :
  lang (Star (Cls p)) s <-> Forall (fun c => p c = true) s.
Proof.
  split.
  - intros H. remember (Star (Cls p)) as r eqn:Hr.
    induction H as [ | | | | | | a s1 s2 H1 _ _ IH2 ]; try discriminate.
    + constructor.
    + inversion Hr; subst a. inversion H1; subst. cbn.
      constructor; [assumption | apply IH2; reflexivity].
  - induction 1 as [|c s Hc _ IH]; [constructor|].
    apply (lang_Star_app (Cls p) [c] s); [constructor; exact Hc | exact IH].
Qed.

(** [c+]: a non-empty run of [c]. *)
Lemma lang_Plus_Cls (p : ascii -> bool) (s : list ascii) :
  lang (Plus (Cls p)) s <-> s <> [] /\ Forall (fun c => p c = true) s.
Proof.
  unfold Plus. split.
  - intros H. apply lang_Cat_inv in H. destruct H as (s1 & s2 & -> & H1 & H2).
    inversion H1; subst. apply lang_Star_Cls in H2. cbn.
    split; [discriminate | constructor; assumption].
  - intros [Hne Hall]. destruct s as [|c s]; [contradiction|].
    inversion Hall; subst.
    apply (lang_Cat (Cls p) (Star (Cls p)) [c] s);
      [constructor; assumption | apply lang_Star_Cls; assumption].
Qed.

(** [c{n}]: exactly [n] of [c]. *)
Lemma lang_Times_Cls (p : ascii -> bool) (n : nat) :
  forall s, lang (Times n (Cls p)) s
            <-> List.length s = n /\ Forall (fun c => p c = true) s.
Proof.
  induction n as [|n IH]; intros s; cbn [Times].
  - split.
    + intros H. inversion H. split; [reflexivity | constructor].
    + intros [Hl _]. destruct s; [constructor | discriminate].
  - split.
    + intros H. apply lang_Cat_inv in H.
      destruct H as (s1 & s2 & -> & H1 & H2).
      inversion H1; subst. apply IH in H2. destruct H2 as [Hl Hall]. cbn.
      split; [congruence | constructor; assumption].
    + intros [Hl Hall]. destruct s as [|c s]; [discriminate|].
      inversion Hall; subst. cbn in Hl.
      apply (lang_Cat (Cls p) _ [c] s); [constructor; assumption|].
      apply IH. split; [congruence | assumption].
Qed.

End RegExpSemantics.

(* ================================================================== *)
(** * More on the validation rules *)
(* ================================================================== *)

Module ValidationRules.

Import RegExp Validation RegExpSemantics ValidationFacts.


Lemma existsb_Exists_true {A} (p : A -> bool) (l : list A) :
  existsb p l = true <-> Exists (fun c => p c = true) l.
Proof.
  rewrite existsb_exists, Exists_exists. reflexivity.
Qed.

(** ** isRequired *)

Lemma trim_start_nil (l : list ascii) :
  trim_start l = [] <-> Forall (fun c => space c = true) l.
Proof.
  induction l as [|c l IH]; cbn [trim_start].
  - split; [constructor | reflexivity].
  - destruct (space c) eqn:Hc.
    + rewrite IH. split; [constructor; assumption|].
      intros H. inversion H; assumption.
    + split; [discriminate|]. intros H. inversion H; congruence.
Qed.

(** What [trim_start] leaves is empty or starts with a character that is
    no white space. *)
Lemma trim_start_head (l : list ascii) :
  trim_start l = []
  \/ exists c rest, trim_start l = c :: rest /\ space c = false.
Proof.
  induction l as [|c l IH]; cbn [trim_start]; [left; reflexivity|].
  destruct (space c) eqn:Hc; [exact IH|].
  right. exists c, l. split; [reflexivity | exact Hc].
Qed.

Lemma trim_empty (s : string) :
  trim s = "" <-> Forall (fun c => space c = true) (list_ascii_of_string s).
Proof.
  unfold trim. rewrite <- trim_start_nil.
  set (l := trim_start (list_ascii_of_string s)).
  split.
  - intros H.
    assert (Hl : rev (trim_start (rev l)) = []).
    { rewrite <- (list_ascii_of_string_of_list_ascii (rev _)), H.
      reflexivity. }
    assert (Ht : trim_start (rev l) = []).
    { rewrite <- (rev_involutive (trim_start (rev l))), Hl. reflexivity. }
    apply trim_start_nil in Ht.
    destruct (trim_start_head (list_ascii_of_string s))
      as [H0|(c & rest & Hc & Hsp)]; [exact H0|].
    fold l in Hc. rewrite Hc in Ht. cbn [rev] in Ht.
    apply Forall_app in Ht. destruct Ht as [_ Ht].
    inversion Ht; congruence.
  - intros ->. reflexivity.
Qed.

(** A value that is [null], [undefined] or prints as white space only. *)
Definition blank (value : JsVal) : Prop :=
  nullish value = true
  \/ Forall (fun c => space c = true) (list_ascii_of_string (js_String value)).

Lemma isRequired_blank_iff (value : JsVal) (message : option string) :
  (blank value ->
   isRequired value message
     = Some (default_arg message "This field is required."))
  /\ (~ blank value -> isRequired value message = None).
Proof.
  unfold isRequired, blank.
  destruct (String.eqb_spec (trim (js_String value)) "") as [Ht|Ht].
  - split; [intros _; rewrite !orb_true_r; reflexivity|].
    intros Hn. exfalso. apply Hn. right. apply trim_empty, Ht.
  - rewrite orb_false_r. split.
    + intros [Hn|Hb]; [|apply trim_empty in Hb; contradiction].
      destruct value as [[ | b | n | st | items | fields]|];
        try discriminate Hn; reflexivity.
    + intros Hn.
      destruct value as [[ | b | n | st | items | fields]|]; try reflexivity;
        exfalso; apply Hn; left; reflexivity.
Qed.




(** ** isValidEmail *)

Lemma lang_Chr (c : ascii) (s : list ascii) : lang (Chr c) s <-> s = [c].
Proof.
  unfold Chr. rewrite lang_Cls_inv. split.
  - intros (x & -> & Hx). apply Ascii.eqb_eq in Hx. subst. reflexivity.
  - intros ->. exists c. split; [reflexivity | apply Ascii.eqb_refl].
Qed.

(** [x@y.z] with [x], [y] and [z] non-empty runs of the class [cls]. *)
Definition local_at_domain (cls : ascii -> bool) (l : list ascii) : Prop :=
  exists x y z,
    l = (x ++ "@"%char :: y ++ "."%char :: z)%list
    /\ x <> [] /\ y <> [] /\ z <> []
    /\ Forall (fun c => cls c = true) x
    /\ Forall (fun c => cls c = true) y
    /\ Forall (fun c => cls c = true) z.

Lemma lang_local_at_domain (cls : ascii -> bool) (l : list ascii) :
  lang (Cat (Plus (Cls cls))
          (Cat (Chr "@"%char)
             (Cat (Plus (Cls cls))
                (Cat (Chr "."%char) (Plus (Cls cls)))))) l
  <-> local_at_domain cls l.
Proof.
  unfold local_at_domain. split.
  - intros H.
    apply lang_Cat_inv in H. destruct H as (x & r1 & -> & Hx & H).
    apply lang_Cat_inv in H. destruct H as (a & r2 & -> & Ha & H).
    apply lang_Cat_inv in H. destruct H as (y & r3 & -> & Hy & H).
    apply lang_Cat_inv in H. destruct H as (d & z & -> & Hd & Hz).
    apply lang_Chr in Ha, Hd. subst a d.
    apply lang_Plus_Cls in Hx, Hy, Hz.
    exists x, y, z. cbn [app]. intuition.
  - intros (x & y & z & -> & Hx & Hy & Hz & Fx & Fy & Fz).
    apply lang_Cat; [apply lang_Plus_Cls; split; assumption|].
    apply (lang_Cat _ _ ["@"%char]); [apply lang_Chr; reflexivity|].
    apply lang_Cat; [apply lang_Plus_Cls; split; assumption|].
    apply (lang_Cat _ _ ["."%char]); [apply lang_Chr; reflexivity|].
    apply lang_Plus_Cls; split; assumption.
Qed.

(** Some part of the string satisfies [P]. *)
Definition contains (P : list ascii -> Prop) (s : string) : Prop :=
  exists pre mid post,
    list_ascii_of_string s = (pre ++ mid ++ post)%list /\ P mid.

Lemma test_email_pattern (s : string) :
  test email_pattern s = true <-> contains (local_at_domain nonspace) s.
Proof.
  unfold email_pattern, contains. rewrite test_unanchored.
  split; intros (pre & mid & post & Heq & H); exists pre, mid, post;
    (split; [exact Heq | apply lang_local_at_domain; exact H]).
Qed.

(** [isValidEmail] on a string, with its default message. *)
Lemma isValidEmail_string (s : string) :
  isValidEmail (str s) None
  = if ((s =? "")%string || test email_pattern s)%bool then None
    else Some "Invalid email format.".
Proof.
  unfold isValidEmail. cbn [truthy str js_String string_of_json default_arg].
  destruct (s =? "")%string; [reflexivity|].
  destruct (test email_pattern s); reflexivity.
Qed.



(** ** hasUppercase, hasLowercase, hasNumber, hasSymbol *)

Lemma test_class (p : ascii -> bool) (s : string) :
  test (mkPattern false (Cls p)) s = existsb p (list_ascii_of_string s).
Proof.
  apply eq_true_iff_eq. rewrite test_unanchored, existsb_exists. split.
  - intros (pre & mid & post & Heq & H). apply lang_Cls_inv in H.
    destruct H as (c & -> & Hc). exists c. split; [|exact Hc].
    rewrite Heq. apply in_or_app. right. left. reflexivity.
  - intros (c & Hin & Hc). apply in_split in Hin.
    destruct Hin as (pre & post & Heq). exists pre, [c], post.
    split; [exact Heq | constructor; exact Hc].
Qed.

(** The character class a symbol belongs to: [[^a-zA-Z0-9\s]]. *)
Definition symbol (c : ascii) : bool :=
  negb (lower c || upper c || digit c || space c).

Definition has (p : ascii -> bool) (s : string) : bool :=
  existsb p (list_ascii_of_string s).

Lemma complexity_rule (pat : pattern) (p : ascii -> bool) (dflt : string)
  (value : JsVal) (message : option string) :
  pat = mkPattern false (Cls p) ->
  (if truthy value && negb (test pat (js_String value))
   then Some (default_arg message dflt) else None)
  = if truthy value && negb (has p (js_String value))
    then Some (default_arg message dflt) else None.
Proof. intros ->. rewrite test_class. reflexivity. Qed.

(** The chain of the four complexity rules, with their default messages. *)
Definition complexity_rules : list Rule :=
  [fun v => hasUppercase v None; fun v => hasLowercase v None;
   fun v => hasNumber v None; fun v => hasSymbol v None].

(** The four complexity rules accept the empty string; on a non-empty
    string the chain reports the first class that is missing, in the order
    uppercase, lowercase, digit, symbol, and passes exactly when the string
    has a character of each class. *)
Theorem complexity_chain :
  forall (s : string),
    validate (str s) complexity_rules
    = if (s =? "")%string then None
      else if negb (has upper s) then
        Some "Must contain at least one uppercase letter."
      else if negb (has lower s) then
        Some "Must contain at least one lowercase letter."
      else if negb (has digit s) then
        Some "Must contain at least one number."
      else if negb (has symbol s) then
        Some "Must contain at least one symbol."
      else None.
Proof.
  intros s. unfold complexity_rules. cbn [validate].
  unfold hasUppercase, hasLowercase, hasNumber, hasSymbol.
  rewrite (complexity_rule uppercase_pattern upper _ _ _ eq_refl).
  rewrite (complexity_rule lowercase_pattern lower _ _ _ eq_refl).
  rewrite (complexity_rule number_pattern digit _ _ _ eq_refl).
  rewrite (complexity_rule symbol_pattern symbol _ _ _ eq_refl).
  cbn [js_String str string_of_json truthy default_arg].
  destruct (s =? "")%string; cbn [negb andb is_error option_map truthy];
    [reflexivity|].
  destruct (has upper s); cbn [negb]; [|reflexivity].
  destruct (has lower s); cbn [negb]; [|reflexivity].
  destruct (has digit s); cbn [negb]; [|reflexivity].
  destruct (has symbol s); reflexivity.
Qed.

(** ** validate *)

(** Running two chains one after the other is running the second only
    when the first passes: rules added at the end of a chain never change
    the error an existing rule reports. *)
Theorem validate_app_chain :
  forall (value : JsVal) (first second : list Rule),
    validate value (first ++ second)%list
    = match validate value first with
      | Some m => Some m
      | None => validate value second
      end.
Proof.
  intros value first second.
  induction first as [|rule first IH]; [reflexivity|].
  cbn [app validate].
  destruct (rule value) as [m|] eqn:Hr.
  - destruct (is_error (Some m)); [reflexivity | exact IH].
  - cbn [is_error option_map truthy]. exact IH.
Qed.


(** The chain the documentation of [validate] gives as its example,
    [[isRequired, isValidEmail]], on a string: a blank string is reported
    as required, a string that is not blank and holds no [x@y.z] as an
    invalid email, and every other string passes. *)
Theorem required_email_chain :
  forall (s : string),
    let result := validate (str s)
                    [fun v => isRequired v None; fun v => isValidEmail v None] in
    let is_blank := Forall (fun c => space c = true) (list_ascii_of_string s) in
    (is_blank -> result = Some "This field is required.")
    /\ (~ is_blank -> contains (local_at_domain nonspace) s -> result = None)
    /\ (~ is_blank -> ~ contains (local_at_domain nonspace) s ->
        result = Some "Invalid email format.").
Proof.
  intros s result is_blank. unfold result, is_blank. cbn [validate].
  destruct (isRequired_blank_iff (str s) None) as [Hb Hn].
  unfold blank in Hb, Hn. cbn [js_String str string_of_json nullish] in Hb, Hn.
  split; [|split].
  - intros H. rewrite Hb by (right; exact H). reflexivity.
  - intros H Hc. rewrite Hn by (intros [H0|H0]; [discriminate | contradiction]).
    cbn [is_error option_map truthy]. rewrite isValidEmail_string.
    apply test_email_pattern in Hc. rewrite Hc, orb_true_r. reflexivity.
  - intros H Hc. rewrite Hn by (intros [H0|H0]; [discriminate | contradiction]).
    cbn [is_error option_map truthy]. rewrite isValidEmail_string.
    destruct (String.eqb_spec s "") as [He|He].
    + subst. exfalso. apply H. constructor.
    + destruct (test email_pattern s) eqn:Ht; [|reflexivity].
      exfalso. apply Hc, test_email_pattern, Ht.
Qed.

(** The chain [[isRequired, hasMinLength 6]] on a string: a blank string
    is reported as required, a string that is not blank and shorter than
    six characters as too short, with the length written into the default
    message, and every other string passes. *)
Theorem required_min_length_chain :
  forall (s : string),
    let result := validate (str s)
                    [fun v => isRequired v None;
                     fun v => hasMinLength v 6 None] in
    let is_blank := Forall (fun c => space c = true) (list_ascii_of_string s) in
    (is_blank -> result = Some "This field is required.")
    /\ (~ is_blank -> js_length s < 6 ->
        result = Some "Must be at least 6 characters.")
    /\ (~ is_blank -> 6 <= js_length s -> result = None).
Proof.
  intros s result is_blank. unfold result, is_blank. cbn [validate].
  destruct (isRequired_blank_iff (str s) None) as [Hb Hn].
  unfold blank in Hb, Hn. cbn [js_String str string_of_json nullish] in Hb, Hn.
  assert (Hne : ~ Forall (fun c => space c = true) (list_ascii_of_string s) ->
                truthy (str s) = true).
  { intros H. cbn. destruct (String.eqb_spec s ""); [|reflexivity].
    subst. exfalso. apply H. constructor. }
  split; [|split].
  - intros H. rewrite Hb by (right; exact H). reflexivity.
  - intros H Hlt.
    rewrite Hn by (intros [H0|H0]; [discriminate | contradiction]).
    cbn [is_error option_map truthy]. unfold hasMinLength.
    rewrite (Hne H). cbn [js_String str string_of_json andb].
    apply Z.ltb_lt in Hlt. rewrite Hlt. reflexivity.
  - intros H Hge.
    rewrite Hn by (intros [H0|H0]; [discriminate | contradiction]).
    cbn [is_error option_map truthy]. unfold hasMinLength.
    rewrite (Hne H). cbn [js_String str string_of_json andb].
    apply Z.ltb_ge in Hge. rewrite Hge. reflexivity.
Qed.

(** ** isMatching and isNotSameAs *)

(** On two strings [isMatching] passes exactly when they are equal and
    [isNotSameAs] exactly when they differ; neither skips the empty
    string, so [isNotSameAs('', '')] is an error. *)
Theorem matching_rules_on_strings :
  forall (a b : string) (m1 m2 : option string),
    (isMatching (str a) (str b) m1 = None <-> a = b)
    /\ (isNotSameAs (str a) (str b) m2 = None <-> a <> b)
    /\ (a <> b ->
        isMatching (str a) (str b) m1
          = Some (default_arg m1 "Values do not match."))
    /\ (a = b ->
        isNotSameAs (str a) (str b) m2
          = Some (default_arg m2 "Cannot be the same as the current value.")).
Proof.
  intros a b m1 m2. unfold isMatching, isNotSameAs.
  cbn [strict_eq str].
  destruct (String.eqb_spec a b) as [He|He]; cbn [negb].
  - repeat split; try congruence; try discriminate.
  - repeat split; try congruence; try discriminate.
Qed.

End ValidationRules.

(* ================================================================== *)
(** * More on the response normalizer *)
(* ================================================================== *)

Module ApiServiceResults.

Import ApiService JsFacts ApiServiceFacts.

(** ** Bodies that are no objects *)

(** A body that parses to [null] makes the [try] block throw at
    [rawJsonResponse.success]: the caller is told of a network error
    although the transport succeeded.  Every other body is classified
    without an exception. *)
Theorem request_null_body :
  forall (BASE_URL : string) (net : Fetch) (endpoint method_ : string)
    (data_ token : JsVal) (raw : Json),
    net (BASE_URL ++ endpoint)%string (make_config method_ data_ token)
      = JsonParsed raw ->
    (raw = JNull ->
     request BASE_URL net endpoint method_ data_ token = Ok network_error)
    /\ (raw <> JNull ->
        request BASE_URL net endpoint method_ data_ token
          = classify (Some raw)
        /\ exists r, classify (Some raw) = Ok r).
Proof.
  intros B net endpoint m d t raw Hnet.
  rewrite (request_parsed _ _ _ _ _ _ _ Hnet). split.
  - intros ->. reflexivity.
  - intros Hne. apply classify_throws_only_on_null in Hne.
    destruct Hne as [r Hr]. rewrite Hr. split; [reflexivity|].
    exists r. reflexivity.
Qed.

Lemma request_null_body_witness :
  request "https://lms.example/api" (fun _ _ => JsonParsed JNull)
    "/user" "GET" null (str "t0k3n")
  = Ok network_error.
Proof.
  apply (proj1 (request_null_body "https://lms.example/api"
                  (fun _ _ => JsonParsed JNull) "/user" "GET" null
                  (str "t0k3n") JNull eq_refl)).
  reflexivity.
Defined.

(** A string, a number or a boolean. *)
Definition scalar (raw : Json) : bool :=
  match raw with
  | JBool _ | JNum _ | JStr _ => true
  | _ => false
  end.

(** An array body has [typeof 'object'] and none of the keys the
    normalizer reads: it is returned whole as the success payload, the
    empty array included.  A string, number or boolean body is an
    unexpected response, kept in [details]. *)
Theorem request_array_or_scalar_body :
  forall (BASE_URL : string) (net : Fetch) (endpoint method_ : string)
    (data_ token : JsVal) (raw : Json),
    net (BASE_URL ++ endpoint)%string (make_config method_ data_ token)
      = JsonParsed raw ->
    ((exists items, raw = JArr items) ->
     request BASE_URL net endpoint method_ data_ token
       = Ok (Success (Some raw)))
    /\ (scalar raw = true ->
        request BASE_URL net endpoint method_ data_ token
          = Ok (Failure (Some (JObj
              [("message",
                JStr "An unexpected API response format was received.");
               ("code", JStr "UNEXPECTED_RESPONSE");
               ("details", raw)])))).
Proof.
  intros B net endpoint m d t raw Hnet.
  rewrite (request_parsed _ _ _ _ _ _ _ Hnet). split.
  - intros [items ->]. reflexivity.
  - destruct raw; intros Hs; try discriminate Hs; reflexivity.
Qed.

Lemma request_array_or_scalar_body_witness :
  request "https://lms.example/api" (fun _ _ => JsonParsed (JArr []))
    "/user" "GET" null (str "t0k3n")
  = Ok (Success (Some (JArr []))).
Proof.
  apply (proj1 (request_array_or_scalar_body "https://lms.example/api"
                  (fun _ _ => JsonParsed (JArr [])) "/user" "GET" null
                  (str "t0k3n") (JArr []) eq_refl)).
  exists []. reflexivity.
Defined.

(** ** When the result is a success, and what a failure carries *)

(** [classify] on an object, as one expression. *)
Lemma classify_on_object (fields : list (string * Json)) :
  classify (Some (JObj fields))
  = Ok (match lookup "success" fields with
        | Some s =>
            if truthy (Some s) then Success (lookup "data" fields)
            else if truthy (lookup "errors" fields) then
              Failure (error_object
                         (js_or (lookup "message" fields)
                            (str "Validation failed"))
                         "VALIDATION_ERROR" (lookup "errors" fields))
            else Failure (lookup "error" fields)
        | None =>
            if negb (truthy (lookup "error" fields))
               && negb (truthy (lookup "errors" fields))
            then Success (Some (JObj fields))
            else Failure (error_object
                            (js_or (lookup "message" fields)
                               (str "An unexpected API response format was received."))
                            "UNEXPECTED_RESPONSE" (Some (JObj fields)))
        end).
Proof.
  unfold classify. cbn [get rbind lazy_and typeof_object is_not_null].
  destruct (lookup "success" fields) as [s|]; cbn [is_defined].
  - destruct (truthy (Some s)); [reflexivity|].
    destruct (truthy (lookup "errors" fields)); reflexivity.
  - destruct (truthy (lookup "error" fields)); cbn [negb andb];
      [reflexivity|].
    destruct (truthy (lookup "errors" fields)); reflexivity.
Qed.

(** [request] reports success in exactly two cases: the body has a truthy
    [success] (then [data] is the body's [data], whatever [error] or
    [errors] it also carries), or the body is an object or array without
    [success] whose [error] and [errors] are falsy (then [data] is the
    whole body). *)
Theorem request_success_cases :
  forall (BASE_URL : string) (net : Fetch) (endpoint method_ : string)
    (data_ token : JsVal) (raw : Json) (d : JsVal),
    net (BASE_URL ++ endpoint)%string (make_config method_ data_ token)
      = JsonParsed raw ->
    (request BASE_URL net endpoint method_ data_ token = Ok (Success d)
     <-> (truthy (get_opt (Some raw) "success") = true
          /\ d = get_opt (Some raw) "data")
         \/ (get_opt (Some raw) "success" = None
             /\ typeof_object (Some raw) = true
             /\ raw <> JNull
             /\ truthy (get_opt (Some raw) "error") = false
             /\ truthy (get_opt (Some raw) "errors") = false
             /\ d = Some raw)).
Proof.
  intros B net endpoint m d0 t raw d Hnet.
  rewrite (request_parsed _ _ _ _ _ _ _ Hnet).
  destruct raw as [ | b | n | s | items | fields ].
  - cbn. split; [discriminate|].
    intros [[H _]|(_ & _ & H & _)]; [discriminate H | contradiction].
  - cbn. split; [discriminate|].
    intros [[H _]|(_ & H & _)]; discriminate H.
  - cbn. split; [discriminate|].
    intros [[H _]|(_ & H & _)]; discriminate H.
  - cbn. split; [discriminate|].
    intros [[H _]|(_ & H & _)]; discriminate H.
  - cbn. split.
    + intros H. inversion H; subst. right.
      repeat split; try reflexivity. discriminate.
    + intros [[H _]|(_ & _ & _ & _ & _ & ->)]; [discriminate H | reflexivity].
  - rewrite classify_on_object. cbn [try_catch get_opt typeof_object].
    destruct (lookup "success" fields) as [s|] eqn:Hs.
    + destruct (truthy (Some s)) eqn:Ht.
      * split.
        -- intros H. inversion H; subst. left. split; reflexivity.
        -- intros [[_ ->]|(H & _)]; [reflexivity | discriminate H].
      * split.
        -- destruct (truthy (lookup "errors" fields)); discriminate.
        -- intros [[H _]|(H & _)]; discriminate H.
    + destruct (truthy (lookup "error" fields)) eqn:He;
        [|destruct (truthy (lookup "errors" fields)) eqn:Hes];
        cbn [negb andb].
      * split; [discriminate|].
        intros [[H _]|(_ & _ & _ & H & _)]; discriminate H.
      * split; [discriminate|].
        intros [[H _]|(_ & _ & _ & _ & H & _)]; discriminate H.
      * split.
        -- intros H. inversion H; subst. right.
           repeat split; try reflexivity. discriminate.
        -- intros [[H _]|(_ & _ & _ & _ & _ & ->)];
             [discriminate H | reflexivity].
Qed.

Lemma request_success_cases_witness :
  request "https://lms.example/api"
    (fun _ _ => JsonParsed
       (JObj [("success", JNum 1); ("errors", JObj [("x", JNull)]);
              ("data", JStr "kept")]))
    "/user" "GET" null (str "t0k3n")
  = Ok (Success (str "kept")).
Proof.
  apply (proj2 (request_success_cases "https://lms.example/api"
                  (fun _ _ => JsonParsed
                     (JObj [("success", JNum 1);
                            ("errors", JObj [("x", JNull)]);
                            ("data", JStr "kept")]))
                  "/user" "GET" null (str "t0k3n") _ (str "kept") eq_refl)).
  left. split; reflexivity.
Defined.

Lemma truthy_defined (v : JsVal) : truthy v = true -> exists j, v = Some j.
Proof. destruct v as [j|]; [eexists; reflexivity | discriminate]. Qed.

(** The error object the normalizer builds: its message is the body's
    message when that is truthy and the fallback otherwise, and it is
    truthy either way. *)
Lemma error_object_fields (message details : JsVal) (fallback code : string) :
  fallback <> "" ->
  let err := error_object (js_or message (str fallback)) code details in
  get_opt err "message" = js_or message (str fallback)
  /\ truthy (get_opt err "message") = true
  /\ get_opt err "code" = str code.
Proof.
  intros Hf err. unfold err, error_object, js_or.
  assert (Hstr : truthy (str fallback) = true).
  { cbn. destruct (String.eqb_spec fallback ""); [contradiction | reflexivity]. }
  destruct (truthy message) eqn:Hm.
  - destruct (truthy_defined message Hm) as [j ->].
    cbn [object get_opt lookup String.eqb Ascii.eqb Bool.eqb str].
    repeat split; try assumption; destruct details; reflexivity.
  - cbn [object get_opt lookup str].
    repeat split; try assumption; destruct details; reflexivity.
Qed.

(** The codes the normalizer itself assigns. *)
Definition own_codes : list string :=
  ["VALIDATION_ERROR"; "UNEXPECTED_RESPONSE"; "NETWORK_ERROR"].

(** Every failure [request] returns either carries an error object built
    by the normalizer, with a truthy [message] and one of its three codes,
    or is the pass-through of the body's own [error] property (the body has
    a falsy [success] and falsy [errors]), which may be anything,
    [undefined] included. *)
Theorem request_failure_cases :
  forall (BASE_URL : string) (net : Fetch) (endpoint method_ : string)
    (data_ token : JsVal) (err : JsVal),
    request BASE_URL net endpoint method_ data_ token = Ok (Failure err) ->
    (truthy (get_opt err "message") = true
     /\ exists code, In code own_codes /\ get_opt err "code" = str code)
    \/ (exists fields s,
          net (BASE_URL ++ endpoint)%string
              (make_config method_ data_ token) = JsonParsed (JObj fields)
          /\ lookup "success" fields = Some s
          /\ truthy (Some s) = false
          /\ truthy (lookup "errors" fields) = false
          /\ err = lookup "error" fields).
Proof.
  intros B net endpoint m d t err.
  assert (Hnet_err :
    Ok network_error = Ok (Failure err) ->
    truthy (get_opt err "message") = true
    /\ exists code, In code own_codes /\ get_opt err "code" = str code).
  { intros H. inversion H; subst. split; [reflexivity|].
    exists "NETWORK_ERROR". split; [cbn; tauto | reflexivity]. }
  assert (Hunexpected : forall (message : JsVal) (raw : Json),
    Ok (Failure (error_object
                   (js_or message
                      (str "An unexpected API response format was received."))
                   "UNEXPECTED_RESPONSE" (Some raw)))
      = Ok (Failure err) ->
    truthy (get_opt err "message") = true
    /\ exists code, In code own_codes /\ get_opt err "code" = str code).
  { intros message raw H. inversion H; subst.
    destruct (error_object_fields message (Some raw)
                "An unexpected API response format was received."
                "UNEXPECTED_RESPONSE" ltac:(discriminate)) as (_ & Hm & Hc).
    split; [exact Hm|]. exists "UNEXPECTED_RESPONSE".
    split; [cbn; tauto | exact Hc]. }
  unfold request, request_try.
  destruct (net (B ++ endpoint)%string (make_config m d t))
    as [ | | raw ] eqn:Hnet; cbn [await_json rbind try_catch].
  - intros H. left. apply Hnet_err, H.
  - intros H. left. apply Hnet_err, H.
  - destruct raw as [ | b | n | s | items | fields ].
    + cbn. intros H. left. apply Hnet_err, H.
    + intros H. left. apply (Hunexpected undefined (JBool b)), H.
    + intros H. left. apply (Hunexpected undefined (JNum n)), H.
    + intros H. left. apply (Hunexpected undefined (JStr s)), H.
    + cbn. discriminate.
    + rewrite classify_on_object. cbn [try_catch].
      destruct (lookup "success" fields) as [s|] eqn:Hs.
      * destruct (truthy (Some s)) eqn:Ht; [discriminate|].
        destruct (truthy (lookup "errors" fields)) eqn:Hes.
        -- intros H. inversion H; subst. left.
           destruct (error_object_fields (lookup "message" fields)
                       (lookup "errors" fields) "Validation failed"
                       "VALIDATION_ERROR" ltac:(discriminate))
             as (_ & Hm & Hc).
           split; [exact Hm|]. exists "VALIDATION_ERROR".
           split; [cbn; tauto | exact Hc].
        -- intros H. inversion H; subst. right.
           exists fields, s. repeat split; assumption.
      * destruct (negb (truthy (lookup "error" fields))
                  && negb (truthy (lookup "errors" fields)));
          [discriminate|].
        intros H. left.
        apply (Hunexpected (lookup "message" fields) (JObj fields)), H.
Qed.

Lemma request_failure_cases_witness :
  truthy (get_opt (Some (JObj [("message", JStr "Unauthenticated.");
                               ("code", JStr "UNEXPECTED_RESPONSE");
                               ("details",
                                JObj [("message", JStr "Unauthenticated.");
                                      ("error", JBool true)])]))
            "message") = true.
Proof.
  destruct (request_failure_cases "https://lms.example/api"
              (fun _ _ => JsonParsed
                 (JObj [("message", JStr "Unauthenticated.");
                        ("error", JBool true)]))
              "/user" "GET" null (str "t0k3n")
              (Some (JObj [("message", JStr "Unauthenticated.");
                           ("code", JStr "UNEXPECTED_RESPONSE");
                           ("details",
                            JObj [("message", JStr "Unauthenticated.");
                                  ("error", JBool true)])]))
              eq_refl) as [[H _]|(fields & s & Hn & Hs & _)].
  - exact H.
  - inversion Hn; subst. discriminate Hs.
Defined.

End ApiServiceResults.

(* ================================================================== *)
(** * More on the handlers and the event loop *)
(* ================================================================== *)

Module AppRuns.

Import ApiService App JsFacts ApiServiceFacts AppFacts.
Import RegExp RegExpSemantics ValidationRules.

(** ** The requests an event issues *)

Definition json_headers : list (string * string) :=
  [("Content-Type", "application/json"); ("Accept", "application/json")].

(** A POST of [fields] without an [Authorization] header. *)
Definition public_post (fields : list (string * Json)) : Config :=
  mkConfig "POST" json_headers (Some (JObj fields)).

Lemma no_keys_assign (key : string) (v : Json) (fields : list (string * Json)) :
  no_keys (assign key v fields) = false.
Proof.
  destruct fields as [|[k x] rest]; cbn; [reflexivity|].
  destruct (k =? key)%string; reflexivity.
Qed.

Lemma truthy_str (s : string) : truthy (str s) = negb (s =? "")%string.
Proof. reflexivity. Qed.

Lemma js_length_empty : js_length "" = 0.
Proof. reflexivity. Qed.

Lemma contains_nonempty (cls : ascii -> bool) (s : string) :
  contains (local_at_domain cls) s -> s <> "".
Proof.
  intros (pre & mid & post & Heq & (x & y & z & -> & _)) ->.
  apply (f_equal (@List.length ascii)) in Heq.
  rewrite !length_app in Heq. cbn in Heq. rewrite length_app in Heq.
  cbn in Heq. lia.
Qed.

(** ** What each form accepts *)

(** The login form: [email] holds [x@y.z] with [x], [y], [z] non-empty
    and free of line breaks, and the password has six characters or
    more. *)
Definition login_form_valid (email password : string) : Prop :=
  contains (local_at_domain dot) email /\ 6 <= js_length password.

Lemma test_login_pattern (s : string) :
  test LoginForm_email_pattern s = true <-> contains (local_at_domain dot) s.
Proof.
  unfold LoginForm_email_pattern, contains. rewrite test_unanchored.
  split; intros (pre & mid & post & Heq & H); exists pre, mid, post;
    (split; [exact Heq | apply lang_local_at_domain; exact H]).
Qed.

Lemma LoginForm_valid_iff (email password : string) :
  no_keys (LoginForm_validateForm email password) = true
  <-> login_form_valid email password.
Proof.
  unfold LoginForm_validateForm, login_form_valid. rewrite !truthy_str.
  rewrite <- test_login_pattern. cbv zeta.
  assert (He : email = "" -> test LoginForm_email_pattern email = false).
  { intros ->. reflexivity. }
  destruct (String.eqb_spec email "") as [He'|He'];
    [rewrite (He He')|clear He];
    destruct (test LoginForm_email_pattern email);
    (destruct (String.eqb_spec password "") as [Hp|Hp];
     [subst password; rewrite js_length_empty
     |destruct (Z.ltb_spec (js_length password) 6)]);
    cbn [negb]; rewrite ?no_keys_assign;
    try (split; [discriminate | intros [? ?]; try lia; congruence]).
  split; [intros _; split; [reflexivity | assumption] | reflexivity].
Qed.

(** The forgot-password form: [email] holds [x@y.z] with [x], [y], [z]
    non-empty and free of white space.  The branch for the string
    ['debug-invalid-email'] changes nothing: that string holds no [@]. *)
Lemma ForgotPasswordForm_valid_iff (email : string) :
  no_keys (ForgotPasswordForm_validateEmail email) = true
  <-> contains (local_at_domain nonspace) email.
Proof.
  unfold ForgotPasswordForm_validateEmail. rewrite truthy_str.
  rewrite <- test_email_pattern.
  destruct (String.eqb_spec email "") as [He|He]; cbn [negb].
  - subst. rewrite no_keys_assign. split; [discriminate|].
    intros H. vm_compute in H. discriminate H.
  - destruct (String.eqb_spec email "debug-invalid-email") as [Hd|Hd].
    + subst. rewrite no_keys_assign. split; [discriminate|].
      intros H. vm_compute in H. discriminate H.
    + destruct (test Validation.email_pattern email); cbn [negb];
        rewrite ?no_keys_assign; cbn [no_keys]; split; congruence.
Qed.

(** The OTP form: exactly six decimal digits. *)
Lemma OTPVerificationForm_valid_iff (otp : string) :
  no_keys (OTPVerificationForm_validateForm otp) = true
  <-> ValidationFacts.decimal_digits otp 6.
Proof.
  unfold OTPVerificationForm_validateForm, ValidationFacts.decimal_digits.
  rewrite truthy_str.
  assert (Ht : test otp_pattern otp = true
               <-> Forall (fun c => In c (list_ascii_of_string "0123456789"))
                          (list_ascii_of_string otp)
                   /\ Z.of_nat (String.length otp) = 6).
  { unfold otp_pattern. rewrite test_anchored, lang_Times_Cls.
    rewrite ValidationFacts.length_list_ascii. split.
    - intros [Hl Hall]. split; [|lia].
      eapply Forall_impl; [|exact Hall].
      intros c Hc. apply RegExpFacts.digit_spec, Hc.
    - intros [Hall Hl]. split; [lia|].
      eapply Forall_impl; [|exact Hall].
      intros c Hc. apply RegExpFacts.digit_spec, Hc. }
  rewrite <- Ht.
  destruct (String.eqb_spec otp "") as [He|He]; cbn [negb].
  - subst. rewrite no_keys_assign. split; [discriminate|].
    intros H. vm_compute in H. discriminate H.
  - destruct (test otp_pattern otp); cbn [negb]; rewrite ?no_keys_assign;
      cbn [no_keys]; split; congruence.
Qed.

(** The reset-password form: the [email] and [otp] handed over by the
    page are truthy, the password has six characters or more and the
    confirmation is equal to it. *)
Definition reset_form_valid (email otp : JsVal)
  (password passwordConfirmation : string) : Prop :=
  truthy email = true /\ truthy otp = true
  /\ 6 <= js_length password /\ password = passwordConfirmation.

Lemma ResetPasswordForm_valid_iff (email otp : JsVal)
  (password passwordConfirmation : string) :
  no_keys (ResetPasswordForm_validateForm email otp password
             passwordConfirmation) = true
  <-> reset_form_valid email otp password passwordConfirmation.
Proof.
  unfold ResetPasswordForm_validateForm, reset_form_valid.
  rewrite truthy_str. cbv zeta.
  destruct (truthy email); cbn [negb];
    destruct (truthy otp); cbn [negb];
    (destruct (String.eqb_spec password "") as [Hp|Hp]; cbn [negb];
     [assert (Hl : js_length password = 0) by (rewrite Hp; reflexivity)
     |destruct (Z.ltb_spec (js_length password) 6)]);
    destruct (String.eqb_spec password passwordConfirmation) as [Hc|Hc];
    cbn [negb]; rewrite ?no_keys_assign;
    try (split; [discriminate | intros (? & ? & ? & ?); try lia; congruence]).
  split; [intros _; repeat split; assumption | reflexivity].
Qed.

(** The profile form: the current password is not empty, the new one has
    six characters or more, differs from the current one and is equal to
    its confirmation. *)
Definition profile_form_valid
  (currentPassword newPassword confirmNewPassword : string) : Prop :=
  currentPassword <> "" /\ 6 <= js_length newPassword
  /\ newPassword <> currentPassword /\ newPassword = confirmNewPassword.

Lemma ProfileSettings_valid_iff
  (currentPassword newPassword confirmNewPassword : string) :
  no_keys (ProfileSettings_validateForm currentPassword newPassword
             confirmNewPassword) = true
  <-> profile_form_valid currentPassword newPassword confirmNewPassword.
Proof.
  unfold ProfileSettings_validateForm, profile_form_valid.
  rewrite !truthy_str. cbv zeta.
  destruct (String.eqb_spec currentPassword "") as [Hc|Hc]; cbn [negb];
    (destruct (String.eqb_spec newPassword "") as [Hp|Hp]; cbn [negb andb];
     [assert (Hl : js_length newPassword = 0) by (rewrite Hp; reflexivity)
     |destruct (Z.ltb_spec (js_length newPassword) 6)]);
    destruct (String.eqb_spec newPassword currentPassword) as [Hs|Hs];
    destruct (String.eqb_spec newPassword confirmNewPassword) as [Hm|Hm];
    cbn [negb andb]; rewrite ?no_keys_assign;
    try (split; [discriminate
                | intros (? & ? & ? & ?); try lia; congruence]).
  split; [intros _; repeat split; assumption | reflexivity].
Qed.

Section WithBaseUrl.

Variable BASE_URL : string.

(** After the call, whatever the continuation does to the rest of the
    state, the log holds one more entry. *)
Lemma api_request_logged (net : Fetch) (endpoint method_ : string)
  (data_ token_ : JsVal) (k : ApiResult -> M unit) (s : AppState) :
  (forall r, preserves requests (k r)) ->
  requests (snd (bind (api_request BASE_URL net endpoint method_ data_ token_)
                   k s))
  = (requests s ++ [(endpoint, make_config method_ data_ token_)])%list.
Proof.
  intros Hk. unfold api_request, bind, lift, log_request, modify.
  destruct (request_total BASE_URL net endpoint method_ data_ token_)
    as [r Hr]. rewrite Hr. cbn [fst snd]. rewrite Hk. reflexivity.
Qed.

Ltac continuation_keeps_requests :=
  intro; unfold report_failure, showFlashMessage, redirectToDashboard; frame.

(** [LoginForm]: a submission whose email holds [x@y.z] and whose
    password has six characters or more issues exactly one call,
    [POST /login] with the body [{ email, password }] and without an
    [Authorization] header; any other submission issues no call and
    changes nothing. *)
Theorem LoginForm_submit_request :
  forall (net : Fetch) (email password : string) (s : AppState),
    let out := LoginForm_handleSubmit BASE_URL net email password s in
    (login_form_valid email password ->
     requests (snd out)
     = (requests s
        ++ [("/login",
             public_post [("email", JStr email);
                          ("password", JStr password)])])%list)
    /\ (~ login_form_valid email password -> out = (Ok tt, s)).
Proof.
  intros net email password s out. unfold out, LoginForm_handleSubmit.
  pose proof (LoginForm_valid_iff email password) as Hv.
  destruct (no_keys (LoginForm_validateForm email password)); cbn [negb].
  - split; [intros _ | intros Hn; exfalso; apply Hn, Hv; reflexivity].
    rewrite api_request_logged by continuation_keeps_requests.
    reflexivity.
  - split; [intros H; apply Hv in H; discriminate H | reflexivity].
Qed.

(** [ForgotPasswordForm]: an email that holds [x@y.z] free of white
    space issues exactly one call, [POST /forgot-password] with the body
    [{ email }]; any other email issues no call and changes nothing. *)
Theorem ForgotPasswordForm_submit_request :
  forall (net : Fetch) (email : string) (s : AppState),
    let out := ForgotPasswordForm_handleRequestOtp BASE_URL net email s in
    (contains (local_at_domain nonspace) email ->
     requests (snd out)
     = (requests s
        ++ [("/forgot-password", public_post [("email", JStr email)])])%list)
    /\ (~ contains (local_at_domain nonspace) email -> out = (Ok tt, s)).
Proof.
  intros net email s out. unfold out, ForgotPasswordForm_handleRequestOtp.
  pose proof (ForgotPasswordForm_valid_iff email) as Hv.
  destruct (no_keys (ForgotPasswordForm_validateEmail email)); cbn [negb].
  - split; [intros _ | intros Hn; exfalso; apply Hn, Hv; reflexivity].
    rewrite api_request_logged by continuation_keeps_requests.
    reflexivity.
  - split; [intros H; apply Hv in H; discriminate H | reflexivity].
Qed.

(** [OTPVerificationForm]: an OTP of exactly six decimal digits issues
    exactly one call, [POST /verify-otp], whose body carries the OTP and
    the email the page was given (the empty string when the page was given
    none); any other OTP issues no call and changes nothing. *)
Theorem OTPVerificationForm_submit_request :
  forall (net : Fetch) (initialData : JsVal) (otp : string) (s : AppState),
    let out := OTPVerificationForm_handleVerifyOtp BASE_URL net initialData
                 otp s in
    (ValidationFacts.decimal_digits otp 6 ->
     exists email,
       js_or (get_opt initialData "email") (str "") = Some email
       /\ requests (snd out)
          = (requests s
             ++ [("/verify-otp",
                  public_post [("email", email); ("otp", JStr otp)])])%list)
    /\ (~ ValidationFacts.decimal_digits otp 6 -> out = (Ok tt, s)).
Proof.
  intros net initialData otp s out.
  unfold out, OTPVerificationForm_handleVerifyOtp. cbv zeta.
  pose proof (OTPVerificationForm_valid_iff otp) as Hv.
  destruct (no_keys (OTPVerificationForm_validateForm otp)); cbn [negb].
  - split; [intros _ | intros Hn; exfalso; apply Hn, Hv; reflexivity].
    rewrite api_request_logged by continuation_keeps_requests.
    unfold js_or.
    destruct (truthy (get_opt initialData "email")) eqn:Ht.
    + destruct (get_opt initialData "email") as [email|];
        [|discriminate Ht].
      exists email. split; reflexivity.
    + exists (JStr ""). split; reflexivity.
  - split; [intros H; apply Hv in H; discriminate H | reflexivity].
Qed.

(** [ResetPasswordForm]: the call [POST /reset-password] is issued
    exactly when the page data carries a truthy email and a truthy OTP,
    the password has six characters or more and the confirmation is equal
    to it; its body repeats the email and the OTP of the page data
    unchanged.  Otherwise no call is issued and nothing changes. *)
Theorem ResetPasswordForm_submit_request :
  forall (net : Fetch) (initialData : JsVal)
    (password passwordConfirmation : string) (s : AppState),
    let out := ResetPasswordForm_handleResetPassword BASE_URL net initialData
                 password passwordConfirmation s in
    let valid :=
      reset_form_valid (get_opt initialData "email")
        (get_opt initialData "otp") password passwordConfirmation in
    (valid ->
     exists email otp,
       get_opt initialData "email" = Some email
       /\ get_opt initialData "otp" = Some otp
       /\ requests (snd out)
          = (requests s
             ++ [("/reset-password",
                  public_post [("email", email); ("otp", otp);
                               ("password", JStr password);
                               ("password_confirmation",
                                JStr password)])])%list)
    /\ (~ valid -> out = (Ok tt, s)).
Proof.
  intros net initialData password passwordConfirmation s out valid.
  unfold out, valid, ResetPasswordForm_handleResetPassword. cbv zeta.
  pose proof (ResetPasswordForm_valid_iff
                (ResetPasswordForm_field initialData "email")
                (ResetPasswordForm_field initialData "otp")
                password passwordConfirmation) as Hv.
  assert (Hfield : forall key,
            truthy (ResetPasswordForm_field initialData key)
            = truthy (get_opt initialData key)).
  { intros key. unfold ResetPasswordForm_field, js_or.
    destruct (truthy initialData); [reflexivity|].
    destruct (truthy (get_opt initialData key)) eqn:Ht;
      [exact Ht | reflexivity]. }
  assert (Hsame : forall key,
            truthy (get_opt initialData key) = true ->
            ResetPasswordForm_field initialData key
            = get_opt initialData key).
  { intros key Ht. unfold ResetPasswordForm_field, js_or.
    rewrite Ht. destruct (truthy initialData); reflexivity. }
  unfold reset_form_valid in *. rewrite !Hfield in Hv.
  destruct (no_keys _); cbn [negb].
  - split; [intros _ | intros Hn; exfalso; apply Hn, Hv; reflexivity].
    destruct (proj1 Hv eq_refl) as (He & Ho & _ & Hc).
    rewrite api_request_logged by continuation_keeps_requests.
    rewrite (Hsame "email" He), (Hsame "otp" Ho). subst passwordConfirmation.
    destruct (get_opt initialData "email") as [email|]; [|discriminate He].
    destruct (get_opt initialData "otp") as [otp|]; [|discriminate Ho].
    exists email, otp. repeat split.
  - split; [intros H; apply Hv in H; discriminate H | reflexivity].
Qed.

Lemma bind_read {A B} (f : AppState -> A) (k : A -> M B) (s : AppState) :
  bind (read f) k s = k (f s) s.
Proof. reflexivity. Qed.

(** [ProfileSettings]: the call [POST /profile/reset-password] is issued
    exactly when the current password is not empty and the new one has six
    characters or more, differs from the current one and equals its
    confirmation; it carries the header [Authorization: Bearer <token>]
    when the token in state is truthy and no such header otherwise.  An
    invalid form issues no call and changes nothing. *)
Theorem ProfileSettings_submit_request :
  forall (net : Fetch) (currentPassword newPassword confirmNewPassword : string)
    (s : AppState),
    let out := ProfileSettings_handleChangePassword BASE_URL net
                 currentPassword newPassword confirmNewPassword s in
    let valid :=
      profile_form_valid currentPassword newPassword confirmNewPassword in
    (valid ->
     requests (snd out)
     = (requests s
        ++ [("/profile/reset-password",
             mkConfig "POST"
               (json_headers
                ++ (if truthy (token s)
                    then [("Authorization",
                           ("Bearer " ++ js_String (token s))%string)]
                    else []))
               (Some (JObj [("current_password", JStr currentPassword);
                            ("new_password", JStr newPassword);
                            ("new_password_confirmation",
                             JStr newPassword)])))])%list)
    /\ (~ valid -> out = (Ok tt, s)).
Proof.
  intros net currentPassword newPassword confirmNewPassword s out valid.
  unfold out, valid, ProfileSettings_handleChangePassword.
  pose proof (ProfileSettings_valid_iff currentPassword newPassword
                confirmNewPassword) as Hv.
  destruct (no_keys _); cbn [negb].
  - split; [intros _ | intros Hn; exfalso; apply Hn, Hv; reflexivity].
    destruct (proj1 Hv eq_refl) as (_ & _ & _ & Hc).
    rewrite bind_read.
    rewrite api_request_logged by continuation_keeps_requests.
    subst confirmNewPassword. reflexivity.
  - split; [intros H; apply Hv in H; discriminate H | reflexivity].
Qed.

(** ** Properties kept by every handler *)

(** [m] keeps the property [Q] of the observation [f], whether it returns
    or throws. *)
Definition sets {A X : Type} (f : AppState -> X) (Q : X -> Prop) (m : M A)
  : Prop :=
  forall s, Q (f s) -> Q (f (snd (m s))).

Lemma sets_preserves {A X} (f : AppState -> X) (Q : X -> Prop) (m : M A) :
  preserves f m -> sets f Q m.
Proof. intros H s HQ. rewrite H. exact HQ. Qed.

Lemma sets_bind {A B X} (f : AppState -> X) (Q : X -> Prop)
  (m : M A) (k : A -> M B) :
  sets f Q m -> (forall a, sets f Q (k a)) -> sets f Q (bind m k).
Proof.
  intros Hm Hk s HQ. unfold bind. specialize (Hm s HQ).
  destruct (m s) as [[a|e] s']; cbn [snd] in *.
  - apply Hk, Hm.
  - exact Hm.
Qed.

Lemma sets_setCurrentPage (Q : Page -> Prop) (p : Page) :
  Q p -> sets currentPage Q (setCurrentPage p).
Proof. intros H s _. exact H. Qed.

(** The flash on show: the message and its type. *)
Definition flash (s : AppState) : JsVal * JsVal :=
  (flashMessage s, flashType s).

Lemma sets_showFlashMessage (Q : JsVal * JsVal -> Prop) (message type : JsVal) :
  Q (message, type) -> sets flash Q (showFlashMessage message type).
Proof. intros H s _. exact H. Qed.

Lemma sets_log_request (Q : string * Config -> Prop) (endpoint : string)
  (config : Config) :
  Q (endpoint, config) ->
  sets requests (Forall Q) (log_request endpoint config).
Proof.
  intros H s Hs. cbn. apply Forall_app. split; [exact Hs|].
  constructor; [exact H | constructor].
Qed.

Lemma sets_step {X} (f : AppState -> X) (Q : X -> Prop) (ev : Event) :
  sets f Q (handler BASE_URL ev) ->
  forall s, Q (f s) -> Q (f (step BASE_URL s ev)).
Proof.
  intros H s HQ. rewrite step_unfold.
  destruct (enabled s ev); [apply H, HQ | exact HQ].
Qed.

End WithBaseUrl.

Ltac sets_step_tac :=
  first
    [ apply sets_showFlashMessage
    | apply sets_bind; [| intro]
    | match goal with
      | |- sets _ _ (if ?c then _ else _) => destruct c eqn:?
      | |- sets _ _ (match ?x with _ => _ end) => destruct x eqn:?
      end
    | apply sets_setCurrentPage
    | apply sets_log_request
    | apply sets_preserves; solve [unfold showFlashMessage; frame] ].

Ltac sets_tac := repeat sets_step_tac.

Ltac unfold_forms :=
  unfold handler, checkAuth_resume, checkAuth_start, LoginForm_handleSubmit,
    ForgotPasswordForm_handleRequestOtp, OTPVerificationForm_handleVerifyOtp,
    ResetPasswordForm_handleResetPassword, ProfileSettings_handleChangePassword,
    Dashboard_handleLogout, report_failure, api_request, redirectToDashboard;
  cbv zeta.

Section Invariants.

Variable BASE_URL : string.

(** *** The flash message *)

(** No message, or a truthy message of type ['success'] or ['danger']:
    what [FlashMessage] is written for. *)
Definition flash_ok (f : JsVal * JsVal) : Prop :=
  fst f = null
  \/ (truthy (fst f) = true /\ (snd f = str "success" \/ snd f = str "danger")).

Lemma truthy_js_or (a : JsVal) (fallback : string) :
  fallback <> "" -> truthy (js_or a (str fallback)) = true.
Proof.
  intros Hne. unfold js_or. destruct (truthy a) eqn:Ha; [exact Ha|].
  cbn. destruct (String.eqb_spec fallback ""); [contradiction | reflexivity].
Qed.

Lemma handler_flash (ev : Event) : sets flash flash_ok (handler BASE_URL ev).
Proof.
  destruct ev; unfold_forms; sets_tac;
    try (right; split;
         [first [reflexivity | apply truthy_js_or; discriminate]
         | auto]).
  - left. reflexivity.
  - intros s _. left. reflexivity.
Qed.

(** Whatever has happened, either no flash message is set, or the one
    that is set is truthy, so that [FlashMessage] renders it, and its type
    is ['success'] or ['danger']: a message taken from a server response
    is replaced by the handler's own text when it is empty or missing. *)
Theorem flash_message_invariant :
  forall (stored : option string) (evs : list Event),
    flash_ok (flash (run BASE_URL (mount stored) evs)).
Proof.
  intros stored evs.
  apply (run_invariant BASE_URL (fun s => flash_ok (flash s))).
  - intros s ev. apply sets_step, handler_flash.
  - left. reflexivity.
Qed.

(** *** The page on show *)

(** What [currentPage] can hold: one of the four pages without data, the
    OTP page with an email that passed the forgot-password form, or the
    reset page with an email and a six-digit OTP. *)
Definition page_ok (p : Page) : Prop :=
  (In (page_name p) ["login"; "forgot-password"; "dashboard";
                     "profile-settings"]
   /\ page_data p = null)
  \/ (page_name p = "verify-otp"
      /\ exists email,
           page_data p = Some (JObj [("email", JStr email)])
           /\ contains (local_at_domain nonspace) email)
  \/ (page_name p = "reset-password"
      /\ exists email otp,
           page_data p = Some (JObj [("email", email); ("otp", JStr otp)])
           /\ ValidationFacts.decimal_digits otp 6).

Lemma page_ok_plain (name : string) :
  In name ["login"; "forgot-password"; "dashboard"; "profile-settings"] ->
  page_ok (mkPage name null).
Proof. intros H. left. split; [exact H | reflexivity]. Qed.

Lemma link_target (s : AppState) (target : string) :
  enabled s (LinkClick target) = true ->
  In target ["login"; "forgot-password"; "dashboard"; "profile-settings"].
Proof.
  cbn [enabled]. intros H. apply andb_true_iff in H. destruct H as [_ H].
  apply existsb_exists in H. destruct H as ([from to] & Hin & H).
  apply andb_true_iff in H. destruct H as [_ H]. cbn [snd] in H.
  apply String.eqb_eq in H. subst to.
  cbn in Hin.
  repeat (destruct Hin as [Hin|Hin];
          [inversion Hin; subst; cbn; auto 6|]).
  contradiction.
Qed.

Lemma handler_page (ev : Event) :
  (forall target, ev <> LinkClick target) ->
  sets currentPage page_ok (handler BASE_URL ev).
Proof.
  intros Hlink.
  destruct ev; try (exfalso; eapply Hlink; reflexivity);
    unfold_forms; sets_tac;
    try (apply page_ok_plain; cbn; auto 6).
  - (* the OTP page *)
    right. left. split; [reflexivity|]. exists email.
    split; [reflexivity|]. apply ForgotPasswordForm_valid_iff.
    match goal with
    | H : negb _ = false |- _ => apply negb_false_iff in H; exact H
    end.
  - (* the reset page *)
    right. right. split; [reflexivity|].
    match goal with
    | H : negb _ = false |- _ =>
        apply negb_false_iff, OTPVerificationForm_valid_iff in H
    end.
    unfold js_or.
    destruct (truthy (get_opt (page_data a) "email")) eqn:Ht.
    + destruct (get_opt (page_data a) "email") as [email|];
        [|discriminate Ht].
      exists email, otp. split; [reflexivity | assumption].
    + exists (JStr ""), otp. split; [reflexivity | assumption].
Qed.

Lemma page_ok_step (s : AppState) (ev : Event) :
  page_ok (currentPage s) -> page_ok (currentPage (step BASE_URL s ev)).
Proof.
  intros H. destruct ev;
    try (apply sets_step; [apply handler_page; discriminate | exact H]).
  rewrite step_unfold. destruct (enabled s (LinkClick target)) eqn:Hen;
    [|exact H].
  apply page_ok_plain, (link_target s), Hen.
Qed.

(** The names [App] renders a component for. *)
Definition rendered_pages : list string :=
  ["login"; "forgot-password"; "verify-otp"; "reset-password"; "dashboard";
   "profile-settings"].

(** Whatever has happened, [currentPage.name] is one of the six names
    [App] renders a component for; the OTP page always holds
    [{ email }] with an email that passed the forgot-password form, the
    reset page always holds [{ email, otp }] with an OTP of six digits,
    and every other page has [data: null]. *)
Theorem current_page_invariant :
  forall (stored : option string) (evs : list Event),
    let page := currentPage (run BASE_URL (mount stored) evs) in
    In (page_name page) rendered_pages /\ page_ok page.
Proof.
  intros stored evs page.
  assert (H : page_ok page).
  { apply (run_invariant BASE_URL (fun s => page_ok (currentPage s))).
    - intros s ev. apply page_ok_step.
    - apply page_ok_plain. cbn. auto. }
  split; [|exact H].
  destruct H as [[H _]|[[-> _]|[-> _]]]; cbn in *; intuition auto.
Qed.

(** *** The calls to the backend *)

Definition public_endpoints : list string :=
  ["/login"; "/forgot-password"; "/verify-otp"; "/reset-password"].

(** The three kinds of call the application makes, [stored] being the
    token found in [localStorage] when the application was mounted. *)
Definition call_ok (stored : option string) (r : string * Config) : Prop :=
  (exists t,
     stored = Some t /\ t <> ""
     /\ r = ("/user",
             mkConfig "GET"
               (json_headers
                  ++ [("Authorization", ("Bearer " ++ t)%string)])%list
               None))
  \/ (In (fst r) public_endpoints
      /\ method (snd r) = "POST" /\ headers (snd r) = json_headers
      /\ exists fields, ApiService.body (snd r) = Some (JObj fields))
  \/ (fst r = "/profile/reset-password"
      /\ method (snd r) = "POST"
      /\ (exists fields, ApiService.body (snd r) = Some (JObj fields))
      /\ (headers (snd r) = json_headers
          \/ exists t,
               headers (snd r)
               = (json_headers
                  ++ [("Authorization", ("Bearer " ++ t)%string)])%list)).

Definition token_of (stored : option string) : JsVal :=
  match stored with
  | Some t => str t
  | None => null
  end.

Lemma handler_calls (stored : option string) (ev : Event) :
  ev <> MountEffect ->
  sets requests (Forall (call_ok stored)) (handler BASE_URL ev).
Proof.
  intros Hne.
  destruct ev; try congruence; unfold_forms; sets_tac.
  1-4: right; left; cbn;
       (split; [auto 6 | split; [reflexivity | split; [reflexivity|]]]);
       eexists; reflexivity.
  right. right. cbn. split; [reflexivity|]. split; [reflexivity|].
  split; [eexists; reflexivity|].
  unfold make_headers. destruct (truthy a); [right | left].
  - eexists. reflexivity.
  - reflexivity.
Qed.

Lemma checkAuth_start_calls (stored : option string) (s : AppState) :
  tokenAtMount s = token_of stored ->
  Forall (call_ok stored) (requests s) ->
  Forall (call_ok stored) (requests (snd (checkAuth_start s))).
Proof.
  intros Ht Hs. unfold checkAuth_start. rewrite bind_read.
  destruct (isInitialMount s); [|exact Hs].
  cbn -[make_config]. rewrite Ht.
  destruct stored as [t|]; cbn -[make_config]; [|exact Hs].
  destruct (String.eqb_spec t "") as [He|He]; cbn -[make_config];
    [exact Hs|].
  apply Forall_app. split; [exact Hs|]. constructor; [|constructor].
  left. exists t. split; [reflexivity|]. split; [exact He|].
  unfold make_config, make_headers. cbn.
  destruct (String.eqb_spec t ""); [contradiction | reflexivity].
Qed.

(** Whatever has happened, the log of calls holds only calls of three
    kinds: [GET /user] without a body and with the token found in
    [localStorage] at mount time as bearer; [POST] to [/login],
    [/forgot-password], [/verify-otp] or [/reset-password] with an object
    as body and no [Authorization] header; [POST /profile/reset-password]
    with an object as body and at most one [Authorization] header.  No
    other endpoint is called, and logging out calls none. *)
Theorem calls_invariant :
  forall (stored : option string) (evs : list Event),
    Forall (call_ok stored) (requests (run BASE_URL (mount stored) evs)).
Proof.
  intros stored evs.
  assert (H : tokenAtMount (run BASE_URL (mount stored) evs) = token_of stored
              /\ Forall (call_ok stored)
                   (requests (run BASE_URL (mount stored) evs))).
  { apply (run_invariant BASE_URL
             (fun s => tokenAtMount s = token_of stored
                       /\ Forall (call_ok stored) (requests s))).
    - intros s ev [Ht Hs]. split.
      + rewrite step_unfold. destruct (enabled s ev); [|exact Ht].
        rewrite handler_tokenAtMount. exact Ht.
      + destruct ev;
          try (apply sets_step; [apply handler_calls; discriminate | exact Hs]).
        rewrite step_unfold. cbn [enabled handler].
        apply checkAuth_start_calls; assumption.
    - split; [destruct stored; reflexivity | constructor]. }
  exact (proj2 H).
Qed.

(** *** The stored token and the token in state *)

(** The token in state is a value ToString converts, and [localStorage]
    holds its string form, or holds nothing, and then the token is
    [null]. *)
Definition storage_agrees (s : AppState) : Prop :=
  printable (token s) = true
  /\ match authToken s with
     | Some item => item = js_String (token s)
     | None => token s = null
     end.

Lemma LoginForm_storage net email password s :
  let s' := snd (LoginForm_handleSubmit BASE_URL net email password s) in
  (token s' = token s /\ authToken s' = authToken s)
  \/ (printable (token s') = true
      /\ authToken s' = Some (js_String (token s'))).
Proof.
  unfold LoginForm_handleSubmit.
  destruct (negb (no_keys (LoginForm_validateForm email password)));
    [left; cbn; auto|].
  unfold api_request.
  remember (request BASE_URL net "/login" "POST" _ null) as resp eqn:Hresp.
  unfold bind, lift, log_request, modify.
  destruct resp as [[d0|e0]|ex]; cbn.
  - destruct (get d0 "access_token") as [at_|ex]; cbn; [|left; auto].
    destruct (to_String_cases at_) as [[Hp Hs]|[_ Hs]];
      rewrite Hs; cbn; [|left; auto].
    right.
    destruct (get d0 "user") as [u|ex]; cbn; [|auto].
    destruct (get u "role") as [role|ex]; cbn; [|auto].
    split.
    + rewrite (redirect_frame token role (fun q s0 => eq_refl)). exact Hp.
    + rewrite (redirect_frame token role (fun q s0 => eq_refl)).
      apply (redirect_frame authToken role (fun q s0 => eq_refl)).
  - left. unfold report_failure, bind, lift. cbn.
    destruct (get e0 "details"); cbn; [|auto].
    destruct (get e0 "message"); cbn; auto.
  - left. auto.
Qed.

Lemma ProfileSettings_storage net cur new conf s :
  let s' := snd (ProfileSettings_handleChangePassword BASE_URL net cur new
                   conf s) in
  (token s' = token s /\ authToken s' = authToken s)
  \/ (token s' = null /\ authToken s' = None).
Proof.
  unfold ProfileSettings_handleChangePassword.
  destruct (negb (no_keys (ProfileSettings_validateForm cur new conf)));
    [left; cbn; auto|].
  unfold api_request. cbn -[request].
  destruct_request; cbn.
  - destruct (get d "message"); cbn; [right|left]; auto.
  - left. unfold report_failure, bind, lift. cbn.
    destruct (get e "details"); cbn; [|auto].
    destruct (get e "message"); cbn; auto.
  - left. auto.
Qed.

Lemma storage_agrees_step (s : AppState) (ev : Event) :
  storage_agrees s -> storage_agrees (step BASE_URL s ev).
Proof.
  intros H. rewrite step_unfold. destruct (enabled s ev); [|exact H].
  assert (Hsame : forall s',
            token s' = token s -> authToken s' = authToken s ->
            storage_agrees s').
  { intros s' Et Ea. unfold storage_agrees. rewrite Et, Ea. exact H. }
  assert (Hclear : forall s',
            token s' = null -> authToken s' = None -> storage_agrees s').
  { intros s' Et Ea. unfold storage_agrees. rewrite Et, Ea.
    split; reflexivity. }
  destruct ev;
    try (apply Hsame; [apply handler_token | apply handler_authToken];
         reflexivity).
  - (* UserResponse *)
    cbn [handler].
    destruct (request_total BASE_URL net "/user" "GET" null (tokenAtMount s))
      as [[d|e] Hr].
    + destruct (checkAuth_resume_success BASE_URL net s d Hr)
        as (_ & Et & Ea & _).
      apply Hsame; assumption.
    + destruct (checkAuth_resume_failure BASE_URL net s e Hr)
        as (_ & Et & Ea & _).
      apply Hclear; assumption.
  - (* LoginSubmit *)
    cbn [handler].
    destruct (LoginForm_storage net email password s)
      as [(Et & Ea) | (Hp & Ea)].
    + apply Hsame; assumption.
    + unfold storage_agrees. rewrite Ea. split; [exact Hp | reflexivity].
  - (* ChangePasswordSubmit *)
    cbn [handler].
    destruct (ProfileSettings_storage net currentPassword newPassword
                confirmNewPassword s) as [[Et Ea]|[Et Ea]].
    + apply Hsame; assumption.
    + apply Hclear; assumption.
  - (* LogoutClick *)
    apply Hclear; reflexivity.
Qed.

(** Whatever has happened, the token in state is a value ToString
    converts, so that no [`Bearer ${token}`] the application builds from
    it throws, and [localStorage] agrees with it: the item [authToken] is
    either absent, and then the token is [null], or it is the string form
    of the token.  The item can be there while the token is [null] or
    [undefined]: a login whose answer has [access_token: null], or none,
    stores ['null'] or ['undefined'].  Every handler that writes one
    writes the other before it can throw. *)
Theorem storage_invariant :
  forall (stored : option string) (evs : list Event),
    let s := run BASE_URL (mount stored) evs in
    printable (token s) = true
    /\ (forall item, authToken s = Some item -> item = js_String (token s))
    /\ (authToken s = None -> token s = null).
Proof.
  intros stored evs s.
  assert (H : storage_agrees s).
  { apply (run_invariant BASE_URL storage_agrees).
    - apply storage_agrees_step.
    - destruct stored; split; reflexivity. }
  destruct H as [Hp H]. split; [exact Hp|]. split.
  - intros item E. rewrite E in H. exact H.
  - intros E. rewrite E in H. exact H.
Qed.

End Invariants.

(** ** What a handler does with the answer *)

Section Answers.

Variable BASE_URL : string.

(** [redirectToDashboard] as one assignment. *)
Definition role_recognized (role : JsVal) : bool :=
  existsb (fun r => strict_eq role (str r)) recognized_roles.

Definition landing_page (role : JsVal) : Page :=
  mkPage (if role_recognized role then "dashboard" else "login") null.

Lemma redirectToDashboard_page (role : JsVal) :
  redirectToDashboard role = setCurrentPage (landing_page role).
Proof.
  unfold redirectToDashboard, landing_page, role_recognized.
  cbn [existsb recognized_roles].
  destruct (strict_eq role (str "super_admin")); [reflexivity|].
  destruct (strict_eq role (str "school_admin")); [reflexivity|].
  destruct (strict_eq role (str "hod")); [reflexivity|].
  destruct (strict_eq role (str "teacher")); [reflexivity|].
  destruct (strict_eq role (str "student")); reflexivity.
Qed.

Lemma get_nullish (v : JsVal) (key : string) :
  nullish v = true -> get v key = Throw TypeError.
Proof. destruct v as [[]|]; try discriminate; reflexivity. Qed.

(** A valid login form and a successful answer whose [data] is neither
    [null] nor [undefined].  When ToString converts [data.access_token],
    the handler stores its string form in [localStorage] and the value
    itself in state, sets the user to [data.user] and shows
    ['Login successful!'], whatever these two properties hold; it then
    goes to the dashboard when [data.user.role] is one of the five
    recognized roles and to the login page for any other role, and when
    [data.user] is [null] or missing it throws at [user.role], after the
    token has been stored and the flash shown, and the page stays.  When
    ToString throws on [data.access_token], the handler throws at
    [localStorage.setItem], before any state is written: only the call
    has been logged. *)
Theorem LoginForm_success :
  forall (net : Fetch) (email password : string) (s : AppState) (d : JsVal),
    login_form_valid email password ->
    request BASE_URL net "/login" "POST" (login_body email password) null
      = Ok (Success d) ->
    nullish d = false ->
    let out := LoginForm_handleSubmit BASE_URL net email password s in
    let access_token := get_opt d "access_token" in
    let user_ := get_opt d "user" in
    let calls :=
      (requests s
       ++ [("/login",
            public_post [("email", JStr email);
                         ("password", JStr password)])])%list in
    (printable access_token = true -> nullish user_ = false ->
     out = (Ok tt,
            mkState user_ access_token (loading s)
              (str "Login successful!") (str "success")
              (landing_page (get_opt user_ "role"))
              (isInitialMount s) (Some (js_String access_token))
              (tokenAtMount s) (awaitingUser s) (S (timers s)) calls))
    /\ (printable access_token = true -> nullish user_ = true ->
        out = (Throw TypeError,
               mkState user_ access_token (loading s)
                 (str "Login successful!") (str "success")
                 (currentPage s)
                 (isInitialMount s) (Some (js_String access_token))
                 (tokenAtMount s) (awaitingUser s) (S (timers s)) calls))
    /\ (printable access_token = false ->
        out = (Throw TypeError,
               mkState (user s) (token s) (loading s) (flashMessage s)
                 (flashType s) (currentPage s) (isInitialMount s)
                 (authToken s) (tokenAtMount s) (awaitingUser s) (timers s)
                 calls)).
Proof.
  intros net email password s d Hv Hreq Hd out access_token user_ calls.
  apply LoginForm_valid_iff in Hv.
  assert (Hrun :
    out
    = (access_token0 <- lift (Ok access_token) ;;
       localStorage_setItem access_token0 ;;
       setToken access_token0 ;;
       user_0 <- lift (Ok user_) ;;
       setUser user_0 ;;
       showFlashMessage (str "Login successful!") (str "success") ;;
       role <- lift (get user_0 "role") ;;
       redirectToDashboard role)%handler
        (mkState (user s) (token s) (loading s) (flashMessage s)
           (flashType s) (currentPage s) (isInitialMount s)
           (authToken s) (tokenAtMount s) (awaitingUser s) (timers s)
           calls)).
  { unfold out, LoginForm_handleSubmit. rewrite Hv. cbn [negb].
    unfold api_request. fold (login_body email password).
    unfold bind at 1. unfold bind at 1. cbn [log_request modify fst snd].
    unfold lift at 1. rewrite Hreq. cbn [success data].
    rewrite (get_defined d "access_token" Hd), (get_defined d "user" Hd).
    reflexivity. }
  rewrite Hrun. unfold localStorage_setItem.
  cbn -[get redirectToDashboard js_String to_String access_token user_].
  split; [|split].
  - intros Hp Hu. rewrite (to_String_printable _ Hp).
    cbn -[get redirectToDashboard js_String access_token user_].
    rewrite (get_defined user_ "role" Hu), redirectToDashboard_page.
    reflexivity.
  - intros Hp Hu. rewrite (to_String_printable _ Hp).
    cbn -[get redirectToDashboard js_String access_token user_].
    rewrite (get_nullish user_ "role" Hu). reflexivity.
  - intros Hp. rewrite (to_String_unprintable _ Hp). reflexivity.
Qed.

(** A valid profile form and a successful answer.  When the answer's
    [data] is neither [null] nor [undefined], the handler shows the
    answer's message, or its own text when that message is falsy, removes
    the token from [localStorage] and from state, clears the user and goes
    to the login page.  When [data] is [null] or missing, it throws at
    [response.data.message] before any of this: the password has been
    changed and the application shows nothing and stays logged in. *)
Theorem ProfileSettings_success :
  forall (net : Fetch) (currentPassword newPassword : string) (s : AppState)
    (d : JsVal),
    profile_form_valid currentPassword newPassword newPassword ->
    request BASE_URL net "/profile/reset-password" "POST"
      (Some (JObj [("current_password", JStr currentPassword);
                   ("new_password", JStr newPassword);
                   ("new_password_confirmation", JStr newPassword)]))
      (token s) = Ok (Success d) ->
    let out := ProfileSettings_handleChangePassword BASE_URL net
                 currentPassword newPassword newPassword s in
    let calls :=
      (requests s
       ++ [("/profile/reset-password",
            make_config "POST"
              (Some (JObj [("current_password", JStr currentPassword);
                           ("new_password", JStr newPassword);
                           ("new_password_confirmation", JStr newPassword)]))
              (token s))])%list in
    (nullish d = false ->
     out = (Ok tt,
            mkState null null (loading s)
              (js_or (get_opt d "message")
                 (str "Password updated successfully! Please log in again."))
              (str "success") (mkPage "login" null)
              (isInitialMount s) None (tokenAtMount s) (awaitingUser s)
              (S (timers s)) calls))
    /\ (nullish d = true ->
        out = (Throw TypeError,
               mkState (user s) (token s) (loading s) (flashMessage s)
                 (flashType s) (currentPage s) (isInitialMount s)
                 (authToken s) (tokenAtMount s) (awaitingUser s) (timers s)
                 calls)).
Proof.
  intros net currentPassword newPassword s d Hv Hreq out calls.
  apply ProfileSettings_valid_iff in Hv.
  split; intros Hd;
    unfold out, ProfileSettings_handleChangePassword; rewrite Hv;
    cbn [negb]; rewrite bind_read; unfold api_request;
    change (Some (JObj (object
              [("current_password", str currentPassword);
               ("new_password", str newPassword);
               ("new_password_confirmation", str newPassword)])))
      with (Some (JObj [("current_password", JStr currentPassword);
                        ("new_password", JStr newPassword);
                        ("new_password_confirmation", JStr newPassword)]));
    unfold bind at 1; unfold bind at 1; cbn [log_request modify fst snd];
    unfold lift at 1; rewrite Hreq; cbn [success data].
  - rewrite (get_defined d "message" Hd). reflexivity.
  - rewrite (get_nullish d "message" Hd). reflexivity.
Qed.

(** ** When the server cannot be reached *)

(** [fetch] or [response.json()] rejects, whatever the call. *)
Definition offline (net : Fetch) : Prop :=
  forall url config raw, net url config <> JsonParsed raw.

Lemma request_offline (net : Fetch) (endpoint method_ : string)
  (data_ token_ : JsVal) :
  offline net ->
  request BASE_URL net endpoint method_ data_ token_ = Ok network_error.
Proof.
  intros Hoff. unfold request, request_try.
  destruct (net (BASE_URL ++ endpoint)%string
              (make_config method_ data_ token_)) as [ | |raw] eqn:Hnet;
    [reflexivity | reflexivity |].
  exfalso. exact (Hoff _ _ _ Hnet).
Qed.

(** The host a submit event is answered by. *)
Definition submitted_to (ev : Event) : option Fetch :=
  match ev with
  | LoginSubmit net _ _ | RequestOtpSubmit net _ | VerifyOtpSubmit net _
  | NewPasswordSubmit net _ _ | ChangePasswordSubmit net _ _ _ => Some net
  | _ => None
  end.

Definition network_flash : JsVal * JsVal :=
  (str "Network error or server unreachable.", str "danger").

(** When the server cannot be reached, each of the five forms either
    rejects its input and changes nothing, or returns normally after
    showing ['Network error or server unreachable.'] as a ['danger']
    flash, never its own fallback text, and adds one timer and one logged
    call; the page, the user, the token and [localStorage] stay as they
    were. *)
Theorem offline_submit :
  forall (ev : Event) (net : Fetch) (s : AppState),
    submitted_to ev = Some net ->
    offline net ->
    let out := handler BASE_URL ev s in
    out = (Ok tt, s)
    \/ (exists call,
          out = (Ok tt,
                 mkState (user s) (token s) (loading s)
                   (fst network_flash) (snd network_flash)
                   (currentPage s) (isInitialMount s) (authToken s)
                   (tokenAtMount s) (awaitingUser s) (S (timers s))
                   (requests s ++ [call])%list)).
Proof.
  intros ev net s Hev Hoff out. unfold out.
  destruct ev; try discriminate Hev; cbn [submitted_to] in Hev;
    injection Hev as ->; unfold_forms;
    rewrite ?bind_read; cbv beta;
    (match goal with
     | |- context [negb ?c] => destruct c
     end; cbn [negb]; [right | left; reflexivity]);
    rewrite ?bind_read; cbv beta;
    unfold bind at 1; unfold bind at 1; cbn [log_request modify fst snd];
    unfold lift at 1; rewrite (request_offline _ _ _ _ _ Hoff);
    eexists; reflexivity.
Qed.

(** ** The session check *)

(** The call of the session check. *)
Definition user_call (t : string) : string * Config :=
  ("/user",
   mkConfig "GET"
     (json_headers ++ [("Authorization", ("Bearer " ++ t)%string)])%list
     None).

(** The state while the check is outstanding. *)
Definition checking (t : string) : AppState :=
  {| user := null;
     token := str t;
     loading := true;
     flashMessage := null;
     flashType := null;
     currentPage := mkPage "login" null;
     isInitialMount := false;
     authToken := Some t;
     tokenAtMount := str t;
     awaitingUser := true;
     timers := 0%nat;
     requests := [user_call t] |}.

Lemma mount_effect_token (t : string) :
  t <> "" -> step BASE_URL (mount (Some t)) MountEffect = checking t.
Proof.
  intros Hne. apply String.eqb_neq in Hne.
  unfold step, checking, user_call, checkAuth_start, make_config,
    make_headers.
  cbn. rewrite !Hne. cbn. unfold make_config, make_headers. cbn.
  rewrite !Hne. reflexivity.
Qed.

Lemma user_response (t : string) (net : Fetch) :
  step BASE_URL (checking t) (UserResponse net)
  = snd (checkAuth_resume BASE_URL net (checking t)).
Proof. reflexivity. Qed.

(** Nothing but the timers of the flash moves while the application
    shows its loading screen and no check is outstanding. *)
Definition stuck (s : AppState) : Prop :=
  loading s = true /\ awaitingUser s = false /\ isInitialMount s = false.

Lemma stuck_step (s : AppState) (ev : Event) :
  stuck s -> stuck (step BASE_URL s ev).
Proof.
  intros (Hl & Ha & Hi). rewrite step_unfold.
  destruct (enabled s ev) eqn:Hen; [|repeat split; assumption].
  destruct ev; cbn [enabled] in Hen; rewrite ?Hl, ?Ha in Hen;
    try discriminate Hen.
  - cbn [handler]. rewrite (checkAuth_start_again s Hi).
    repeat split; assumption.
  - repeat split; assumption.
  - unfold stuck.
    rewrite (handler_loading BASE_URL FlashTimeout eq_refl),
      (handler_awaitingUser BASE_URL FlashTimeout eq_refl),
      (handler_isInitialMount BASE_URL FlashTimeout ltac:(discriminate)).
    repeat split; assumption.
Qed.

(** The session check answered with success.  When the answer's [data]
    is neither [null] nor [undefined] it becomes the user, the stored
    token stays in place, the loading screen goes, and the page is the
    dashboard for a recognized [data.role] and the login page for any
    other; no flash is shown.  When [data] is [null] or missing (the body
    [{ success: true }] for one), [checkAuth] throws at
    [response.data.role] before [setLoading(false)]: the application shows
    its loading screen for ever after, whatever happens. *)
Theorem session_check_success :
  forall (t : string) (net : Fetch) (d : JsVal),
    t <> "" ->
    request BASE_URL net "/user" "GET" null (str t) = Ok (Success d) ->
    let s := run BASE_URL (mount (Some t)) [MountEffect; UserResponse net] in
    (nullish d = false ->
     s = mkState d (str t) false null null (landing_page (get_opt d "role"))
           false (Some t) (str t) false 0%nat [user_call t])
    /\ (nullish d = true ->
        s = mkState d (str t) true null null (mkPage "login" null)
              false (Some t) (str t) false 0%nat [user_call t]
        /\ forall evs, loading (run BASE_URL s evs) = true).
Proof.
  intros t net d Hne Hreq s.
  assert (Hs : s = snd (checkAuth_resume BASE_URL net (checking t))).
  { unfold s. rewrite !run_cons, (mount_effect_token t Hne). reflexivity. }
  assert (Hrun :
    snd (checkAuth_resume BASE_URL net (checking t))
    = snd (match get d "role" with
           | Ok role =>
               (setCurrentPage (landing_page role) ;; setLoading false)%handler
           | Throw e => lift (Throw e)
           end
             (mkState d (str t) true null null (mkPage "login" null)
                false (Some t) (str t) false 0%nat [user_call t]))).
  { unfold checkAuth_resume.
    unfold bind at 1. cbn [set_awaitingUser modify fst snd].
    rewrite bind_read. cbn [tokenAtMount checking].
    unfold bind at 1. unfold bind at 1. unfold lift at 1. rewrite Hreq.
    cbn [fst snd success data].
    unfold bind at 1. unfold bind at 1. cbn [setUser modify fst snd].
    unfold bind at 1. unfold lift at 1.
    destruct (get d "role") as [role|e]; cbn [fst snd];
      [rewrite redirectToDashboard_page|]; reflexivity. }
  rewrite Hs, Hrun. split; intros Hd.
  - rewrite (get_defined d "role" Hd). reflexivity.
  - rewrite (get_nullish d "role" Hd). split; [reflexivity|].
    intros evs.
    apply (run_invariant BASE_URL stuck stuck_step evs).
    repeat split.
Qed.

(** When the server cannot be reached while the session check is
    outstanding, the application treats the stored token as expired: it
    deletes it from [localStorage] and from state, shows ['Your session
    has expired. Please log in again.'] and goes to the login page. *)
Theorem offline_session_check :
  forall (t : string) (net : Fetch),
    t <> "" ->
    offline net ->
    run BASE_URL (mount (Some t)) [MountEffect; UserResponse net]
    = mkState null null false
        (str "Your session has expired. Please log in again.") (str "danger")
        (mkPage "login" null) false None (str t) false 1%nat [user_call t].
Proof.
  intros t net Hne Hoff.
  rewrite !run_cons, (mount_effect_token t Hne). cbn [run fold_left].
  rewrite user_response. unfold checkAuth_resume.
  unfold bind at 1. cbn [set_awaitingUser modify fst snd].
  rewrite bind_read. cbn [tokenAtMount checking].
  unfold bind at 1. unfold bind at 1. unfold lift at 1.
  rewrite (request_offline _ _ _ _ _ Hoff). reflexivity.
Qed.

(** Without a stored token, or with the empty string stored, the mount
    effect goes straight to the login page and ends the loading screen,
    and the session-check endpoint is never called, whatever happens
    later. *)
Theorem no_token_no_session_check :
  forall (stored : option string) (evs : list Event),
    stored = None \/ stored = Some "" ->
    let s := step BASE_URL (mount stored) MountEffect in
    loading s = false
    /\ currentPage s = mkPage "login" null
    /\ requests s = []
    /\ sessionChecks (run BASE_URL s evs) = 0%nat.
Proof.
  intros stored evs Hstored s.
  assert (Hs : loading s = false /\ currentPage s = mkPage "login" null
               /\ requests s = [] /\ isInitialMount s = false).
  { destruct Hstored as [->| ->]; repeat split. }
  destruct Hs as (Hl & Hp & Hr & Hi).
  split; [exact Hl|]. split; [exact Hp|]. split; [exact Hr|].
  rewrite (settled_run BASE_URL evs s Hi).
  unfold sessionChecks. rewrite Hr. reflexivity.
Qed.

(** ** The password-recovery flow *)

Definition forgot_body (email : string) : JsVal :=
  Some (JObj [("email", JStr email)]).

Definition verify_body (email otp : string) : JsVal :=
  Some (JObj [("email", JStr email); ("otp", JStr otp)]).

Definition reset_body (email otp password : string) : JsVal :=
  Some (JObj [("email", JStr email); ("otp", JStr otp);
              ("password", JStr password);
              ("password_confirmation", JStr password)]).

(** The state a form leaves after a successful answer: a flash, a new
    page, one more timer and one more logged call. *)
Definition answered (s : AppState) (message : JsVal) (page : Page)
  (call : string * Config) : AppState :=
  mkState (user s) (token s) (loading s) message (str "success") page
    (isInitialMount s) (authToken s) (tokenAtMount s) (awaitingUser s)
    (S (timers s)) (requests s ++ [call]).

Lemma ForgotPasswordForm_success (net : Fetch) (email : string) (s : AppState)
  (d : JsVal) :
  contains (local_at_domain nonspace) email ->
  request BASE_URL net "/forgot-password" "POST" (forgot_body email) null
    = Ok (Success d) ->
  nullish d = false ->
  ForgotPasswordForm_handleRequestOtp BASE_URL net email s
  = (Ok tt,
     answered s (js_or (get_opt d "message") (str "OTP sent successfully!"))
       (mkPage "verify-otp" (forgot_body email))
       ("/forgot-password", make_config "POST" (forgot_body email) null)).
Proof.
  intros Hv Hreq Hd. apply ForgotPasswordForm_valid_iff in Hv.
  unfold ForgotPasswordForm_handleRequestOtp. rewrite Hv. cbn [negb].
  unfold api_request.
  change (Some (JObj (object [("email", str email)])))
    with (forgot_body email).
  unfold bind at 1. unfold bind at 1. cbn [log_request modify fst snd].
  unfold lift at 1. rewrite Hreq. cbn [success data].
  rewrite (get_defined d "message" Hd). reflexivity.
Qed.

Lemma OTPVerificationForm_success (net : Fetch) (email otp : string)
  (s : AppState) (d : JsVal) :
  email <> "" ->
  ValidationFacts.decimal_digits otp 6 ->
  request BASE_URL net "/verify-otp" "POST" (verify_body email otp) null
    = Ok (Success d) ->
  nullish d = false ->
  OTPVerificationForm_handleVerifyOtp BASE_URL net (forgot_body email) otp s
  = (Ok tt,
     answered s
       (js_or (get_opt d "message") (str "OTP verified successfully!"))
       (mkPage "reset-password" (verify_body email otp))
       ("/verify-otp", make_config "POST" (verify_body email otp) null)).
Proof.
  intros Hne Hv Hreq Hd. apply OTPVerificationForm_valid_iff in Hv.
  apply String.eqb_neq in Hne.
  unfold OTPVerificationForm_handleVerifyOtp. cbv zeta. rewrite Hv.
  cbn [negb].
  assert (Hem : js_or (get_opt (forgot_body email) "email") (str "")
                = str email).
  { unfold js_or. cbn. rewrite Hne. reflexivity. }
  rewrite Hem. unfold api_request.
  change (Some (JObj (object [("email", str email); ("otp", str otp)])))
    with (verify_body email otp).
  unfold bind at 1. unfold bind at 1. cbn [log_request modify fst snd].
  unfold lift at 1. rewrite Hreq. cbn [success data].
  rewrite (get_defined d "message" Hd). reflexivity.
Qed.

Lemma ResetPasswordForm_login (net : Fetch) (email otp password : string)
  (s : AppState) (d : JsVal) :
  email <> "" -> otp <> "" -> 6 <= js_length password ->
  request BASE_URL net "/reset-password" "POST"
    (reset_body email otp password) null = Ok (Success d) ->
  nullish d = false ->
  ResetPasswordForm_handleResetPassword BASE_URL net (verify_body email otp)
    password password s
  = (Ok tt,
     answered s
       (js_or (get_opt d "message") (str "Password updated successfully!"))
       (mkPage "login" null)
       ("/reset-password",
        make_config "POST" (reset_body email otp password) null)).
Proof.
  intros Hne Hno Hlen Hreq Hd.
  assert (Hv : no_keys (ResetPasswordForm_validateForm
                          (str email) (str otp) password password) = true).
  { apply ResetPasswordForm_valid_iff. unfold reset_form_valid.
    rewrite !truthy_str.
    apply String.eqb_neq in Hne, Hno. rewrite Hne, Hno. auto. }
  unfold ResetPasswordForm_handleResetPassword. cbv zeta.
  change (ResetPasswordForm_field (verify_body email otp) "email")
    with (str email).
  change (ResetPasswordForm_field (verify_body email otp) "otp")
    with (str otp).
  rewrite Hv. cbn [negb]. unfold api_request.
  change (Some (JObj (object [("email", str email); ("otp", str otp);
                              ("password", str password);
                              ("password_confirmation", str password)])))
    with (reset_body email otp password).
  unfold bind at 1. unfold bind at 1. cbn [log_request modify fst snd].
  unfold lift at 1. rewrite Hreq. cbn [success data].
  rewrite (get_defined d "message" Hd). reflexivity.
Qed.

Lemma digits_nonempty (otp : string) :
  ValidationFacts.decimal_digits otp 6 -> otp <> "".
Proof. intros [_ Hl] ->. discriminate Hl. Qed.

(** The three steps of the password recovery compose: with valid input
    and three successful answers, the forgot-password form hands the email
    to the OTP page, the OTP form hands the email and the OTP to the reset
    page, and the reset form sends both back unchanged with the new
    password and ends on the login page.  Three calls are logged, the
    flash is that of the last step, and the user, the token and
    [localStorage] are as they were: recovering a password logs nobody
    in. *)
Theorem recovery_flow :
  forall (net1 net2 net3 : Fetch) (email otp password : string)
    (s : AppState) (d1 d2 d3 : JsVal),
    loading s = false ->
    contains (local_at_domain nonspace) email ->
    ValidationFacts.decimal_digits otp 6 ->
    6 <= js_length password ->
    request BASE_URL net1 "/forgot-password" "POST" (forgot_body email) null
      = Ok (Success d1) ->
    request BASE_URL net2 "/verify-otp" "POST" (verify_body email otp) null
      = Ok (Success d2) ->
    request BASE_URL net3 "/reset-password" "POST"
      (reset_body email otp password) null = Ok (Success d3) ->
    nullish d1 = false -> nullish d2 = false -> nullish d3 = false ->
    run BASE_URL s
      [RequestOtpSubmit net1 email; VerifyOtpSubmit net2 otp;
       NewPasswordSubmit net3 password password]
    = mkState (user s) (token s) false
        (js_or (get_opt d3 "message") (str "Password updated successfully!"))
        (str "success") (mkPage "login" null)
        (isInitialMount s) (authToken s) (tokenAtMount s) (awaitingUser s)
        (S (S (S (timers s))))
        (requests s
         ++ [("/forgot-password", public_post [("email", JStr email)]);
             ("/verify-otp",
              public_post [("email", JStr email); ("otp", JStr otp)]);
             ("/reset-password",
              public_post [("email", JStr email); ("otp", JStr otp);
                           ("password", JStr password);
                           ("password_confirmation", JStr password)])])%list.
Proof.
  intros net1 net2 net3 email otp password s d1 d2 d3
    Hl Hemail Hotp Hlen Hr1 Hr2 Hr3 Hd1 Hd2 Hd3.
  pose proof (contains_nonempty _ _ Hemail) as Hne.
  pose proof (digits_nonempty _ Hotp) as Hno.
  rewrite !run_cons. cbn [run fold_left].
  set (s1 := answered s
               (js_or (get_opt d1 "message") (str "OTP sent successfully!"))
               (mkPage "verify-otp" (forgot_body email))
               ("/forgot-password",
                make_config "POST" (forgot_body email) null)).
  set (s2 := answered s1
               (js_or (get_opt d2 "message")
                  (str "OTP verified successfully!"))
               (mkPage "reset-password" (verify_body email otp))
               ("/verify-otp",
                make_config "POST" (verify_body email otp) null)).
  assert (H1 : step BASE_URL s (RequestOtpSubmit net1 email) = s1).
  { rewrite step_unfold. cbn [enabled]. rewrite Hl. cbn [negb handler].
    rewrite (ForgotPasswordForm_success net1 email s d1 Hemail Hr1 Hd1).
    reflexivity. }
  assert (H2 : step BASE_URL s1 (VerifyOtpSubmit net2 otp) = s2).
  { rewrite step_unfold. cbn [enabled s1 answered loading]. rewrite Hl.
    cbn [negb handler]. rewrite bind_read. cbn [currentPage page_data].
    rewrite (OTPVerificationForm_success net2 email otp _ d2
               Hne Hotp Hr2 Hd2).
    reflexivity. }
  rewrite H1, H2, step_unfold. cbn [enabled s1 s2 answered loading].
  rewrite Hl. cbn [negb handler]. rewrite bind_read.
  cbn [currentPage page_data].
  rewrite (ResetPasswordForm_login net3 email otp password _ d3
             Hne Hno Hlen Hr3 Hd3).
  unfold s2, s1, answered.
  cbn [snd user token loading isInitialMount authToken tokenAtMount
         awaitingUser timers requests].
  rewrite Hl, <- !app_assoc. reflexivity.
Qed.

(** ** The timers of the flash *)

(** [showFlashMessage] starts a timer and cancels none: when a second
    message is shown before the timer of the first has fired, that timer
    removes the second message, whose own timer is still pending. *)
Theorem flash_timeout_clears_later_message :
  forall (first second type1 type2 : JsVal) (s : AppState),
    let s' := snd ((showFlashMessage first type1 ;;
                    showFlashMessage second type2 ;;
                    flash_timeout)%handler s) in
    flash s' = (null, null)
    /\ timers s' = S (timers s)
    /\ enabled s' FlashTimeout = true.
Proof. intros first second type1 type2 s. repeat split. Qed.

End Answers.

(** ** Concrete runs *)

Definition unreachable : Fetch := fun _ _ => FetchRejected.

Lemma unreachable_offline : offline unreachable.
Proof. intros url config raw H. discriminate H. Qed.

Lemma LoginForm_success_witness :
  LoginForm_handleSubmit example_url (answer login_teacher)
    "user@example.com" "secret1" (step example_url (mount None) MountEffect)
  = (Ok tt,
     mkState (Some (JObj [("id", JNum 7); ("role", JStr "teacher")]))
       (str "1|abcdef") false (str "Login successful!") (str "success")
       (mkPage "dashboard" null) false (Some "1|abcdef") null false 1%nat
       [("/login",
         public_post [("email", JStr "user@example.com");
                      ("password", JStr "secret1")])]).
Proof.
  apply (proj1 (LoginForm_success example_url (answer login_teacher)
                  "user@example.com" "secret1"
                  (step example_url (mount None) MountEffect)
                  (Some (JObj [("access_token", JStr "1|abcdef");
                               ("user", JObj [("id", JNum 7);
                                              ("role", JStr "teacher")])]))
                  (proj1 (LoginForm_valid_iff "user@example.com" "secret1")
                         eq_refl)
                  eq_refl eq_refl)).
  - reflexivity.
  - reflexivity.
Defined.

Lemma ProfileSettings_success_witness :
  let s := run example_url (mount None)
             [MountEffect;
              LoginSubmit (answer login_teacher) "user@example.com" "secret1";
              LinkClick "profile-settings"] in
  let out := ProfileSettings_handleChangePassword example_url
               (answer (success_with_message "Password updated."))
               "secret1" "secret2" "secret2" s in
  fst out = Ok tt
  /\ token (snd out) = null /\ authToken (snd out) = None
  /\ user (snd out) = null /\ currentPage (snd out) = mkPage "login" null.
Proof.
  cbv zeta.
  rewrite (proj1 (ProfileSettings_success example_url
                    (answer (success_with_message "Password updated."))
                    "secret1" "secret2"
                    (run example_url (mount None)
                       [MountEffect;
                        LoginSubmit (answer login_teacher)
                          "user@example.com" "secret1";
                        LinkClick "profile-settings"])
                    (Some (JObj [("message", JStr "Password updated.")]))
                    (proj1 (ProfileSettings_valid_iff "secret1" "secret2"
                              "secret2") eq_refl)
                    eq_refl)
            eq_refl).
  repeat split.
Defined.

Lemma offline_submit_witness :
  flash (snd (handler example_url
                (LoginSubmit unreachable "user@example.com" "secret1")
                (step example_url (mount None) MountEffect)))
  = network_flash.
Proof.
  destruct (offline_submit example_url
              (LoginSubmit unreachable "user@example.com" "secret1")
              unreachable (step example_url (mount None) MountEffect)
              eq_refl unreachable_offline) as [H|[call H]].
  - exfalso. vm_compute in H. discriminate H.
  - rewrite H. reflexivity.
Defined.

Definition user_teacher : Json :=
  JObj [("success", JBool true);
        ("data", JObj [("id", JNum 7); ("role", JStr "teacher")])].

Lemma session_check_success_witness :
  currentPage (run example_url (mount (Some "1|abcdef"))
                 [MountEffect; UserResponse (answer user_teacher)])
  = mkPage "dashboard" null.
Proof.
  rewrite (proj1 (session_check_success example_url "1|abcdef"
                    (answer user_teacher)
                    (Some (JObj [("id", JNum 7); ("role", JStr "teacher")]))
                    ltac:(discriminate) eq_refl)
            eq_refl).
  reflexivity.
Defined.

Lemma offline_session_check_witness :
  authToken (run example_url (mount (Some "1|abcdef"))
               [MountEffect; UserResponse unreachable])
  = None.
Proof.
  rewrite (offline_session_check example_url "1|abcdef" unreachable
             ltac:(discriminate) unreachable_offline).
  reflexivity.
Defined.

Lemma no_token_no_session_check_witness :
  sessionChecks
    (run example_url (step example_url (mount (Some "")) MountEffect)
       [Rerender; MountEffect;
        LoginSubmit (answer login_teacher) "user@example.com" "secret1"])
  = 0%nat.
Proof.
  apply (proj2 (proj2 (proj2
           (no_token_no_session_check example_url (Some "")
              [Rerender; MountEffect;
               LoginSubmit (answer login_teacher) "user@example.com"
                 "secret1"]
              (or_intror eq_refl))))).
Defined.

Lemma recovery_flow_witness :
  currentPage
    (run example_url
       (run example_url (mount None)
          [MountEffect; LinkClick "forgot-password"])
       [RequestOtpSubmit (answer (success_with_message "OTP sent."))
          "user@example.com";
        VerifyOtpSubmit (answer (success_with_message "OTP verified."))
          "123456";
        NewPasswordSubmit (answer (success_with_message "Password updated."))
          "newsecurepass" "newsecurepass"])
  = mkPage "login" null.
Proof.
  rewrite (recovery_flow example_url
             (answer (success_with_message "OTP sent."))
             (answer (success_with_message "OTP verified."))
             (answer (success_with_message "Password updated."))
             "user@example.com" "123456" "newsecurepass"
             (run example_url (mount None)
                [MountEffect; LinkClick "forgot-password"])
             (Some (JObj [("message", JStr "OTP sent.")]))
             (Some (JObj [("message", JStr "OTP verified.")]))
             (Some (JObj [("message", JStr "Password updated.")]))
             eq_refl
             (proj1 (ForgotPasswordForm_valid_iff "user@example.com")
                    eq_refl)
             (proj1 (OTPVerificationForm_valid_iff "123456") eq_refl)
             ltac:(vm_compute; discriminate)
             eq_refl eq_refl eq_refl eq_refl eq_refl eq_refl).
  reflexivity.
Defined.

End AppRuns.

(* ================================================================== *)
(** * src/pages/Dashboard/Dashboard.jsx: what the dashboard shows *)
(* ================================================================== *)

Module Dashboard.

Import App JsFacts AppFacts AppRuns.

(** What [Dashboard] returns: the notice for a missing user, or the card
    with its buttons around the content chosen by [switch (user.role)]. *)
Inductive View : Type :=
| UserNotAvailable
| RoleDashboard (heading welcome : string) (name : JsVal) (items : list string)
| UnknownRole.

(** [user.name || user.email] *)
Definition name_or_email (user : JsVal) : Result JsVal :=
  (name <- get user "name" ;;
   if truthy name then Ok name else get user "email")%result.

Definition role_dashboard (heading welcome : string) (items : list string)
  (user : JsVal) : Result View :=
  (name <- name_or_email user ;;
   Ok (RoleDashboard heading welcome name items))%result.

Definition Dashboard (user : JsVal) : Result View :=
  if negb (truthy user) then Ok UserNotAvailable
  else
    (role <- get user "role" ;;
     if strict_eq role (str "super_admin") then
       role_dashboard "Super Admin Dashboard" "Welcome, Super Admin "
         ["System Overview"; "User Management"; "School Management"] user
     else if strict_eq role (str "school_admin") then
       role_dashboard "School Admin Dashboard" "Welcome, School Admin "
         ["School Overview"; "Teacher Management"; "Student Management"] user
     else if strict_eq role (str "hod") then
       role_dashboard "HOD Dashboard" "Welcome, HOD "
         ["Department Overview"; "Faculty Management"; "Course Management"]
         user
     else if strict_eq role (str "teacher") then
       role_dashboard "Teacher Dashboard" "Welcome, Teacher "
         ["My Classes"; "Student Attendance"; "Grades & Assessments"] user
     else if strict_eq role (str "student") then
       role_dashboard "Student Dashboard" "Welcome, Student "
         ["My Classes"; "Attendance"; "Grades"] user
     else Ok UnknownRole)%result.

Lemma role_of_object (user : JsVal) (r : string) :
  get_opt user "role" = str r ->
  exists fields, user = Some (JObj fields) /\ lookup "role" fields = str r.
Proof.
  destruct user as [[ | b | n | s | items | fields]|]; try discriminate.
  intros H. exists fields. split; [reflexivity | exact H].
Qed.

Lemma recognized_role (role : JsVal) :
  role_recognized role = true ->
  exists r, In r recognized_roles /\ role = str r.
Proof.
  unfold role_recognized. intros H. apply existsb_exists in H.
  destruct H as (r & Hin & Hr). exists r. split; [exact Hin|].
  apply strict_eq_str, Hr.
Qed.

(** What the [switch] of [Dashboard] shows for each role: the heading,
    the words of the greeting and the entries of the list. *)
Definition role_cards : list (string * (string * string * list string)) :=
  [("super_admin",
    ("Super Admin Dashboard", "Welcome, Super Admin ",
     ["System Overview"; "User Management"; "School Management"]));
   ("school_admin",
    ("School Admin Dashboard", "Welcome, School Admin ",
     ["School Overview"; "Teacher Management"; "Student Management"]));
   ("hod",
    ("HOD Dashboard", "Welcome, HOD ",
     ["Department Overview"; "Faculty Management"; "Course Management"]));
   ("teacher",
    ("Teacher Dashboard", "Welcome, Teacher ",
     ["My Classes"; "Student Attendance"; "Grades & Assessments"]));
   ("student",
    ("Student Dashboard", "Welcome, Student ",
     ["My Classes"; "Attendance"; "Grades"]))].

Lemma Dashboard_of_role (user : JsVal) (r heading welcome : string)
  (items : list string) :
  In (r, (heading, welcome, items)) role_cards ->
  get_opt user "role" = str r ->
  Dashboard user
  = Ok (RoleDashboard heading welcome
          (js_or (get_opt user "name") (get_opt user "email")) items).
Proof.
  intros Hin Hr.
  destruct (role_of_object user r Hr) as (fields & -> & Hrole).
  unfold Dashboard, role_dashboard, name_or_email, js_or.
  cbn [truthy negb get get_opt rbind]. rewrite Hrole.
  cbn in Hin.
  destruct Hin as [E|[E|[E|[E|[E|[]]]]]]; inversion E; subst;
    cbn [strict_eq str]; cbn;
    destruct (truthy (lookup "name" fields)); reflexivity.
Qed.

(** [Dashboard] and [redirectToDashboard] agree on the roles.  The roles
    [redirectToDashboard] sends to the dashboard are the five roles of
    [Dashboard]'s [switch], and for a user with one of them [Dashboard]
    returns without an exception the card of that very role: its
    heading, its greeting with [user.name || user.email] and its list.
    The branches [Unknown role] and [User data not available] are met
    only by users that [redirectToDashboard] sends to the login page, the
    second exactly by the falsy ones. *)
Theorem Dashboard_agrees_with_redirect :
  forall (user : JsVal),
    (landing_page (get_opt user "role") = mkPage "dashboard" null
     <-> exists r, In r (map fst role_cards) /\ get_opt user "role" = str r)
    /\ (forall r heading welcome items,
          In (r, (heading, welcome, items)) role_cards ->
          get_opt user "role" = str r ->
          Dashboard user
          = Ok (RoleDashboard heading welcome
                  (js_or (get_opt user "name") (get_opt user "email"))
                  items))
    /\ (landing_page (get_opt user "role") = mkPage "login" null ->
        Dashboard user = Ok UnknownRole
        \/ Dashboard user = Ok UserNotAvailable)
    /\ (Dashboard user = Ok UserNotAvailable <-> truthy user = false).
Proof.
  intros user.
  assert (Hno : Dashboard user = Ok UserNotAvailable <-> truthy user = false).
  { unfold Dashboard. destruct (truthy user) eqn:Hu; cbn [negb];
      [|split; reflexivity].
    split; [|discriminate].
    rewrite (get_defined user "role" (truthy_not_nullish user Hu)).
    unfold role_dashboard, name_or_email. cbn [rbind].
    rewrite (get_defined user "name" (truthy_not_nullish user Hu)).
    rewrite (get_defined user "email" (truthy_not_nullish user Hu)).
    cbn [rbind].
    repeat match goal with
           | |- context [if ?c then _ else _] => destruct c; cbn [rbind]
           end; discriminate. }
  split; [|split; [|split; [|exact Hno]]].
  - unfold landing_page.
    destruct (role_recognized (get_opt user "role")) eqn:Hrec; cbv iota.
    + split; [intros _ | reflexivity].
      destruct (recognized_role _ Hrec) as (r & Hin & Hr).
      exists r. split; [exact Hin | exact Hr].
    + split; [intros H0; discriminate H0|].
      intros (r & Hin & Hr). exfalso.
      assert (Ht : role_recognized (get_opt user "role") = true).
      { unfold role_recognized. apply existsb_exists. exists r.
        split; [exact Hin|]. rewrite Hr. cbn. apply String.eqb_refl. }
      congruence.
  - intros r heading welcome items. apply Dashboard_of_role.
  - unfold landing_page.
    destruct (role_recognized (get_opt user "role")) eqn:Hrec; cbv iota;
      [intros H0; discriminate H0|].
    intros _. unfold Dashboard.
    destruct (truthy user) eqn:Hu; cbn [negb]; [left | right; reflexivity].
    rewrite (get_defined user "role" (truthy_not_nullish user Hu)).
    cbn [rbind].
    unfold role_recognized in Hrec. cbn [existsb recognized_roles] in Hrec.
    repeat (apply orb_false_iff in Hrec; destruct Hrec as [? Hrec]).
    repeat match goal with
           | H : strict_eq _ _ = false |- _ => rewrite H; clear H
           end.
    reflexivity.
Qed.

End Dashboard.
